(** * Rainbow likelihood service: the three Go programs of the repository

    The repository holds three stand-alone [package main] programs that
    share most of their names:

    - [OpenWeather]: [main.go], the OpenWeatherMap client with the
      [/predict/{lat}/{lon}] and [/heatmap] handlers;
    - [Gov]: the api.weather.gov client without a cache (retry loop,
      text and compass-direction scoring);
    - [GovCached]: the api.weather.gov client with the 15 minute cache
      (the Go program stored after the HTML page in [index.html]).

    Numbers.  Go's [float64] is modelled by the rationals [Q] with exact
    arithmetic: [math.Min] is [Qmin], [math.Abs] is [Qabs], comparisons are
    the boolean comparisons of [Q].  Rounding, infinities and NaN are not
    modelled there.  Go's [int] and [int64] are [Z]; the programs only
    compare and convert them, so no wrap-around occurs.

    The heatmap handler of [main.go] is the exception: its loops count
    with a [float64], so the offsets they visit depend on rounding.  It is
    embedded a second time in [OpenWeather64], over IEEE 754 binary64
    numbers with NaN and the infinities, and the statements about its grid
    and about the points it returns are made there.  [strconv.ParseFloat]
    also reads the spellings of NaN and of the infinities without an
    error; over [Q] these inputs have no value, so what is said about the
    coordinates of the two [/predict] handlers is said about finite
    numbers.

    Effects.  Logging, [time.Now], [time.Sleep], the upstream HTTP exchange
    and the package-level cache are threaded through a state monad [M] over
    a [World]; a run-time panic is an outcome of its own. *)

From Stdlib Require Import ZArith QArith Qabs Qminmax Qround Lqa Lia List String Ascii Bool.
From Stdlib Require Reals Qreals SpecFloat.
From stdpp Require Import base option gmap strings pretty.
Import ListNotations.

Local Open Scope Z_scope.
Local Open Scope Q_scope.

(** ** The Go run time, as far as the programs use it *)
Module Go.

(** [a > b] on floats; [Qle_bool] is the library's [<=]. *)
Definition Qlt_bool (a b : Q) : bool := negb (Qle_bool b a).

(** An [error] value.  [fmt.Errorf] with the verb [%w] keeps the wrapped
    error reachable through [Unwrap]; with [%d] or [%v] only text remains. *)
Inductive GoError : Type :=
| ErrorString (text : string)
| Errorf_w (prefix : string) (wrapped : GoError)
| Errorf_w_nil (prefix : string).

(** [err.Error()]: a nil operand of [%w] is printed as [%!w(<nil>)]. *)
Fixpoint Error (e : GoError) : string :=
  match e with
  | ErrorString text => text
  | Errorf_w prefix inner => prefix +:+ Error inner
  | Errorf_w_nil prefix => prefix +:+ "%!w(<nil>)"
  end.

Definition Unwrap (e : GoError) : option GoError :=
  match e with
  | ErrorString _ => None
  | Errorf_w _ wrapped => Some wrapped
  | Errorf_w_nil _ => None
  end.

(** Run-time panics raised by the programs. *)
Inductive PanicValue : Type :=
| IndexOutOfRange (index : Z) (len : nat)
| InterfaceConversion (have want : string).

Inductive Outcome (A : Type) : Type :=
| Ok (a : A)
| Panic (p : PanicValue).
Arguments Ok {A} a.
Arguments Panic {A} p.

(** Log records of charmbracelet/log: level, message, key/value pairs. *)
Inductive Level : Type := DebugLevel | InfoLevel | ErrorLevel.

Inductive LogValue : Type :=
| VString (s : string)
| VInt (z : Z)
| VFloat (q : Q)
| VFloat64 (x : SpecFloat.spec_float)
| VError (e : GoError)
| VStruct.

Record LogEntry : Type := mkLog {
  level : Level;
  message : string;
  keyvals : list (string * LogValue)
}.

(** What the upstream server does with one request. *)
Inductive Body : Type :=
| ReadError (e : GoError)
| Bytes (raw : string).

Inductive Reply : Type :=
| TransportError (e : GoError)
| Response (StatusCode : Z) (body : Body).

Record Exchange : Type := mkExchange {
  reply : Reply;
  took : Z
}.

(** The upstream is an oracle over the instant of the request, the
    requests sent before it and the URL. *)
Definition Upstream : Type := Z -> list string -> string -> Exchange.

Section WorldAndMonad.
(** [Cached] is the type of the values held by the package-level cache;
    the programs without a cache never touch that field. *)
Context {Cached : Type}.

Record CacheEntry : Type := mkCacheEntry {
  Data : Cached;
  ExpiresAt : Z
}.

Record World : Type := mkWorld {
  now : Z;                       (* wall clock in seconds, read by time.Now *)
  requests : list string;        (* URLs sent upstream, oldest first *)
  sleeps : list Z;               (* arguments of time.Sleep, in seconds *)
  logged : list LogEntry;        (* log output, oldest first *)
  cache : gmap string CacheEntry (* var cache = make(map[string]CacheEntry) *)
}.

Definition M (A : Type) : Type := World -> Outcome A * World.

Definition ret {A} (a : A) : M A := fun w => (Ok a, w).

Definition bind {A B} (c : M A) (k : A -> M B) : M B :=
  fun w =>
    match c w with
    | (Ok a, w') => k a w'
    | (Panic p, w') => (Panic p, w')
    end.

Definition panic {A} (p : PanicValue) : M A := fun w => (Panic p, w).

Definition log (l : Level) (msg : string) (kv : list (string * LogValue)) : M unit :=
  fun w => (Ok tt, mkWorld (now w) (requests w) (sleeps w)
                           (logged w ++ [mkLog l msg kv]) (cache w)).

Definition time_Now : M Z := fun w => (Ok (now w), w).

(** [time.Sleep(d * time.Second)] *)
Definition time_Sleep (d : Z) : M unit :=
  fun w => (Ok tt, mkWorld (now w + d)%Z (requests w) (sleeps w ++ [d])
                           (logged w) (cache w)).

(** One HTTP exchange: [http.Get(url)] or [client.Do(req)]. *)
Definition roundTrip (net : Upstream) (url : string) : M Reply :=
  fun w =>
    let x := net (now w) (requests w) url in
    (Ok (reply x), mkWorld (now w + took x)%Z (requests w ++ [url]) (sleeps w)
                           (logged w) (cache w)).

Definition cache_lookup (url : string) : M (option CacheEntry) :=
  fun w => (Ok (cache w !! url), w).

Definition cache_store (url : string) (e : CacheEntry) : M unit :=
  fun w => (Ok tt, mkWorld (now w) (requests w) (sleeps w) (logged w)
                           (<[url := e]> (cache w))).

(** Slice indexing [s[i]]. *)
Definition index {A} (s : list A) (i : Z) : M A :=
  match (if (i <? 0)%Z then None else nth_error s (Z.to_nat i)) with
  | Some a => ret a
  | None => panic (IndexOutOfRange i (length s))
  end.

(** [for _, x := range xs { body }] over the loop's variables [s];
    [continue] is a body that returns them as they are. *)
Fixpoint forRange {A S} (body : A -> S -> M S) (xs : list A) (s : S) : M S :=
  match xs with
  | [] => ret s
  | x :: rest => bind (body x s) (forRange body rest)
  end.
End WorldAndMonad.
Arguments CacheEntry Cached : clear implicits.
Arguments World Cached : clear implicits.
Arguments M Cached A : clear implicits.

Module Notations.
Notation "x <- c ;; k" := (bind c (fun x => k))
  (at level 100, c at next level, right associativity).
Notation "c ;; k" := (bind c (fun _ => k))
  (at level 100, right associativity).
End Notations.

(** The state of a fresh process at wall-clock instant [t]. *)
Definition boot {Cached} (t : Z) : World Cached := mkWorld t [] [] [] ∅.

(** A program without a package-level cache: its map has no entries. *)
Definition NoCache : Type := Empty_set.

(** A [time.Time] as the calendar and clock reading that [Hour], [Minute]
    and [Month] return, in the time's own zone. *)
Record Time : Type := mkTime {
  Year : Z; Month : Z; Day : Z;
  Hour : Z; Minute : Z; Second : Z;
  ZoneOffset : Z
}.

(** [time.Time{}]: January 1, year 1, 00:00:00 UTC. *)
Definition zeroTime : Time := mkTime 1 1 1 0 0 0 0.

Definition April : Z := 4.
Definition September : Z := 9.

(** [math.Sqrt(x) <= r] for a sum of squares [x]: on exact numbers the
    root is at most [r] when [r] is not negative and [x <= r * r]. *)
Definition Sqrt_le (x r : Q) : bool := Qle_bool 0 r && Qle_bool x (r * r).

(** [strings.Contains(s, substr)], byte-wise as in Go. *)
Fixpoint Contains (s substr : string) : bool :=
  String.prefix substr s ||
  match s with
  | EmptyString => false
  | String _ rest => Contains rest substr
  end.

(** [strings.Split(s, " ")[0]]: the bytes before the first space, or all
    of [s] when it has none; [Split] never returns an empty slice for a
    non-empty separator, so the index is in range. *)
Fixpoint firstField (s : string) : string :=
  match s with
  | EmptyString => EmptyString
  | String c rest => if Ascii.eqb c " "%char then EmptyString else String c (firstField rest)
  end.

(** [strings.Replace(s, old, new, 1)] for a non-empty [old]. *)
Fixpoint replaceFirst (s old new : string) : string :=
  if String.prefix old s
  then new +:+ String.substring (String.length old) (String.length s - String.length old) s
  else match s with
       | EmptyString => EmptyString
       | String c rest => String c (replaceFirst rest old new)
       end.

(** Library functions whose results the programs branch on. *)
Class Library : Type := {
  (* strconv.ParseFloat(s, 64), for the finite numbers it returns *)
  ParseFloat : string -> Q + GoError;
  (* time.Parse(time.RFC3339, s) *)
  time_Parse : string -> Time + GoError;
  (* time.Unix(sec, 0) *)
  time_Unix : Z -> Time;
  (* t.Format(time.RFC3339) *)
  Format : Time -> string;
  (* strings.ToLower *)
  ToLower : string -> string;
  (* the error of http.NewRequest("GET", url, nil), if any *)
  NewRequest : string -> option GoError;
  (* fmt verbs %f and %.4f on a float64, %d on an int *)
  verb_f : Q -> string;
  verb_4f : Q -> string;
  verb_d : Z -> string
}.

End Go.

(** ** A reference instance of the library

    The programs are verified for every [Library]; the closed examples run
    them with the functions below.  They follow the Go documentation on the
    inputs they accept: [ParseFloat] reads decimal literals without an
    exponent, [time_Parse] the layout [2006-01-02T15:04:05Z07:00] with an
    optional fraction of a second, [time_Unix] and [Format] work in UTC, and
    [ToLower] maps the ASCII letters. *)
Module Reference.
Import Go.

Definition digit (c : ascii) : option Z :=
  let n := Z.of_nat (nat_of_ascii c) in
  if (48 <=? n)%Z && (n <=? 57)%Z then Some (n - 48)%Z else None.

(** The leading decimal digits of [s]: their value, their number and the
    rest of the string. *)
Fixpoint digits (s : string) (acc : Z) (count : nat) : Z * nat * string :=
  match s with
  | String c rest =>
      match digit c with
      | Some d => digits rest (10 * acc + d)%Z (S count)
      | None => (acc, count, s)
      end
  | EmptyString => (acc, count, s)
  end.

Definition quote (s : string) : string :=
  String (ascii_of_nat 34) (s +:+ String (ascii_of_nat 34) EmptyString).

Definition ParseFloat (s : string) : Q + GoError :=
  let '(negative, body) :=
    match s with
    | String "-" rest => (true, rest)
    | String "+" rest => (false, rest)
    | _ => (false, s)
    end in
  let '(whole, nwhole, rest) := digits body 0 0 in
  let '(frac, nfrac, rest) :=
    match rest with
    | String "." rest => digits rest 0 0
    | _ => (0%Z, 0%nat, rest)
    end in
  match rest, (nwhole + nfrac)%nat with
  | EmptyString, S _ =>
      let scale := (10 ^ Z.of_nat nfrac)%Z in
      let q := Qmake (whole * scale + frac) (Z.to_pos scale) in
      inl (if negative then - q else q)
  | _, _ =>
      inr (ErrorString ("strconv.ParseFloat: parsing " +:+ quote s +:+ ": invalid syntax"))
  end.

Definition two (s : string) : option (Z * string) :=
  match s with
  | String a (String b rest) =>
      x ← digit a; y ← digit b; Some ((10 * x + y)%Z, rest)
  | _ => None
  end.

Definition expect (c : ascii) (s : string) : option string :=
  match s with
  | String d rest => if Ascii.eqb c d then Some rest else None
  | EmptyString => None
  end.

Definition leap (year : Z) : bool :=
  ((year mod 4 =? 0) && negb (year mod 100 =? 0) || (year mod 400 =? 0))%Z.

Definition daysIn (year month : Z) : Z :=
  if (month =? 2)%Z then (if leap year then 29 else 28)%Z
  else if ((month =? 4) || (month =? 6) || (month =? 9) || (month =? 11))%Z then 30%Z
  else 31%Z.

Definition zone (s : string) : option (Z * string) :=
  match s with
  | String "Z" rest => Some (0%Z, rest)
  | String sign rest =>
      '(hh, rest) ← two rest;
      rest ← expect ":" rest;
      '(mm, rest) ← two rest;
      let seconds := (hh * 3600 + mm * 60)%Z in
      if Ascii.eqb sign "+" then Some (seconds, rest)
      else if Ascii.eqb sign "-" then Some ((- seconds)%Z, rest)
      else None
  | EmptyString => None
  end.

Definition fraction (s : string) : option string :=
  match s with
  | String "." rest =>
      let '(_, n, rest) := digits rest 0 0 in
      match n with O => None | S _ => Some rest end
  | _ => Some s
  end.

Definition parseRFC3339 (s : string) : option Time :=
  '(c, rest) ← two s;
  '(y, rest) ← two rest;
  rest ← expect "-" rest;
  '(month, rest) ← two rest;
  rest ← expect "-" rest;
  '(day, rest) ← two rest;
  rest ← expect "T" rest;
  '(hour, rest) ← two rest;
  rest ← expect ":" rest;
  '(minute, rest) ← two rest;
  rest ← expect ":" rest;
  '(second, rest) ← two rest;
  rest ← fraction rest;
  '(offset, rest) ← zone rest;
  let year := (100 * c + y)%Z in
  match rest with
  | EmptyString =>
      if ((1 <=? month) && (month <=? 12) && (1 <=? day) && (day <=? daysIn year month)
          && (hour <=? 23) && (minute <=? 59) && (second <=? 59))%Z
      then Some (mkTime year month day hour minute second offset)
      else None
  | _ => None
  end.

Definition time_Parse (s : string) : Time + GoError :=
  match parseRFC3339 s with
  | Some t => inl t
  | None => inr (ErrorString ("parsing time " +:+ quote s +:+ ": cannot parse as RFC3339"))
  end.

(** Seconds since 1970-01-01T00:00:00Z to the UTC calendar and clock. *)
Definition time_Unix (sec : Z) : Time :=
  let days := (sec / 86400)%Z in
  let rem := (sec mod 86400)%Z in
  let z := (days + 719468)%Z in
  let era := (z / 146097)%Z in
  let doe := (z - era * 146097)%Z in
  let yoe := ((doe - doe / 1460 + doe / 36524 - doe / 146096) / 365)%Z in
  let doy := (doe - (365 * yoe + yoe / 4 - yoe / 100))%Z in
  let mp := ((5 * doy + 2) / 153)%Z in
  let day := (doy - (153 * mp + 2) / 5 + 1)%Z in
  let month := (if mp <? 10 then mp + 3 else mp - 9)%Z in
  let year := (yoe + era * 400 + (if month <=? 2 then 1 else 0))%Z in
  mkTime year month day (rem / 3600) (rem mod 3600 / 60) (rem mod 60) 0.

Fixpoint zeros (n : nat) : string :=
  match n with
  | O => EmptyString
  | S n => String "0" (zeros n)
  end.

Definition pad (width : nat) (z : Z) : string :=
  let s := pretty z in
  zeros (width - String.length s) +:+ s.

Definition Format (t : Time) : string :=
  pad 4 (Year t) +:+ "-" +:+ pad 2 (Month t) +:+ "-" +:+ pad 2 (Day t) +:+ "T"
  +:+ pad 2 (Hour t) +:+ ":" +:+ pad 2 (Minute t) +:+ ":" +:+ pad 2 (Second t)
  +:+ (if (ZoneOffset t =? 0)%Z then "Z"
       else (if (ZoneOffset t <? 0)%Z then "-" else "+")
            +:+ pad 2 (Z.abs (ZoneOffset t) / 3600)
            +:+ ":" +:+ pad 2 (Z.abs (ZoneOffset t) mod 3600 / 60)).

Definition lower (c : ascii) : ascii :=
  let n := nat_of_ascii c in
  if (65 <=? n)%nat && (n <=? 90)%nat then ascii_of_nat (n + 32) else c.

Fixpoint ToLower (s : string) : string :=
  match s with
  | EmptyString => EmptyString
  | String c rest => String (lower c) (ToLower rest)
  end.

(** Round to the nearest integer, a tie to the even one. *)
Definition roundHalfEven (q : Q) : Z :=
  let f := Qfloor q in
  match Qcompare (q - inject_Z f) (1 # 2) with
  | Lt => f
  | Gt => (f + 1)%Z
  | Eq => if Z.even f then f else (f + 1)%Z
  end.

(** [%.<prec>f] *)
Definition fixed (prec : nat) (q : Q) : string :=
  let scale := (10 ^ Z.of_nat prec)%Z in
  let n := roundHalfEven (Qabs q * inject_Z scale) in
  (if Qlt_bool q 0 then "-" else EmptyString)
  +:+ pretty (n / scale)%Z
  +:+ match prec with
      | O => EmptyString
      | S _ => "." +:+ pad prec (n mod scale)%Z
      end.

(** [http.NewRequest] parses the URL; control characters are refused. *)
Fixpoint hasControl (s : string) : bool :=
  match s with
  | EmptyString => false
  | String c rest =>
      let n := nat_of_ascii c in
      (n <? 32)%nat || (n =? 127)%nat || hasControl rest
  end.

Definition NewRequest (url : string) : option GoError :=
  if hasControl url
  then Some (ErrorString ("parse " +:+ quote url
                          +:+ ": net/url: invalid control character in URL"))
  else None.

Definition library : Library := {|
  Go.ParseFloat := ParseFloat;
  Go.time_Parse := time_Parse;
  Go.time_Unix := time_Unix;
  Go.Format := Format;
  Go.ToLower := ToLower;
  Go.NewRequest := NewRequest;
  Go.verb_f := fixed 6;
  Go.verb_4f := fixed 4;
  Go.verb_d := pretty
|}.

End Reference.

(** ** [main.go]: the OpenWeatherMap program *)
Module OpenWeather.
Import Go Go.Notations.

Definition baseURL : string := "https://api.openweathermap.org/data/3.0/onecall".

Record WeatherCondition : Type := mkWeatherCondition {
  ID : Z;
  Description : string
}.

(** [WeatherData.Current] *)
Module Current.
Record t : Type := mk {
  Dt : Z; Temp : Q; Humidity : Z; Weather : list WeatherCondition;
  Clouds : Z; UVI : Q; Visibility : Z; WindSpeed : Q; WindDeg : Z
}.
End Current.

(** One element of [WeatherData.Hourly] *)
Module Hourly.
Record t : Type := mk {
  Dt : Z; Temp : Q; Humidity : Z; Weather : list WeatherCondition;
  Clouds : Z; UVI : Q; Visibility : Z; WindSpeed : Q; WindDeg : Z; Pop : Q
}.
End Hourly.

Record WeatherData : Type := mkWeatherData {
  Current : Current.t;
  Hourly : list Hourly.t
}.

(** [WeatherData{}] *)
Definition zeroWeatherData : WeatherData :=
  mkWeatherData (Current.mk 0 0 0 [] 0 0 0 0 0) [].

Record RainbowPrediction : Type := mkRainbowPrediction {
  Likelihood : Q;
  Location : string; Time : string
}.

Module HeatmapData.
Record t : Type := mk { Lat : Q; Lon : Q; Likelihood : Q }.
End HeatmapData.

(** The anonymous struct that [calculateRainbowLikelihood] takes. *)
Record Sample : Type := mkSample {
  Temp : Q; Humidity : Z; Weather : list WeatherCondition;
  Clouds : Z; UVI : Q; Visibility : Z; WindSpeed : Q; WindDeg : Z; Pop : Q
}.

(** What a handler leaves in the [http.ResponseWriter]. *)
Inductive Written : Type :=
| HttpError (code : Z) (text : string)
| PredictionJSON (p : RainbowPrediction)
| HeatmapJSON (points : list HeatmapData.t).

Definition StatusBadRequest : Z := 400.
Definition StatusInternalServerError : Z := 500.
Definition StatusOK : Z := 200.

Definition status (w : Written) : Z :=
  match w with
  | HttpError code _ => code
  | PredictionJSON _ | HeatmapJSON _ => StatusOK
  end.

Section Program.
Context {lib : Library}.
(** [var apiKey], the upstream server, and [json.Decoder.Decode] into a
    [WeatherData]. *)
Variable apiKey : string.
Variable net : Upstream.
Variable Decode : Body -> WeatherData + GoError.

Abbreviation M := (Go.M NoCache).

(** The [url] of [fetchWeatherData]:
    [fmt.Sprintf("%s?lat=%f&lon=%f&exclude=hourly,daily&units=metric&appid=%s", ...)]. *)
Definition requestURL (lat lon : Q) : string :=
  baseURL +:+ "?lat=" +:+ verb_f lat +:+ "&lon=" +:+ verb_f lon
  +:+ "&exclude=hourly,daily&units=metric&appid=" +:+ apiKey.

Definition fetchWeatherData (lat lon : Q) : M (WeatherData * option GoError) :=
  let url := requestURL lat lon in
  log DebugLevel "Fetching weather data" [("url", VString url)] ;;
  resp <- roundTrip net url ;;
  match resp with
  | TransportError err =>
      log ErrorLevel "Error making request" [("error", VError err)] ;;
      ret (zeroWeatherData, Some (Errorf_w "error making request: " err))
  | Response StatusCode body =>
      if negb (StatusCode =? StatusOK)%Z then
        log ErrorLevel "API request failed" [("status_code", VInt StatusCode)] ;;
        ret (zeroWeatherData,
             Some (ErrorString ("API request failed with status code: " +:+ verb_d StatusCode)))
      else
        match Decode body with
        | inr err =>
            log ErrorLevel "Error decoding response" [("error", VError err)] ;;
            ret (zeroWeatherData, Some (Errorf_w "error decoding response: " err))
        | inl weatherData =>
            log DebugLevel "Weather data fetched successfully" [("data", VStruct)] ;;
            ret (weatherData, None)
        end
  end.

(** [a || b] with a right operand that is evaluated only when needed. *)
Definition orElse (a : bool) (b : M bool) : M bool :=
  if a then ret true else b.

Definition calculateRainbowLikelihood (weather : Sample) : M Q :=
  log DebugLevel "Calculating rainbow likelihood" [("weather_data", VStruct)] ;;
  unsuitable <-
    orElse (length (Weather weather) =? 0)%nat
      (w0 <- index (Weather weather) 0 ;;
       orElse (ID w0 <? 200)%Z
         (w0 <- index (Weather weather) 0 ;; ret (ID w0 >=? 700)%Z)) ;;
  if (unsuitable : bool) then
    w0 <- index (Weather weather) 0 ;;
    log DebugLevel "Weather conditions not suitable for rainbow" [("weather_id", VInt (ID w0))] ;;
    ret 0
  else
    let cloudFactor := 1 - inject_Z (Clouds weather) / 100 in
    let humidityFactor := inject_Z (Humidity weather) / 100 in
    let uviFactor := Qmin (UVI weather / 10) 1 in
    let visibilityFactor := Qmin (inject_Z (Visibility weather) / 10000) 1 in
    let windFactor := 1 - Qmin (WindSpeed weather / 20) 1 in
    let likelihood :=
      (cloudFactor + humidityFactor + uviFactor + visibilityFactor + windFactor) / 5 in
    a <- index (Weather weather) 0 ;;
    rainy <- (if (ID a >=? 300)%Z
              then b <- index (Weather weather) 0 ;; ret (ID b <? 600)%Z
              else ret false) ;;
    likelihood <-
      (if (rainy : bool) then
         c <- index (Weather weather) 0 ;;
         log DebugLevel "Increased likelihood due to rain" [("weather_id", VInt (ID c))] ;;
         ret (likelihood * (3 # 2))
       else if Qlt_bool (1 # 2) (Pop weather) then
         log DebugLevel "Increased likelihood due to high precipitation probability"
             [("pop", VFloat (Pop weather))] ;;
         ret (likelihood * (13 # 10))
       else ret likelihood) ;;
    let finalLikelihood := Qmin likelihood 1 in
    log InfoLevel "Rainbow likelihood calculated" [("likelihood", VFloat finalLikelihood)] ;;
    ret finalLikelihood.

(** The body of the [range weatherData.Hourly] loop of
    [handlePrediction], over [bestLikelihood] and [bestTime]. *)
Definition hourlyBody (hourly : Hourly.t) (best : Q * Go.Time) : M (Q * Go.Time) :=
  let '(bestLikelihood, bestTime) := best in
  likelihood <- calculateRainbowLikelihood
    (mkSample (Hourly.Temp hourly) (Hourly.Humidity hourly) (Hourly.Weather hourly)
              (Hourly.Clouds hourly) (Hourly.UVI hourly) (Hourly.Visibility hourly)
              (Hourly.WindSpeed hourly) (Hourly.WindDeg hourly) (Hourly.Pop hourly)) ;;
  if Qlt_bool bestLikelihood likelihood
  then ret (likelihood, time_Unix (Hourly.Dt hourly))
  else ret (bestLikelihood, bestTime).

(** [vars_lat] and [vars_lon] are [mux.Vars(r)["lat"]] and [["lon"]]. *)
Definition handlePrediction (vars_lat vars_lon : string) : M Written :=
  match ParseFloat vars_lat with
  | inr err =>
      log ErrorLevel "Invalid latitude" [("error", VError err)] ;;
      ret (HttpError StatusBadRequest "Invalid latitude")
  | inl lat =>
      match ParseFloat vars_lon with
      | inr err =>
          log ErrorLevel "Invalid longitude" [("error", VError err)] ;;
          ret (HttpError StatusBadRequest "Invalid longitude")
      | inl lon =>
          log InfoLevel "Handling prediction request"
              [("latitude", VFloat lat); ("longitude", VFloat lon)] ;;
          fetched <- fetchWeatherData lat lon ;;
          let '(weatherData, err) := fetched in
          match err with
          | Some err =>
              log ErrorLevel "Error fetching weather data" [("error", VError err)] ;;
              ret (HttpError StatusInternalServerError
                             ("Error fetching weather data: " +:+ Error err))
          | None =>
              best <- forRange hourlyBody (Hourly weatherData) (0, zeroTime) ;;
              let '(bestLikelihood, bestTime) := best in
              let prediction :=
                mkRainbowPrediction bestLikelihood
                                    (verb_4f lat +:+ ", " +:+ verb_4f lon)
                                    (Format bestTime) in
              log InfoLevel "Prediction calculated" [("prediction", VStruct)] ;;
              ret (PredictionJSON prediction)
          end
      end
  end.

(** The body of [if math.Sqrt(dlat*dlat+dlon*dlon) <= radiusDegrees]:
    fetch the sample of one point, score it and append it; the result
    is [heatmapData] after the iteration. *)
Definition samplePoint (pointLat pointLon : Q) (heatmapData : list HeatmapData.t)
  : M (list HeatmapData.t) :=
  fetched <- fetchWeatherData pointLat pointLon ;;
  let '(weatherData, err) := fetched in
  match err with
  | Some err =>
      log ErrorLevel "Error fetching weather data"
          [("error", VError err); ("lat", VFloat pointLat); ("lon", VFloat pointLon)] ;;
      ret heatmapData
  | None =>
      let current := Current weatherData in
      likelihood <- calculateRainbowLikelihood
        (mkSample (Current.Temp current) (Current.Humidity current)
                  (Current.Weather current) (Current.Clouds current)
                  (Current.UVI current) (Current.Visibility current)
                  (Current.WindSpeed current) (Current.WindDeg current) 0) ;;
      ret (heatmapData ++ [HeatmapData.mk pointLat pointLon likelihood])
  end.

(** The body of the two nested loops of [handleHeatmapData] at one
    offset. *)
Definition heatmapPoint (lat lon radiusDegrees dlat dlon : Q)
         (heatmapData : list HeatmapData.t) : M (list HeatmapData.t) :=
  let pointLat := lat + dlat in
  let pointLon := lon + dlon in
  if Sqrt_le (dlat * dlat + dlon * dlon) radiusDegrees
  then samplePoint pointLat pointLon heatmapData
  else ret heatmapData.

(** [for dlon := -radiusDegrees; dlon <= radiusDegrees; dlon += resolution].
    The loop has no bound of its own: [fuel] limits the iterations that
    are run, and [None] says that the limit was reached. *)
Fixpoint dlonLoop (fuel : nat) (lat lon radiusDegrees resolution dlat dlon : Q)
         (heatmapData : list HeatmapData.t) : M (option (list HeatmapData.t)) :=
  match fuel with
  | O => ret None
  | S fuel' =>
      if Qle_bool dlon radiusDegrees then
        heatmapData <- heatmapPoint lat lon radiusDegrees dlat dlon heatmapData ;;
        dlonLoop fuel' lat lon radiusDegrees resolution dlat (dlon + resolution) heatmapData
      else ret (Some heatmapData)
  end.

(** [for dlat := -radiusDegrees; dlat <= radiusDegrees; dlat += resolution] *)
Fixpoint dlatLoop (fuel inner : nat) (lat lon radiusDegrees resolution dlat : Q)
         (heatmapData : list HeatmapData.t) : M (option (list HeatmapData.t)) :=
  match fuel with
  | O => ret None
  | S fuel' =>
      if Qle_bool dlat radiusDegrees then
        row <- dlonLoop inner lat lon radiusDegrees resolution dlat (- radiusDegrees)
                        heatmapData ;;
        match row with
        | None => ret None
        | Some heatmapData =>
            dlatLoop fuel' inner lat lon radiusDegrees resolution (dlat + resolution)
                     heatmapData
        end
      else ret (Some heatmapData)
  end.

(** The four arguments are [r.URL.Query().Get] of ["lat"], ["lon"],
    ["radius"] and ["resolution"]; each loop runs at most [fuel]
    iterations.  [json.Encoder.Encode] only fails on NaN and infinities,
    which exact numbers do not have, so its error branch is not taken
    here; [OpenWeather64.handleHeatmapData] has it. *)
Definition handleHeatmapData (fuel : nat) (q_lat q_lon q_radius q_resolution : string)
  : M (option Written) :=
  match ParseFloat q_lat with
  | inr err =>
      log ErrorLevel "Invalid latitude" [("error", VError err)] ;;
      ret (Some (HttpError StatusBadRequest "Invalid latitude"))
  | inl lat =>
  match ParseFloat q_lon with
  | inr err =>
      log ErrorLevel "Invalid longitude" [("error", VError err)] ;;
      ret (Some (HttpError StatusBadRequest "Invalid longitude"))
  | inl lon =>
  match ParseFloat q_radius with
  | inr err =>
      log ErrorLevel "Invalid radius" [("error", VError err)] ;;
      ret (Some (HttpError StatusBadRequest "Invalid radius"))
  | inl radius =>
      let resolution :=
        match ParseFloat q_resolution with
        | inr _ => 5 # 100
        | inl resolution => resolution
        end in
      log InfoLevel "Handling heatmap data request"
          [("lat", VFloat lat); ("lon", VFloat lon); ("radius", VFloat radius);
           ("resolution", VFloat resolution)] ;;
      let radiusDegrees := radius / 69 in
      grid <- dlatLoop fuel fuel lat lon radiusDegrees resolution (- radiusDegrees) [] ;;
      match grid with
      | None => ret None
      | Some heatmapData =>
          log InfoLevel "Heatmap data calculated"
              [("datapoints", VInt (Z.of_nat (length heatmapData)))] ;;
          ret (Some (HeatmapJSON heatmapData))
      end
  end end end.
End Program.

End OpenWeather.

(** ** What the two api.weather.gov programs share

    Both declare [ForecastData] and [fetchJSONWithRetry] with the same
    text. *)
Module WeatherGov.
Import Go Go.Notations.

Definition baseURL : string := "https://api.weather.gov".

(** One element of [ForecastData.Properties.Periods];
    [ProbabilityOfPrecipitation] is the [Value] of that field. *)
Record Period : Type := mkPeriod {
  StartTime : string;
  Temperature : Q;
  ProbabilityOfPrecipitation : Q;
  ShortForecast : string;
  WindSpeed : string;
  WindDirection : string;
  CloudCover : Z
}.

Record ForecastData : Type := mkForecastData {
  Periods : list Period
}.

Definition zeroForecastData : ForecastData := mkForecastData [].

Record RainbowPrediction : Type := mkRainbowPrediction {
  Likelihood : Q;
  Location : string; Time : Go.Time
}.

(** What a handler leaves in the [http.ResponseWriter]. *)
Inductive Written : Type :=
| HttpError (code : Z) (text : string)
| PredictionJSON (p : RainbowPrediction).

Definition StatusOK : Z := 200.
Definition StatusBadRequest : Z := 400.
Definition StatusNotFound : Z := 404.
Definition StatusInternalServerError : Z := 500.

(** The destination [target interface{}] of [fetchJSON]: the dynamic type
    of the pointer together with the value it points to.  [Meta] is the
    program's [PointMetadata]. *)
Inductive Boxed (Meta : Type) : Type :=
| BoxNil
| BoxJSON (raw : string)
| BoxPointer (p : Pointee Meta)
with Pointee (Meta : Type) : Type :=
| OfPointMetadata (m : Meta)
| OfForecastData (f : ForecastData)
| OfInterface (v : Boxed Meta).
Arguments BoxNil {Meta}.
Arguments BoxJSON {Meta} raw.
Arguments BoxPointer {Meta} p.
Arguments OfPointMetadata {Meta} m.
Arguments OfForecastData {Meta} f.
Arguments OfInterface {Meta} v.

(** The dynamic type as a panic message prints it. *)
Definition typeName {Meta} (target : Pointee Meta) : string :=
  match target with
  | OfPointMetadata _ => "*main.PointMetadata"
  | OfForecastData _ => "*main.ForecastData"
  | OfInterface _ => "*interface {}"
  end.

(** [json.Unmarshal] per destination type: the value left in the
    destination and the error. *)
Class Decoder (Meta : Type) : Type := {
  decodePointMetadata : string -> Meta -> Meta * option GoError;
  decodeForecastData : string -> ForecastData -> ForecastData * option GoError;
  decodeInterface : string -> Boxed Meta -> Boxed Meta * option GoError
}.

(** [json.Unmarshal(body, target)] decodes by the dynamic type of
    [target]. *)
Definition Unmarshal {Meta} `{Decoder Meta} (raw : string) (target : Pointee Meta)
  : Pointee Meta * option GoError :=
  match target with
  | OfPointMetadata m =>
      let '(m, err) := decodePointMetadata raw m in (OfPointMetadata m, err)
  | OfForecastData f =>
      let '(f, err) := decodeForecastData raw f in (OfForecastData f, err)
  | OfInterface v =>
      let '(v, err) := decodeInterface raw v in (OfInterface v, err)
  end.

(** Reading the caller's variable after a call that was given [&forecast]
    or [&metadata]. *)
Definition forecastOf {Meta} (target : Pointee Meta) : ForecastData :=
  match target with
  | OfForecastData f => f
  | _ => zeroForecastData
  end.

Definition metadataOf {Meta} (zero : Meta) (target : Pointee Meta) : Meta :=
  match target with
  | OfPointMetadata m => m
  | _ => zero
  end.

Section Retry.
Context {Cached Target : Type}.
(** [fetchJSON] returns the error and the value left in [*target]. *)
Variable fetchJSON : string -> Target -> M Cached (Target * option GoError).

(** [for i := 0; i < maxRetries; i++] with [n] iterations left; [err] is
    the variable [var err error]. *)
Fixpoint retryLoop (n : nat) (i : Z) (url : string) (target : Target)
         (err : option GoError) : M Cached (Target * option GoError) :=
  match n with
  | O =>
      ret (target,
           Some (match err with
                 | Some err => Errorf_w "max retries reached: " err
                 | None => Errorf_w_nil "max retries reached: "
                 end))
  | S n' =>
      fetched <- fetchJSON url target ;;
      let '(target, err) := fetched in
      match err with
      | None => ret (target, None)
      | Some e =>
          log ErrorLevel "Error fetching JSON"
              [("retry", VInt (i + 1)); ("url", VString url); ("error", VError e)] ;;
          time_Sleep (i + 1) ;;
          retryLoop n' (i + 1)%Z url target (Some e)
      end
  end.

Definition fetchJSONWithRetry (url : string) (target : Target) (maxRetries : Z)
  : M Cached (Target * option GoError) :=
  retryLoop (Z.to_nat maxRetries) 0 url target None.
End Retry.

(** [90 - math.Abs(hour-12)*15], the same in both programs; the source
    also takes the location (a string in one program, [lat] and [lon] in
    the other) and does not use it. *)
Definition calculateSunAngle (t : Go.Time) : Q :=
  let hour := inject_Z (Hour t) + inject_Z (Minute t) / 60 in
  90 - Qabs (hour - 12) * 15.

End WeatherGov.

(** ** The api.weather.gov program without a cache *)
Module Gov.
Import Go Go.Notations WeatherGov.

Record PointMetadata : Type := mkPointMetadata {
  GridId : string;
  GridX : Z;
  GridY : Z;
  ForecastHref : string;
  Forecast : string;
  ForecastZone : string
}.

Definition zeroPointMetadata : PointMetadata := mkPointMetadata EmptyString 0 0 EmptyString EmptyString EmptyString.

Abbreviation Target := (Pointee PointMetadata).

Section Program.
Context {lib : Library} {dec : Decoder PointMetadata}.
(** The upstream server. *)
Variable net : Upstream.

Abbreviation M := (Go.M NoCache).

Definition fetchJSON (url : string) (target : Target) : M (Target * option GoError) :=
  log InfoLevel "Fetching JSON" [("url", VString url)] ;;
  match NewRequest url with
  | Some err => ret (target, Some (Errorf_w "error creating request: " err))
  | None =>
      resp <- roundTrip net url ;;
      match resp with
      | TransportError err => ret (target, Some (Errorf_w "error fetching JSON: " err))
      | Response StatusCode body =>
          if negb (StatusCode =? StatusOK)%Z then
            ret (target,
                 Some (ErrorString ("unexpected status code: " +:+ verb_d StatusCode)))
          else
            match body with
            | ReadError err =>
                ret (target, Some (Errorf_w "error reading response body: " err))
            | Bytes raw =>
                let '(target, err) := Unmarshal raw target in
                match err with
                | Some err => ret (target, Some (Errorf_w "error unmarshalling JSON: " err))
                | None => ret (target, None)
                end
            end
      end
  end.

Definition fetchJSONWithRetry := WeatherGov.fetchJSONWithRetry fetchJSON.

Definition fetchPointMetadata (lat lon : Q) : M (PointMetadata * option GoError) :=
  let url := baseURL +:+ "/points/" +:+ verb_4f lat +:+ "," +:+ verb_4f lon in
  match NewRequest url with
  | Some err => ret (zeroPointMetadata, Some (Errorf_w "error creating request: " err))
  | None =>
      resp <- roundTrip net url ;;
      match resp with
      | TransportError err =>
          ret (zeroPointMetadata, Some (Errorf_w "error fetching point metadata: " err))
      | Response StatusCode body =>
          if (StatusCode =? StatusNotFound)%Z then
            ret (zeroPointMetadata,
                 Some (ErrorString ("no data available for coordinates: "
                                    +:+ verb_4f lat +:+ ", " +:+ verb_4f lon)))
          else if negb (StatusCode =? StatusOK)%Z then
            ret (zeroPointMetadata,
                 Some (ErrorString ("unexpected status code: " +:+ verb_d StatusCode)))
          else
            let '(metadata, err) :=
              match body with
              | ReadError err => (zeroPointMetadata, Some err)
              | Bytes raw => decodePointMetadata raw zeroPointMetadata
              end in
            match err with
            | Some err => ret (zeroPointMetadata, Some (Errorf_w "error decoding JSON: " err))
            | None => ret (metadata, None)
            end
      end
  end.

Definition fetchForecast (metadata : PointMetadata) : M (ForecastData * option GoError) :=
  let hourlyForecastURL := Forecast metadata in
  if String.eqb hourlyForecastURL EmptyString then
    ret (zeroForecastData, Some (ErrorString "forecast URL not available"))
  else
    let hourlyForecastURL := replaceFirst hourlyForecastURL "forecast" "forecast/hourly" in
    fetched <- fetchJSONWithRetry hourlyForecastURL (OfForecastData zeroForecastData) 3 ;;
    let '(target, err) := fetched in
    match err with
    | Some err => ret (zeroForecastData, Some (Errorf_w "error fetching hourly forecast: " err))
    | None => ret (forecastOf target, None)
    end.

(** The body of the loop of [predictRainbow] up to the comparison with
    [bestLikelihood]: the period's [likelihood] and [startTime], or
    [None] where the source says [continue]. *)
Definition scorePeriod (period : Period) : M (option (Q * Go.Time)) :=
  match time_Parse (StartTime period) with
  | inr err =>
      log ErrorLevel "Error parsing start time"
          [("startTime", VString (StartTime period)); ("error", VError err)] ;;
      ret None
  | inl startTime =>
      let hour := Hour startTime in
      if ((hour <? 6) || (hour >? 20))%Z then ret None
      else
        let precipProb := ProbabilityOfPrecipitation period in
        let likelihood := precipProb * (100 - precipProb) / 2500 in
        let likelihood := if Qle_bool (Temperature period) 32 then 0 else likelihood in
        let cloudCoverFactor := 1 - Qabs (inject_Z (CloudCover period) - 50) / 50 in
        let likelihood := likelihood * cloudCoverFactor in
        let windSpeed := firstField (WindSpeed period) in
        windSpeedValue <-
          match ParseFloat windSpeed with
          | inr err =>
              log ErrorLevel "Error parsing wind speed"
                  [("windSpeed", VString windSpeed); ("error", VError err)] ;;
              ret 0
          | inl windSpeedValue => ret windSpeedValue
          end ;;
        let windFactor := 1 - Qabs (windSpeedValue - 10) / 10 in
        let windFactor := if Qlt_bool windFactor 0 then 0 else windFactor in
        let likelihood := likelihood * windFactor in
        let likelihood :=
          if (Contains (ToLower (ShortForecast period)) "rain"
              || Contains (ToLower (ShortForecast period)) "showers")
             && (String.eqb (WindDirection period) "E"
                 || String.eqb (WindDirection period) "NE"
                 || String.eqb (WindDirection period) "SE")
          then likelihood * (3 # 2) else likelihood in
        let sunAngle := calculateSunAngle startTime in
        let likelihood :=
          if Qle_bool 0 sunAngle && Qle_bool sunAngle 42
          then likelihood * (3 # 2) else likelihood in
        ret (Some (likelihood, startTime))
  end.

(** The comparison that ends the loop body. *)
Definition periodBody (period : Period) (best : Q * Go.Time) : M (Q * Go.Time) :=
  let '(bestLikelihood, bestTime) := best in
  scored <- scorePeriod period ;;
  match scored with
  | None => ret (bestLikelihood, bestTime)
  | Some (likelihood, startTime) =>
      if Qlt_bool bestLikelihood likelihood
      then ret (likelihood, startTime)
      else ret (bestLikelihood, bestTime)
  end.

Definition predictRainbow (forecast : ForecastData) (location : string)
  : M RainbowPrediction :=
  best <- forRange periodBody (Periods forecast) (0, zeroTime) ;;
  let '(bestLikelihood, bestTime) := best in
  ret (mkRainbowPrediction bestLikelihood location bestTime).

(** The arguments are [r.URL.Query().Get] of ["lat"] and ["lon"]. *)
Definition handlePrediction (q_lat q_lon : string) : M Written :=
  match ParseFloat q_lat with
  | inr _ => ret (HttpError StatusBadRequest "Invalid latitude")
  | inl lat =>
  match ParseFloat q_lon with
  | inr _ => ret (HttpError StatusBadRequest "Invalid longitude")
  | inl lon =>
      if Qlt_bool lat 37 || Qlt_bool 41 lat || Qlt_bool lon (-109) || Qlt_bool (-102) lon
      then ret (HttpError StatusBadRequest "Coordinates are outside of Colorado")
      else
        fetched <- fetchPointMetadata lat lon ;;
        match fetched with
        | (_, Some err) =>
            log ErrorLevel "Error fetching point metadata" [("error", VError err)] ;;
            ret (HttpError StatusInternalServerError "Error fetching weather data")
        | (metadata, None) =>
            fetched <- fetchForecast metadata ;;
            match fetched with
            | (_, Some err) =>
                log ErrorLevel "Error fetching forecast" [("error", VError err)] ;;
                ret (HttpError StatusInternalServerError "Error fetching weather data")
            | (forecast, None) =>
                let location := verb_4f lat +:+ ", " +:+ verb_4f lon in
                prediction <- predictRainbow forecast location ;;
                ret (PredictionJSON prediction)
            end
        end
  end end.
End Program.

End Gov.

(** ** The api.weather.gov program with the cache *)
Module GovCached.
Import Go Go.Notations WeatherGov.

Record PointMetadata : Type := mkPointMetadata {
  GridId : string;
  GridX : Z;
  GridY : Z;
  ForecastHref : string;
  ForecastHourly : string;
  ForecastZone : string
}.

Definition zeroPointMetadata : PointMetadata := mkPointMetadata EmptyString 0 0 EmptyString EmptyString EmptyString.

Abbreviation Target := (Pointee PointMetadata).

(** [CacheEntry.Data] holds [target], a pointer to the caller's variable;
    no caller writes to that variable after the call, so the entry is
    modelled by the value the pointer leads to. *)
Abbreviation M := (Go.M Target).

(** [15 * time.Minute], in seconds. *)
Definition ttl : Z := 15 * 60.

Section Program.
Context {lib : Library} {dec : Decoder PointMetadata}.
Variable net : Upstream.

(** The part of [fetchJSON] after the cache lookup. *)
Definition fetchAndStore (url : string) (target : Target) : M (Target * option GoError) :=
  log InfoLevel "Fetching JSON" [("url", VString url)] ;;
  match NewRequest url with
  | Some err => ret (target, Some (Errorf_w "error creating request: " err))
  | None =>
      resp <- roundTrip net url ;;
      match resp with
      | TransportError err => ret (target, Some (Errorf_w "error fetching JSON: " err))
      | Response StatusCode body =>
          if negb (StatusCode =? StatusOK)%Z then
            ret (target,
                 Some (ErrorString ("unexpected status code: " +:+ verb_d StatusCode)))
          else
            match body with
            | ReadError err =>
                ret (target, Some (Errorf_w "error reading response body: " err))
            | Bytes raw =>
                let '(target, err) := Unmarshal raw target in
                match err with
                | Some err => ret (target, Some (Errorf_w "error unmarshalling JSON: " err))
                | None =>
                    instant <- time_Now ;;
                    cache_store url (mkCacheEntry target (instant + ttl)%Z) ;;
                    ret (target, None)
                end
            end
      end
  end.

(** [if entry, ok := cache[url]; ok && time.Now().Before(entry.ExpiresAt)]:
    on a hit the source asserts that [target] is a pointer to an empty
    interface and stores [entry.Data] through it. *)
Definition fetchJSON (url : string) (target : Target) : M (Target * option GoError) :=
  entry <- cache_lookup url ;;
  match entry with
  | Some entry =>
      instant <- time_Now ;;
      if (instant <? ExpiresAt entry)%Z then
        match target with
        | OfInterface _ => ret (OfInterface (BoxPointer (Data entry)), None)
        | _ => panic (InterfaceConversion (typeName target) "*interface {}")
        end
      else fetchAndStore url target
  | None => fetchAndStore url target
  end.

Definition fetchJSONWithRetry := WeatherGov.fetchJSONWithRetry fetchJSON.

Definition fetchPointMetadata (lat lon : Q) : M (PointMetadata * option GoError) :=
  let url := baseURL +:+ "/points/" +:+ verb_4f lat +:+ "," +:+ verb_4f lon in
  fetched <- fetchJSONWithRetry url (OfPointMetadata zeroPointMetadata) 3 ;;
  let '(target, err) := fetched in
  match err with
  | Some err => ret (zeroPointMetadata, Some (Errorf_w "error fetching point metadata: " err))
  | None => ret (metadataOf zeroPointMetadata target, None)
  end.

Definition fetchForecast (metadata : PointMetadata) : M (ForecastData * option GoError) :=
  let forecastURL := ForecastHourly metadata in
  if String.eqb forecastURL EmptyString then
    ret (zeroForecastData, Some (ErrorString "hourly forecast URL not available"))
  else
    fetched <- fetchJSONWithRetry forecastURL (OfForecastData zeroForecastData) 3 ;;
    let '(target, err) := fetched in
    match err with
    | Some err => ret (zeroForecastData, Some (Errorf_w "error fetching hourly forecast: " err))
    | None => ret (forecastOf target, None)
    end.

(** The body of the loop of [predictRainbow] up to the comparison with
    [bestLikelihood]: the period's [likelihood] and [startTime], or
    [None] where the source says [continue]. *)
Definition scorePeriod (period : Period) : M (option (Q * Go.Time)) :=
  match time_Parse (StartTime period) with
  | inr err =>
      log ErrorLevel "Error parsing start time"
          [("startTime", VString (StartTime period)); ("error", VError err)] ;;
      ret None
  | inl startTime =>
      let sunAngle := calculateSunAngle startTime in
      if Qlt_bool sunAngle 0 || Qlt_bool 42 sunAngle then ret None
      else if (CloudCover period >? 96)%Z then ret None
      else
        let hasPrecipitation :=
          Qlt_bool 0 (ProbabilityOfPrecipitation period)
          && Qlt_bool 32 (Temperature period) in
        if negb hasPrecipitation then ret None
        else
          let likelihood := 1 in
          let likelihood := likelihood * ((100 - inject_Z (CloudCover period)) / 100) in
          let likelihood := likelihood * (ProbabilityOfPrecipitation period / 100) in
          let angleFactor := 1 - Qabs (sunAngle - 21) / 21 in
          let likelihood := likelihood * angleFactor in
          let hour := Hour startTime in
          let likelihood :=
            if ((hour >=? 16) && (hour <=? 22))%Z then likelihood * (3 # 2) else likelihood in
          let month := Month startTime in
          let likelihood :=
            if ((month >=? April) && (month <=? September))%Z
            then likelihood * (12 # 10) else likelihood in
          ret (Some (likelihood, startTime))
  end.

(** The comparison that ends the loop body. *)
Definition periodBody (period : Period) (best : Q * Go.Time) : M (Q * Go.Time) :=
  let '(bestLikelihood, bestTime) := best in
  scored <- scorePeriod period ;;
  match scored with
  | None => ret (bestLikelihood, bestTime)
  | Some (likelihood, startTime) =>
      if Qlt_bool bestLikelihood likelihood
      then ret (likelihood, startTime)
      else ret (bestLikelihood, bestTime)
  end.

Definition predictRainbow (forecast : ForecastData) (lat lon : Q) : M RainbowPrediction :=
  best <- forRange periodBody (Periods forecast) (0, zeroTime) ;;
  let '(bestLikelihood, bestTime) := best in
  ret (mkRainbowPrediction bestLikelihood (verb_4f lat +:+ ", " +:+ verb_4f lon) bestTime).

(** The arguments are [r.URL.Query().Get] of ["lat"] and ["lon"]. *)
Definition handlePrediction (q_lat q_lon : string) : M Written :=
  match ParseFloat q_lat with
  | inr _ => ret (HttpError StatusBadRequest "Invalid latitude")
  | inl lat =>
  match ParseFloat q_lon with
  | inr _ => ret (HttpError StatusBadRequest "Invalid longitude")
  | inl lon =>
      if Qlt_bool lat 37 || Qlt_bool 41 lat || Qlt_bool lon (-109) || Qlt_bool (-102) lon
      then ret (HttpError StatusBadRequest "Coordinates are outside of Colorado")
      else
        fetched <- fetchPointMetadata lat lon ;;
        match fetched with
        | (_, Some err) =>
            log ErrorLevel "Error fetching point metadata" [("error", VError err)] ;;
            ret (HttpError StatusInternalServerError "Error fetching weather data")
        | (metadata, None) =>
            fetched <- fetchForecast metadata ;;
            match fetched with
            | (_, Some err) =>
                log ErrorLevel "Error fetching forecast" [("error", VError err)] ;;
                ret (HttpError StatusInternalServerError "Error fetching weather data")
            | (forecast, None) =>
                prediction <- predictRainbow forecast lat lon ;;
                ret (PredictionJSON prediction)
            end
        end
  end end.
End Program.

End GovCached.

(** ** IEEE 754 binary64, the [float64] of the heatmap loops

    The two loops of [handleHeatmapData] advance a [float64] by repeated
    addition and stop on a comparison, so which offsets they visit, and
    whether they stop at all, depends on rounding.  The numbers below are
    the binary64 numbers of the standard library's [SpecFloat]: precision
    53, largest exponent 1024, every operation rounded to the nearest
    number, a tie to the even one, as the Go compiler emits them for
    amd64 (where no two operations are fused). *)
Module F64.

Definition t : Type := SpecFloat.spec_float.

Definition prec : Z := 53%Z.
Definition emax : Z := 1024%Z.

Definition NaN : t := SpecFloat.S754_nan.
Definition Inf (negative : bool) : t := SpecFloat.S754_infinity negative.

(** [x + y], [x - y], [x * y], [x / y], [-x] and [math.Sqrt(x)] *)
Definition add : t -> t -> t := SpecFloat.SFadd prec emax.
Definition sub : t -> t -> t := SpecFloat.SFsub prec emax.
Definition mul : t -> t -> t := SpecFloat.SFmul prec emax.
Definition div : t -> t -> t := SpecFloat.SFdiv prec emax.
Definition opp : t -> t := SpecFloat.SFopp.
Definition sqrt : t -> t := SpecFloat.SFsqrt prec emax.

(** [x <= y], [x < y] and [x == y]; all are false when an operand is
    NaN. *)
Definition leb : t -> t -> bool := SpecFloat.SFleb.
Definition ltb : t -> t -> bool := SpecFloat.SFltb.
Definition eqb : t -> t -> bool := SpecFloat.SFeqb.

(** [float64(i)] for an [int], and the integer constants of the source. *)
Definition ofZ (z : Z) : t := SpecFloat.binary_normalize prec emax z 0%Z false.

(** The decimal constant [n / 10^k] of the source, for instance [0.05]:
    the binary64 number nearest to it.  (Both operands of the division
    are exact, and the division rounds once.) *)
Definition decimal (n : Z) (k : nat) : t := div (ofZ n) (ofZ (10 ^ Z.of_nat k)).

Definition isNaN (x : t) : bool :=
  match x with
  | SpecFloat.S754_nan => true
  | _ => false
  end.

Definition isNegInf (x : t) : bool :=
  match x with
  | SpecFloat.S754_infinity true => true
  | _ => false
  end.

(** [math.Min]: negative infinity wins, then NaN, and of two zeros the
    negative one. *)
Definition Min (x y : t) : t :=
  if isNegInf x || isNegInf y then Inf true
  else if isNaN x || isNaN y then NaN
  else match x, y with
       | SpecFloat.S754_zero sx, SpecFloat.S754_zero _ => if sx then x else y
       | _, _ => if ltb x y then x else y
       end.

End F64.

(** ** [main.go]: the heatmap handler over binary64

    [handleHeatmapData] and the functions it calls, with every [float64]
    a binary64 number.  [OpenWeather] above has the same functions over
    exact numbers; the statements about the offsets that the loops visit
    are made here. *)
Module OpenWeather64.
Import Go Go.Notations.

(** Library functions on [float64]. *)
Class FloatLibrary : Type := {
  (* strconv.ParseFloat(s, 64), which returns NaN and the infinities
     without an error *)
  ParseFloat : string -> F64.t + GoError;
  (* fmt verb %f on a float64 *)
  verb_f : F64.t -> string
}.

Definition baseURL : string := OpenWeather.baseURL.

Definition WeatherCondition : Type := OpenWeather.WeatherCondition.

(** [WeatherData.Current] *)
Module Current.
Record t : Type := mk {
  Dt : Z; Temp : F64.t; Humidity : Z; Weather : list WeatherCondition;
  Clouds : Z; UVI : F64.t; Visibility : Z; WindSpeed : F64.t; WindDeg : Z
}.
End Current.

(** One element of [WeatherData.Hourly] *)
Module Hourly.
Record t : Type := mk {
  Dt : Z; Temp : F64.t; Humidity : Z; Weather : list WeatherCondition;
  Clouds : Z; UVI : F64.t; Visibility : Z; WindSpeed : F64.t; WindDeg : Z; Pop : F64.t
}.
End Hourly.

Record WeatherData : Type := mkWeatherData {
  Current : Current.t;
  Hourly : list Hourly.t
}.

(** [WeatherData{}] *)
Definition zeroWeatherData : WeatherData :=
  mkWeatherData (Current.mk 0 (F64.ofZ 0) 0 [] 0 (F64.ofZ 0) 0 (F64.ofZ 0) 0) [].

Module HeatmapData.
Record t : Type := mk { Lat : F64.t; Lon : F64.t; Likelihood : F64.t }.
End HeatmapData.

(** The anonymous struct that [calculateRainbowLikelihood] takes. *)
Record Sample : Type := mkSample {
  Temp : F64.t; Humidity : Z; Weather : list WeatherCondition;
  Clouds : Z; UVI : F64.t; Visibility : Z; WindSpeed : F64.t; WindDeg : Z; Pop : F64.t
}.

(** What [handleHeatmapData] leaves in the [http.ResponseWriter]. *)
Inductive Written : Type :=
| HttpError (code : Z) (text : string)
| HeatmapJSON (points : list HeatmapData.t).

Definition StatusBadRequest : Z := 400.
Definition StatusInternalServerError : Z := 500.
Definition StatusOK : Z := 200.

Definition status (w : Written) : Z :=
  match w with
  | HttpError code _ => code
  | HeatmapJSON _ => StatusOK
  end.

(** [json.Encoder.Encode(heatmapData)]: the encoder refuses a [float64]
    that is NaN or infinite with an [UnsupportedValueError] that names
    the value, and has then written nothing; the fields are visited
    point by point in the order of the struct. *)
Definition unsupported (x : F64.t) : option GoError :=
  match x with
  | SpecFloat.S754_nan => Some (ErrorString "json: unsupported value: NaN")
  | SpecFloat.S754_infinity false => Some (ErrorString "json: unsupported value: +Inf")
  | SpecFloat.S754_infinity true => Some (ErrorString "json: unsupported value: -Inf")
  | _ => None
  end.

Fixpoint Encode (heatmapData : list HeatmapData.t) : option GoError :=
  match heatmapData with
  | [] => None
  | p :: rest =>
      match unsupported (HeatmapData.Lat p) with
      | Some err => Some err
      | None =>
          match unsupported (HeatmapData.Lon p) with
          | Some err => Some err
          | None =>
              match unsupported (HeatmapData.Likelihood p) with
              | Some err => Some err
              | None => Encode rest
              end
          end
      end
  end.

Section Program.
Context {lib : Library} {flt : FloatLibrary}.
(** [var apiKey], the upstream server, and [json.Decoder.Decode] into a
    [WeatherData]. *)
Variable apiKey : string.
Variable net : Upstream.
Variable Decode : Body -> WeatherData + GoError.

Abbreviation M := (Go.M NoCache).

(** The [url] of [fetchWeatherData]:
    [fmt.Sprintf("%s?lat=%f&lon=%f&exclude=hourly,daily&units=metric&appid=%s", ...)]. *)
Definition requestURL (lat lon : F64.t) : string :=
  baseURL +:+ "?lat=" +:+ verb_f lat +:+ "&lon=" +:+ verb_f lon
  +:+ "&exclude=hourly,daily&units=metric&appid=" +:+ apiKey.

Definition fetchWeatherData (lat lon : F64.t) : M (WeatherData * option GoError) :=
  let url := requestURL lat lon in
  log DebugLevel "Fetching weather data" [("url", VString url)] ;;
  resp <- roundTrip net url ;;
  match resp with
  | TransportError err =>
      log ErrorLevel "Error making request" [("error", VError err)] ;;
      ret (zeroWeatherData, Some (Errorf_w "error making request: " err))
  | Response StatusCode body =>
      if negb (StatusCode =? StatusOK)%Z then
        log ErrorLevel "API request failed" [("status_code", VInt StatusCode)] ;;
        ret (zeroWeatherData,
             Some (ErrorString ("API request failed with status code: " +:+ verb_d StatusCode)))
      else
        match Decode body with
        | inr err =>
            log ErrorLevel "Error decoding response" [("error", VError err)] ;;
            ret (zeroWeatherData, Some (Errorf_w "error decoding response: " err))
        | inl weatherData =>
            log DebugLevel "Weather data fetched successfully" [("data", VStruct)] ;;
            ret (weatherData, None)
        end
  end.

Definition calculateRainbowLikelihood (weather : Sample) : M F64.t :=
  log DebugLevel "Calculating rainbow likelihood" [("weather_data", VStruct)] ;;
  unsuitable <-
    OpenWeather.orElse (length (Weather weather) =? 0)%nat
      (w0 <- index (Weather weather) 0 ;;
       OpenWeather.orElse (OpenWeather.ID w0 <? 200)%Z
         (w0 <- index (Weather weather) 0 ;; ret (OpenWeather.ID w0 >=? 700)%Z)) ;;
  if (unsuitable : bool) then
    w0 <- index (Weather weather) 0 ;;
    log DebugLevel "Weather conditions not suitable for rainbow"
        [("weather_id", VInt (OpenWeather.ID w0))] ;;
    ret (F64.ofZ 0)
  else
    let cloudFactor :=
      F64.sub (F64.ofZ 1) (F64.div (F64.ofZ (Clouds weather)) (F64.ofZ 100)) in
    let humidityFactor := F64.div (F64.ofZ (Humidity weather)) (F64.ofZ 100) in
    let uviFactor := F64.Min (F64.div (UVI weather) (F64.ofZ 10)) (F64.ofZ 1) in
    let visibilityFactor :=
      F64.Min (F64.div (F64.ofZ (Visibility weather)) (F64.ofZ 10000)) (F64.ofZ 1) in
    let windFactor :=
      F64.sub (F64.ofZ 1) (F64.Min (F64.div (WindSpeed weather) (F64.ofZ 20)) (F64.ofZ 1)) in
    let likelihood :=
      F64.div (F64.add (F64.add (F64.add (F64.add cloudFactor humidityFactor) uviFactor)
                                visibilityFactor) windFactor)
              (F64.ofZ 5) in
    a <- index (Weather weather) 0 ;;
    rainy <- (if (OpenWeather.ID a >=? 300)%Z
              then b <- index (Weather weather) 0 ;; ret (OpenWeather.ID b <? 600)%Z
              else ret false) ;;
    likelihood <-
      (if (rainy : bool) then
         c <- index (Weather weather) 0 ;;
         log DebugLevel "Increased likelihood due to rain"
             [("weather_id", VInt (OpenWeather.ID c))] ;;
         ret (F64.mul likelihood (F64.decimal 15 1))
       else if F64.ltb (F64.decimal 5 1) (Pop weather) then
         log DebugLevel "Increased likelihood due to high precipitation probability"
             [("pop", VFloat64 (Pop weather))] ;;
         ret (F64.mul likelihood (F64.decimal 13 1))
       else ret likelihood) ;;
    let finalLikelihood := F64.Min likelihood (F64.ofZ 1) in
    log InfoLevel "Rainbow likelihood calculated" [("likelihood", VFloat64 finalLikelihood)] ;;
    ret finalLikelihood.

(** The body of [if math.Sqrt(dlat*dlat+dlon*dlon) <= radiusDegrees]:
    fetch the sample of one point, score it and append it; the result
    is [heatmapData] after the iteration. *)
Definition samplePoint (pointLat pointLon : F64.t) (heatmapData : list HeatmapData.t)
  : M (list HeatmapData.t) :=
  fetched <- fetchWeatherData pointLat pointLon ;;
  let '(weatherData, err) := fetched in
  match err with
  | Some err =>
      log ErrorLevel "Error fetching weather data"
          [("error", VError err); ("lat", VFloat64 pointLat); ("lon", VFloat64 pointLon)] ;;
      ret heatmapData
  | None =>
      let current := Current weatherData in
      likelihood <- calculateRainbowLikelihood
        (mkSample (Current.Temp current) (Current.Humidity current)
                  (Current.Weather current) (Current.Clouds current)
                  (Current.UVI current) (Current.Visibility current)
                  (Current.WindSpeed current) (Current.WindDeg current) (F64.ofZ 0)) ;;
      ret (heatmapData ++ [HeatmapData.mk pointLat pointLon likelihood])
  end.

(** [math.Sqrt(dlat*dlat+dlon*dlon) <= radiusDegrees] *)
Definition withinRadius (radiusDegrees dlat dlon : F64.t) : bool :=
  F64.leb (F64.sqrt (F64.add (F64.mul dlat dlat) (F64.mul dlon dlon))) radiusDegrees.

(** The body of the two nested loops of [handleHeatmapData] at one
    offset. *)
Definition heatmapPoint (lat lon radiusDegrees dlat dlon : F64.t)
         (heatmapData : list HeatmapData.t) : M (list HeatmapData.t) :=
  let pointLat := F64.add lat dlat in
  let pointLon := F64.add lon dlon in
  if withinRadius radiusDegrees dlat dlon
  then samplePoint pointLat pointLon heatmapData
  else ret heatmapData.

(** [for dlon := -radiusDegrees; dlon <= radiusDegrees; dlon += resolution].
    The loop has no bound of its own: [fuel] limits the iterations that
    are run, and [None] says that the limit was reached. *)
Fixpoint dlonLoop (fuel : nat) (lat lon radiusDegrees resolution dlat dlon : F64.t)
         (heatmapData : list HeatmapData.t) : M (option (list HeatmapData.t)) :=
  match fuel with
  | O => ret None
  | S fuel' =>
      if F64.leb dlon radiusDegrees then
        heatmapData <- heatmapPoint lat lon radiusDegrees dlat dlon heatmapData ;;
        dlonLoop fuel' lat lon radiusDegrees resolution dlat (F64.add dlon resolution)
                 heatmapData
      else ret (Some heatmapData)
  end.

(** [for dlat := -radiusDegrees; dlat <= radiusDegrees; dlat += resolution] *)
Fixpoint dlatLoop (fuel inner : nat) (lat lon radiusDegrees resolution dlat : F64.t)
         (heatmapData : list HeatmapData.t) : M (option (list HeatmapData.t)) :=
  match fuel with
  | O => ret None
  | S fuel' =>
      if F64.leb dlat radiusDegrees then
        row <- dlonLoop inner lat lon radiusDegrees resolution dlat (F64.opp radiusDegrees)
                        heatmapData ;;
        match row with
        | None => ret None
        | Some heatmapData =>
            dlatLoop fuel' inner lat lon radiusDegrees resolution (F64.add dlat resolution)
                     heatmapData
        end
      else ret (Some heatmapData)
  end.

(** The last statements of [handleHeatmapData]: the encoded points, or
    the answer 500 when the encoder refuses them. *)
Definition respond (heatmapData : list HeatmapData.t) : M Written :=
  match Encode heatmapData with
  | Some err =>
      log ErrorLevel "Error encoding JSON response" [("error", VError err)] ;;
      ret (HttpError StatusInternalServerError "Error encoding response")
  | None => ret (HeatmapJSON heatmapData)
  end.

(** The four arguments are [r.URL.Query().Get] of ["lat"], ["lon"],
    ["radius"] and ["resolution"]; each loop runs at most [fuel]
    iterations. *)
Definition handleHeatmapData (fuel : nat) (q_lat q_lon q_radius q_resolution : string)
  : M (option Written) :=
  match ParseFloat q_lat with
  | inr err =>
      log ErrorLevel "Invalid latitude" [("error", VError err)] ;;
      ret (Some (HttpError StatusBadRequest "Invalid latitude"))
  | inl lat =>
  match ParseFloat q_lon with
  | inr err =>
      log ErrorLevel "Invalid longitude" [("error", VError err)] ;;
      ret (Some (HttpError StatusBadRequest "Invalid longitude"))
  | inl lon =>
  match ParseFloat q_radius with
  | inr err =>
      log ErrorLevel "Invalid radius" [("error", VError err)] ;;
      ret (Some (HttpError StatusBadRequest "Invalid radius"))
  | inl radius =>
      let resolution :=
        match ParseFloat q_resolution with
        | inr _ => F64.decimal 5 2
        | inl resolution => resolution
        end in
      log InfoLevel "Handling heatmap data request"
          [("lat", VFloat64 lat); ("lon", VFloat64 lon); ("radius", VFloat64 radius);
           ("resolution", VFloat64 resolution)] ;;
      let radiusDegrees := F64.div radius (F64.ofZ 69) in
      grid <- dlatLoop fuel fuel lat lon radiusDegrees resolution (F64.opp radiusDegrees) [] ;;
      match grid with
      | None => ret None
      | Some heatmapData =>
          log InfoLevel "Heatmap data calculated"
              [("datapoints", VInt (Z.of_nat (length heatmapData)))] ;;
          written <- respond heatmapData ;;
          ret (Some written)
      end
  end end end.
End Program.

End OpenWeather64.

(** ** A reference instance of the library functions on [float64]

    [ParseFloat] reads what [Reference.ParseFloat] reads and rounds it to
    the nearest binary64, and reads the spellings of NaN and of the
    infinities that [strconv.ParseFloat] accepts; [verb_f] prints the
    exact value of a number with six decimals. *)
Module Reference64.
Import Go.

(** The exact value of a finite number. *)
Definition toQ (x : F64.t) : Q :=
  match x with
  | SpecFloat.S754_finite s m e =>
      (if s then - inject_Z (Zpos m) else inject_Z (Zpos m)) * Qpower 2 e
  | _ => 0
  end.

(** The binary64 number nearest to a rational: one division, rounded
    once. *)
Definition ofQ (q : Q) : F64.t :=
  match Qnum q with
  | Z0 => SpecFloat.S754_zero false
  | Zpos n =>
      F64.div (SpecFloat.S754_finite false n 0) (SpecFloat.S754_finite false (Qden q) 0)
  | Zneg n =>
      F64.div (SpecFloat.S754_finite true n 0) (SpecFloat.S754_finite false (Qden q) 0)
  end.

Definition ParseFloat (s : string) : F64.t + GoError :=
  let l := Reference.ToLower s in
  if String.eqb l "nan" then inl F64.NaN
  else if String.eqb l "inf" || String.eqb l "+inf"
          || String.eqb l "infinity" || String.eqb l "+infinity"
  then inl (F64.Inf false)
  else if String.eqb l "-inf" || String.eqb l "-infinity" then inl (F64.Inf true)
  else
    match Reference.ParseFloat s with
    | inr err => inr err
    | inl q =>
        match ofQ q, s with
        | SpecFloat.S754_zero _, String "-" _ => inl (SpecFloat.S754_zero true)
        | SpecFloat.S754_infinity _, _ =>
            inr (ErrorString ("strconv.ParseFloat: parsing " +:+ Reference.quote s
                              +:+ ": value out of range"))
        | x, _ => inl x
        end
    end.

Definition verb_f (x : F64.t) : string :=
  match x with
  | SpecFloat.S754_nan => "NaN"
  | SpecFloat.S754_infinity false => "+Inf"
  | SpecFloat.S754_infinity true => "-Inf"
  | SpecFloat.S754_zero true => "-0.000000"
  | _ => Reference.fixed 6 (toQ x)
  end.

Definition library : OpenWeather64.FloatLibrary := {|
  OpenWeather64.ParseFloat := ParseFloat;
  OpenWeather64.verb_f := verb_f
|}.

End Reference64.

(** ** Vocabulary of the statements *)
Module Scan.
Import Go.

(** The comparison that ends a loop body: the candidate replaces the
    running best when its likelihood is strictly greater. *)
Definition pick {T} (best : Q * T) (candidate : option (Q * T)) : Q * T :=
  match candidate with
  | Some (likelihood, t) => if Qlt_bool (fst best) likelihood then (likelihood, t) else best
  | None => best
  end.

(** The likelihood of a candidate stays below [m]; a period without a
    candidate satisfies it. *)
Definition below {T} (strict : bool) (m : Q) (candidate : option (Q * T)) : Prop :=
  match candidate with
  | Some (likelihood, _) => if strict then likelihood < m else likelihood <= m
  | None => True
  end.

(** The world after [entries] went to the log. *)
Definition addLog {Cached} (w : World Cached) (entries : list LogEntry) : World Cached :=
  mkWorld (now w) (requests w) (sleeps w) (logged w ++ entries) (cache w).

End Scan.

Module OpenWeatherSpec.
Import Go OpenWeather.

(** Field values in the ranges the upstream documents: percentages for
    cloud cover and humidity, non-negative UV index, visibility and wind
    speed. *)
Definition nominal (s : Sample) : Prop :=
  (0 <= Clouds s <= 100)%Z /\ (0 <= Humidity s <= 100)%Z /\
  0 <= UVI s /\ (0 <= Visibility s)%Z /\ 0 <= WindSpeed s.

(** The sample that [handlePrediction] hands to the scorer. *)
Definition hourlySample (hourly : Hourly.t) : Sample :=
  mkSample (Hourly.Temp hourly) (Hourly.Humidity hourly) (Hourly.Weather hourly)
           (Hourly.Clouds hourly) (Hourly.UVI hourly) (Hourly.Visibility hourly)
           (Hourly.WindSpeed hourly) (Hourly.WindDeg hourly) (Hourly.Pop hourly).

(** The sample that [handleHeatmapData] hands to the scorer. *)
Definition currentSample (weatherData : WeatherData) : Sample :=
  let current := Current weatherData in
  mkSample (Current.Temp current) (Current.Humidity current)
           (Current.Weather current) (Current.Clouds current)
           (Current.UVI current) (Current.Visibility current)
           (Current.WindSpeed current) (Current.WindDeg current) 0.

(** What the scorer returns and what it logs. *)
Definition likelihoodOf {lib : Library} (s : Sample) : Outcome Q :=
  fst (calculateRainbowLikelihood s (boot (Cached := NoCache) 0)).

Definition scorerLog {lib : Library} (s : Sample) : list LogEntry :=
  logged (snd (calculateRainbowLikelihood s (boot (Cached := NoCache) 0))).

(** The likelihood and time that the loop of [handlePrediction] compares
    with the running best. *)
Definition candidate {lib : Library} (hourly : Hourly.t) : option (Q * Go.Time) :=
  match likelihoodOf (hourlySample hourly) with
  | Ok likelihood => Some (likelihood, time_Unix (Hourly.Dt hourly))
  | Panic _ => None
  end.

End OpenWeatherSpec.


Module GovSpec.
Import Go WeatherGov.

(** The likelihood and start time that the loop body of [predictRainbow]
    computes for a period, [None] where it says [continue]. *)
Definition candidate {lib : Library} (period : Period) : option (Q * Go.Time) :=
  match fst (Gov.scorePeriod period (boot (Cached := NoCache) 0)) with
  | Ok scored => scored
  | Panic _ => None
  end.

(** What the loop body writes to the log for a period. *)
Definition periodLog {lib : Library} (period : Period) : list LogEntry :=
  logged (snd (Gov.scorePeriod period (boot (Cached := NoCache) 0))).

(** Percentages in range. *)
Definition nominal (period : Period) : Prop :=
  0 <= ProbabilityOfPrecipitation period <= 100 /\ (0 <= CloudCover period <= 100)%Z.

End GovSpec.

Module GovCachedSpec.
Import Go WeatherGov.

(** The likelihood and start time that the loop body of [predictRainbow]
    computes for a period, [None] where it says [continue]. *)
Definition candidate {lib : Library} (period : Period) : option (Q * Go.Time) :=
  match fst (GovCached.scorePeriod period (boot (Cached := GovCached.Target) 0)) with
  | Ok scored => scored
  | Panic _ => None
  end.

(** What the loop body writes to the log for a period. *)
Definition periodLog {lib : Library} (period : Period) : list LogEntry :=
  logged (snd (GovCached.scorePeriod period (boot (Cached := GovCached.Target) 0))).

(** Percentages in range. *)
Definition nominal (period : Period) : Prop :=
  ProbabilityOfPrecipitation period <= 100 /\ (0 <= CloudCover period)%Z.

End GovCachedSpec.

Module RetrySpec.
Import Go.

(** The world after the two statements that follow failed attempt number
    [i]: the error is logged with its attempt number and the process
    sleeps [i] seconds. *)
Definition pause {Cached} (i : Z) (url : string) (e : GoError) (w : World Cached)
  : World Cached :=
  mkWorld (now w + i)%Z (requests w) (sleeps w ++ [i])
          (logged w ++ [mkLog ErrorLevel "Error fetching JSON"
                              [("retry", VInt i); ("url", VString url); ("error", VError e)]])
          (cache w).

End RetrySpec.

Module HeatmapSpec.
Import Go OpenWeather.

(** The resolution the handler works with, from the outcome of
    [strconv.ParseFloat] on the query parameter. *)
Definition resolutionOf (parsed : Q + GoError) : Q :=
  match parsed with
  | inr _ => 5 # 100
  | inl resolution => resolution
  end.

End HeatmapSpec.

(** ** Concrete inputs for the closed examples *)
Module Scenario.
Import Go WeatherGov.

(** An upstream that answers every request with status 200 after one
    second, one that answers 503, and one that answers 503 to the first
    two requests of the process and 200 afterwards. *)
Definition healthy : Upstream :=
  fun _ _ _ => mkExchange (Response 200 (Bytes "{}")) 1.

Definition down : Upstream :=
  fun _ _ _ => mkExchange (Response 503 (Bytes EmptyString)) 1.

Definition flaky : Upstream :=
  fun _ sent _ =>
    if (length sent <? 2)%nat
    then mkExchange (Response 503 (Bytes EmptyString)) 1
    else mkExchange (Response 200 (Bytes "{}")) 1.

(** A decoder for bodies that carry the given metadata and forecast. *)
Definition carries {Meta} (m : Meta) (f : ForecastData) : Decoder Meta := {|
  decodePointMetadata _ _ := (m, None);
  decodeForecastData _ _ := (f, None);
  decodeInterface raw _ := (BoxJSON raw, None)
|}.

Definition forecastURL : string :=
  "https://api.weather.gov/gridpoints/BOU/62,61/forecast/hourly".

(** Rain at 16:00 with an east wind of 10 mph, half cloudy. *)
Definition rainyAfternoon : Period :=
  mkPeriod "2024-06-15T16:00:00-06:00" 50 50 "Rain Showers" "10 mph" "E" 50.

(** The same weather one hour later: the same likelihood. *)
Definition rainyEvening : Period :=
  mkPeriod "2024-06-15T17:00:00-06:00" 50 50 "Rain Showers" "10 mph" "E" 50.

(** 97% cloud cover at noon, when the computed sun angle is 90. *)
Definition overcastNoon : Period :=
  mkPeriod "2024-06-15T12:00:00-06:00" 50 50 "Cloudy" "10 mph" "W" 97.

(** Two freezing mornings: both score 0. *)
Definition frozenNine : Period :=
  mkPeriod "2024-01-15T09:00:00-07:00" 20 50 "Snow" "10 mph" "W" 50.

Definition frozenTen : Period :=
  mkPeriod "2024-01-15T10:00:00-07:00" 20 50 "Snow" "10 mph" "W" 50.

(** A period without a readable start time and one without a readable
    wind speed. *)
Definition noStartTime : Period :=
  mkPeriod "tomorrow" 50 50 "Rain Showers" "10 mph" "E" 50.

Definition noWindSpeed : Period :=
  mkPeriod "2024-06-15T17:00:00-06:00" 50 50 "Rain Showers" "calm" "E" 50.

(** The same period at 03:00, outside the hours that are scored. *)
Definition calmNight : Period :=
  mkPeriod "2024-06-15T03:00:00-06:00" 50 50 "Rain Showers" "calm" "E" 50.

(** The decoded body of an OpenWeatherMap answer: light drizzle. *)
Definition drizzle : OpenWeather.WeatherData :=
  OpenWeather.mkWeatherData
    (OpenWeather.Current.mk 1718467200 18 80 [OpenWeather.mkWeatherCondition 300 "drizzle"]
                            40 5 10000 4 90)
    [].

Definition decodesDrizzle : Body -> OpenWeather.WeatherData + GoError :=
  fun _ => inl drizzle.

End Scenario.
(** ** Vocabulary of the handler properties *)
Module HandlerSpec.
Import Go WeatherGov.

(** The [url] of [fetchPointMetadata], the same text in both
    api.weather.gov programs:
    [fmt.Sprintf("%s/points/%.4f,%.4f", baseURL, lat, lon)]. *)
Definition pointsURL {lib : Library} (lat lon : Q) : string :=
  baseURL +:+ "/points/" +:+ verb_4f lat +:+ "," +:+ verb_4f lon.

(** The negation of [lat < 37 || lat > 41 || lon < -109 || lon > -102]. *)
Definition inColorado (lat lon : Q) : Prop :=
  37 <= lat <= 41 /\ - (109 # 1) <= lon <= - (102 # 1).

(** The worlds that differ from [w] by log output only. *)
Definition onlyLogs {Cached} (w w' : World Cached) : Prop :=
  exists entries, w' = Scan.addLog w entries.

(** The requests sent between [w] and [w']. *)
Definition sentSince {Cached} (w w' : World Cached) : list string :=
  drop (length (requests w)) (requests w').

End HandlerSpec.

Module HeatmapPoints.
Import Go OpenWeather.

(** A request for the weather at the centre: the offsets are 0 as
    numbers, whatever sums the loops have built them from. *)
Definition atCentre {lib : Library} (apiKey : string) (lat lon : Q) (url : string) : Prop :=
  exists dlat dlon,
    dlat == 0 /\ dlon == 0 /\ url = requestURL apiKey (lat + dlat) (lon + dlon).

End HeatmapPoints.

Module CacheSpec.
Import Go WeatherGov.

(** The destinations that the cached program passes to [fetchJSON]:
    pointers to structs, [&metadata] and [&forecast]. *)
Definition toStruct {Meta} (target : Pointee Meta) : Prop :=
  match target with
  | OfInterface _ => False
  | _ => True
  end.

End CacheSpec.

(** ** Further inputs for the closed examples *)
Module Cases.
Import Go WeatherGov.

(** An upstream that knows no such place. *)
Definition notFound : Upstream :=
  fun _ _ _ => mkExchange (Response 404 (Bytes EmptyString)) 1.

(** The metadata of a grid point near Boulder; the field that the JSON
    tag [forecastHourly] fills holds the URL of the hourly forecast. *)
Definition boulder : Gov.PointMetadata :=
  Gov.mkPointMetadata "BOU" 62 61
    "https://api.weather.gov/gridpoints/BOU/62,61/forecast"
    "https://api.weather.gov/gridpoints/BOU/62,61/forecast/hourly"
    "https://api.weather.gov/zones/forecast/COZ039".

Definition boulderCached : GovCached.PointMetadata :=
  GovCached.mkPointMetadata "BOU" 62 61
    "https://api.weather.gov/gridpoints/BOU/62,61/forecast"
    "https://api.weather.gov/gridpoints/BOU/62,61/forecast/hourly"
    "https://api.weather.gov/zones/forecast/COZ039".


(** The decoded body of an OpenWeatherMap answer with two hourly
    entries, a clear sky (condition 800) and a condition code below the
    range that is scored. *)
Definition clearSky : OpenWeather.WeatherData :=
  OpenWeather.mkWeatherData
    (OpenWeather.Current.mk 1718467200 25 30 [OpenWeather.mkWeatherCondition 800 "clear sky"]
                            0 8 10000 3 180)
    [OpenWeather.Hourly.mk 1718470800 25 30 [OpenWeather.mkWeatherCondition 800 "clear sky"]
                           0 8 10000 3 180 0;
     OpenWeather.Hourly.mk 1718474400 24 35 [OpenWeather.mkWeatherCondition 100 "unknown"]
                           10 7 10000 4 190 (9 # 10)].

Definition decodesClearSky : Body -> OpenWeather.WeatherData + GoError :=
  fun _ => inl clearSky.

End Cases.

Module SunSpec.
Import Go.

(** The [hour] of [calculateSunAngle]: the clock reading in hours. *)
Definition clock (t : Time) : Q :=
  inject_Z (Hour t) + inject_Z (Minute t) / 60.

(** The clock readings at which the computed sun angle is in [[0, 42]],
    and those at which it is strictly inside. *)
Definition lowSun (hour : Q) : Prop :=
  6 <= hour <= 44 # 5 \/ 76 # 5 <= hour <= 18.

Definition lowSunInside (hour : Q) : Prop :=
  6 < hour < 44 # 5 \/ 76 # 5 < hour < 18.

End SunSpec.

Module Samples.
Import Go OpenWeather.

(** Two samples under the same drizzle: the second is cloudier, drier,
    darker, hazier and windier than the first. *)
Definition bright : Sample :=
  mkSample 18 80 [mkWeatherCondition 300 "drizzle"] 40 5 10000 4 90 0.

Definition dull : Sample :=
  mkSample 18 60 [mkWeatherCondition 300 "drizzle"] 90 2 8000 12 90 0.

End Samples.

(** ** Vocabulary of the heatmap statements *)
Module Grid64.
Import Go OpenWeather64.

(** The values for which the body of
    [for v := x; v <= bound; v += step] runs, in order; [None] when the
    loop has not ended after [n] tests of its condition. *)
Fixpoint walk (n : nat) (bound step x : F64.t) : option (list F64.t) :=
  match n with
  | O => None
  | S n' =>
      if F64.leb x bound
      then option_map (cons x) (walk n' bound step (F64.add x step))
      else Some []
  end.

(** The loop variable after [k] additions of [step]. *)
Definition after (k : nat) (step x : F64.t) : F64.t :=
  Nat.iter k (fun v => F64.add v step) x.

(** The values of [dlat], and of [dlon] in every row. *)
Definition axis (n : nat) (radiusDegrees resolution : F64.t) : option (list F64.t) :=
  walk n radiusDegrees resolution (F64.opp radiusDegrees).

(** The offsets [(dlat, dlon)] of the square, rows of equal [dlat] one
    after the other, and those that the circular mask keeps. *)
Definition square (values : list F64.t) : list (F64.t * F64.t) :=
  list_prod values values.

Definition grid (radiusDegrees : F64.t) (values : list F64.t) : list (F64.t * F64.t) :=
  List.filter (fun offset => withinRadius radiusDegrees (fst offset) (snd offset))
              (square values).

End Grid64.

Module Heatmap64Spec.
Import Go Go.Notations OpenWeather64.

Section Spec.
Context {lib : Library} {flt : FloatLibrary}.
Variable apiKey : string.
Variable net : Upstream.
Variable Decode : Body -> WeatherData + GoError.

(** The upstream exchange makes [fetchWeatherData] return an error. *)
Definition fetchFails (x : Exchange) : bool :=
  match reply x with
  | TransportError _ => true
  | Response StatusCode body =>
      negb (StatusCode =? StatusOK)%Z
      || match Decode body with inr _ => true | inl _ => false end
  end.

(** The request for the point at [offset] from the centre. *)
Definition urlAt (lat lon : F64.t) (offset : F64.t * F64.t) : string :=
  requestURL apiKey (F64.add lat (fst offset)) (F64.add lon (snd offset)).

(** Sampling the points at [offsets] from the centre, one after the
    other, into [heatmapData]. *)
Definition sampleOffsets (lat lon : F64.t) (offsets : list (F64.t * F64.t))
           (heatmapData : list HeatmapData.t) : Go.M NoCache (list HeatmapData.t) :=
  forRange (fun offset heatmapData =>
              samplePoint apiKey net Decode (F64.add lat (fst offset))
                          (F64.add lon (snd offset)) heatmapData)
           offsets heatmapData.

(** [handleHeatmapData] with the two loops replaced by a range over
    [offsets]. *)
Definition heatmapOver (lat lon radius resolution : F64.t) (offsets : list (F64.t * F64.t))
  : Go.M NoCache (option Written) :=
  log InfoLevel "Handling heatmap data request"
      [("lat", VFloat64 lat); ("lon", VFloat64 lon); ("radius", VFloat64 radius);
       ("resolution", VFloat64 resolution)] ;;
  heatmapData <- sampleOffsets lat lon offsets [] ;;
  log InfoLevel "Heatmap data calculated"
      [("datapoints", VInt (Z.of_nat (length heatmapData)))] ;;
  written <- respond heatmapData ;;
  ret (Some written).

(** The resolution the handler works with, from the outcome of
    [strconv.ParseFloat] on the query parameter. *)
Definition resolutionOf (parsed : F64.t + GoError) : F64.t :=
  match parsed with
  | inr _ => F64.decimal 5 2
  | inl resolution => resolution
  end.

(** The sample that [handleHeatmapData] hands to the scorer. *)
Definition currentSample (weatherData : WeatherData) : Sample :=
  let current := Current weatherData in
  mkSample (Current.Temp current) (Current.Humidity current)
           (Current.Weather current) (Current.Clouds current)
           (Current.UVI current) (Current.Visibility current)
           (Current.WindSpeed current) (Current.WindDeg current) (F64.ofZ 0).

(** What the scorer returns and what it logs. *)
Definition likelihoodOf (s : Sample) : Outcome F64.t :=
  fst (calculateRainbowLikelihood s (boot (Cached := NoCache) 0)).

Definition scorerLog (s : Sample) : list LogEntry :=
  logged (snd (calculateRainbowLikelihood s (boot (Cached := NoCache) 0))).

(** The point that the offset contributes when the upstream answers the
    request for it with [x]: none when the fetch fails. *)
Definition pointFor (lat lon : F64.t) (offset : F64.t * F64.t) (x : Exchange)
  : option HeatmapData.t :=
  match reply x with
  | TransportError _ => None
  | Response StatusCode body =>
      if negb (StatusCode =? StatusOK)%Z then None
      else match Decode body with
           | inr _ => None
           | inl weatherData =>
               match likelihoodOf (currentSample weatherData) with
               | Ok likelihood =>
                   Some (HeatmapData.mk (F64.add lat (fst offset)) (F64.add lon (snd offset))
                                        likelihood)
               | Panic _ => None
               end
           end
  end.

(** The points of [offsets] when the answer of the upstream depends on
    the URL alone. *)
Definition pointsFor (lat lon : F64.t) (offsets : list (F64.t * F64.t))
  : list HeatmapData.t :=
  omap (fun offset => pointFor lat lon offset (net 0%Z [] (urlAt lat lon offset))) offsets.

(** The answer for the points gathered by the loops. *)
Definition answer (heatmapData : list HeatmapData.t) : Written :=
  match Encode heatmapData with
  | Some _ => HttpError StatusInternalServerError "Error encoding response"
  | None => HeatmapJSON heatmapData
  end.
End Spec.
End Heatmap64Spec.

(** ** Inputs of the heatmap examples *)
Module Cases64.
Import Go OpenWeather64.

(** The number that the reference [ParseFloat] reads from a decimal
    literal. *)
Definition number (s : string) : F64.t :=
  match Reference64.ParseFloat s with
  | inl x => x
  | inr _ => F64.NaN
  end.

(** The decoded body of an OpenWeatherMap answer: light drizzle. *)
Definition drizzle : WeatherData :=
  mkWeatherData
    (Current.mk 1718467200 (F64.ofZ 18) 80 [OpenWeather.mkWeatherCondition 300 "drizzle"]
                40 (F64.ofZ 5) 10000 (F64.ofZ 4) 270)
    [].

Definition decodesDrizzle (body : Body) : WeatherData + GoError :=
  match body with
  | Bytes _ => inl drizzle
  | ReadError e => inr e
  end.

(** An upstream that answers 503 for the points of latitude 39.4 and
    200 for all others. *)
Definition patchy : Upstream :=
  fun _ _ url =>
    if Contains url "lat=39.4"
    then mkExchange (Response 503 (Bytes EmptyString)) 1
    else mkExchange (Response 200 (Bytes "{}")) 1.

End Cases64.
(** * Properties *)

(** Arithmetic on [Q] stays folded when programs are run symbolically. *)
Arguments Qplus : simpl never.
Arguments Qminus : simpl never.
Arguments Qmult : simpl never.
Arguments Qdiv : simpl never.
Arguments Qopp : simpl never.
Arguments Qinv : simpl never.
Arguments Qabs : simpl never.
Arguments Qmin : simpl never.
Arguments inject_Z : simpl never.
Arguments Qle_bool : simpl never.
Arguments Go.Qlt_bool : simpl never.
Arguments Go.Sqrt_le : simpl never.

(** ** Running monadic code *)
Module GoFacts.
Import Go Go.Notations Scan.

(** [lra] does not divide: a quotient by a literal becomes a product. *)
Ltac qconst :=
  unfold Qdiv in *;
  repeat match goal with
         | |- context [Qinv (Qmake ?n ?d)] =>
             let v := eval compute in (Qinv (Qmake n d)) in
             change (Qinv (Qmake n d)) with v
         | H : context [Qinv (Qmake ?n ?d)] |- _ =>
             let v := eval compute in (Qinv (Qmake n d)) in
             change (Qinv (Qmake n d)) with v in H
         end.

Lemma Qlt_bool_iff (a b : Q) : Qlt_bool a b = true <-> a < b.
Proof.
  unfold Qlt_bool. rewrite negb_true_iff.
  split; intro H.
  - apply Qnot_le_lt. intro Hle. apply Qle_bool_iff in Hle. congruence.
  - destruct (Qle_bool b a) eqn:E; [|reflexivity].
    apply Qle_bool_iff in E. exfalso. apply (Qlt_not_le a b); assumption.
Qed.

Lemma Qlt_bool_false_iff (a b : Q) : Qlt_bool a b = false <-> b <= a.
Proof.
  unfold Qlt_bool. rewrite negb_false_iff. apply Qle_bool_iff.
Qed.

Section Monad.
Context {Cached : Type}.
Implicit Types w : World Cached.

Lemma bind_ok {A B} (c : M Cached A) (k : A -> M Cached B) w a w' :
  c w = (Ok a, w') -> bind c k w = k a w'.
Proof. unfold bind. intros ->. reflexivity. Qed.

Lemma bind_panic {A B} (c : M Cached A) (k : A -> M Cached B) w p w' :
  c w = (Panic p, w') -> bind c k w = (Panic p, w').
Proof. unfold bind. intros ->. reflexivity. Qed.

Lemma addLog_nil w : addLog w [] = w.
Proof. destruct w. unfold addLog. simpl. now rewrite app_nil_r. Qed.

Lemma addLog_app w es1 es2 : addLog (addLog w es1) es2 = addLog w (es1 ++ es2).
Proof. unfold addLog. simpl. now rewrite app_assoc. Qed.

Lemma log_addLog l msg kv w : log l msg kv w = (Ok tt, addLog w [mkLog l msg kv]).
Proof. reflexivity. Qed.

Lemma forRange_app {A S} (body : A -> S -> M Cached S) (xs ys : list A) (s : S) w :
  forRange body (xs ++ ys) s w = bind (forRange body xs s) (forRange body ys) w.
Proof.
  revert s w. induction xs as [|x xs IH]; intros s w; cbn [forRange app].
  - reflexivity.
  - unfold bind in *. destruct (body x s w) as [[a|p] w1].
    + apply IH.
    + reflexivity.
Qed.
End Monad.

End GoFacts.

Module ScanFacts.
Import Go Go.Notations GoFacts Scan.

Section Pick.
Context {T : Type}.
Implicit Types (best : Q * T) (c : option (Q * T)).

Lemma pick_keeps best c :
  below false (fst best) c -> pick best c = best.
Proof.
  destruct c as [[l t]|]; simpl; [|reflexivity].
  intros H. apply Qlt_bool_false_iff in H. now rewrite H.
Qed.

Lemma pick_takes best m t :
  fst best < m -> pick best (Some (m, t)) = (m, t).
Proof. intros H. simpl. apply Qlt_bool_iff in H. now rewrite H. Qed.

Lemma pick_mono best c : fst best <= fst (pick best c).
Proof.
  destruct c as [[l t]|]; simpl; [|lra].
  destruct (Qlt_bool (fst best) l) eqn:E; simpl; [|lra].
  apply Qlt_bool_iff in E. lra.
Qed.

Lemma pick_bound (P : Q -> Prop) best c :
  P (fst best) -> (forall l t, c = Some (l, t) -> P l) -> P (fst (pick best c)).
Proof.
  intros Hb Hc. destruct c as [[l t]|]; simpl; [|exact Hb].
  destruct (Qlt_bool (fst best) l); simpl; eauto.
Qed.

Lemma scan_keeps cs best :
  Forall (below false (fst best)) cs -> fold_left pick cs best = best.
Proof.
  induction 1 as [|c cs Hc _ IH]; simpl; [reflexivity|].
  now rewrite (pick_keeps best c Hc).
Qed.

Lemma scan_below cs best m :
  fst best < m -> Forall (below true m) cs -> fst (fold_left pick cs best) < m.
Proof.
  intros Hb H. revert best Hb.
  induction H as [|c cs Hc _ IH]; intros best Hb; simpl; [exact Hb|].
  apply IH. apply (pick_bound (fun q => q < m)); [exact Hb|].
  intros l t ->. exact Hc.
Qed.

(** First seen wins: the earliest candidate that reaches the maximum is
    the one that is kept. *)
Lemma scan_first_max before after best m t :
  fst best < m ->
  Forall (below true m) before ->
  Forall (below false m) after ->
  fold_left pick (before ++ Some (m, t) :: after) best = (m, t).
Proof.
  intros Hb Hbefore Hafter.
  rewrite fold_left_app. cbn [fold_left].
  rewrite pick_takes by (apply scan_below; assumption).
  now apply scan_keeps.
Qed.

Lemma scan_mono cs best : fst best <= fst (fold_left pick cs best).
Proof.
  revert best. induction cs as [|c cs IH]; intros best; simpl; [lra|].
  pose proof (pick_mono best c). pose proof (IH (pick best c)). lra.
Qed.

(** A candidate that is absent, or not above 0, changes nothing in a
    scan that starts from a best that is not negative. *)
Lemma scan_skip before c after best :
  0 <= fst best -> below false 0 c ->
  fold_left pick (before ++ c :: after) best = fold_left pick (before ++ after) best.
Proof.
  intros Hb Hc. rewrite !fold_left_app. cbn [fold_left].
  rewrite pick_keeps; [reflexivity|].
  pose proof (scan_mono before best) as Hm.
  destruct c as [[l t]|]; simpl in *; [lra|exact I].
Qed.

Lemma scan_bound (P : Q -> Prop) cs best :
  P (fst best) ->
  Forall (fun c => forall l t, c = Some (l, t) -> P l) cs ->
  P (fst (fold_left pick cs best)).
Proof.
  intros Hb H. revert best Hb.
  induction H as [|c cs Hc _ IH]; intros best Hb; simpl; [exact Hb|].
  apply IH. now apply pick_bound.
Qed.
End Pick.

(** A loop whose body picks a candidate and writes log entries that do
    not depend on the world computes the fold of [pick]. *)
Lemma forRange_pick {Cached A T} (body : A -> Q * T -> M Cached (Q * T))
      (candidate : A -> option (Q * T)) (entries : A -> list LogEntry) (xs : list A) :
  Forall (fun x => forall best w,
              body x best w = (Ok (pick best (candidate x)), addLog w (entries x))) xs ->
  forall best w,
    forRange body xs best w =
    (Ok (fold_left pick (map candidate xs) best), addLog w (flat_map entries xs)).
Proof.
  induction 1 as [|x xs Hx _ IH]; intros best w; simpl.
  - unfold ret. now rewrite addLog_nil.
  - unfold bind. rewrite Hx, IH. now rewrite addLog_app.
Qed.

End ScanFacts.
Module OpenWeatherFacts.
Import Go Go.Notations GoFacts OpenWeather OpenWeatherSpec.

Section Scorer.
Context {lib : Library}.
Implicit Types (s : Sample) (w : World NoCache).

Ltac run := unfold calculateRainbowLikelihood, orElse, index, bind, ret, log, panic; simpl.

Lemma scorer_empty s w :
  Weather s = [] ->
  fst (calculateRainbowLikelihood s w) = Panic (IndexOutOfRange 0 0).
Proof. intros E. run. rewrite E. reflexivity. Qed.

Lemma scorer_nonempty s w :
  Weather s <> [] -> exists q w', calculateRainbowLikelihood s w = (Ok q, w').
Proof.
  intros E. run. destruct (Weather s) as [|c l]; [congruence|]. simpl.
  destruct (ID c <? 200)%Z; simpl; [eauto|].
  destruct (ID c >=? 700)%Z; simpl; [eauto|].
  destruct (ID c >=? 300)%Z; simpl; [destruct (ID c <? 600)%Z; simpl|];
    try (destruct (Qlt_bool (1 # 2) (Pop s)); simpl); eauto.
Qed.

Lemma scorer_le_1 s w q w' :
  calculateRainbowLikelihood s w = (Ok q, w') -> q <= 1.
Proof.
  run. destruct (Weather s) as [|c l]; simpl; [discriminate|].
  destruct (ID c <? 200)%Z; simpl; [intros [= <- _]; lra|].
  destruct (ID c >=? 700)%Z; simpl; [intros [= <- _]; lra|].
  destruct (ID c >=? 300)%Z; simpl; [destruct (ID c <? 600)%Z; simpl|];
    try (destruct (Qlt_bool (1 # 2) (Pop s)); simpl);
    intros [= <- _]; apply Q.le_min_r.
Qed.
Lemma base_nonneg s :
  nominal s ->
  0 <= (1 - inject_Z (Clouds s) / 100 + inject_Z (Humidity s) / 100
        + Qmin (UVI s / 10) 1 + Qmin (inject_Z (Visibility s) / 10000) 1
        + (1 - Qmin (WindSpeed s / 20) 1)) / 5.
Proof.
  intros ([_ Hc] & [Hh _] & Hu & Hv & _).
  assert (inject_Z (Clouds s) <= 100) by (rewrite Zle_Qle in Hc; exact Hc).
  assert (0 <= inject_Z (Humidity s)) by (rewrite Zle_Qle in Hh; exact Hh).
  assert (0 <= inject_Z (Visibility s)) by (rewrite Zle_Qle in Hv; exact Hv).
  assert (0 <= Qmin (UVI s / 10) 1) by (apply Q.min_glb; qconst; lra).
  assert (0 <= Qmin (inject_Z (Visibility s) / 10000) 1) by (apply Q.min_glb; qconst; lra).
  pose proof (Q.le_min_r (WindSpeed s / 20) 1).
  generalize dependent (Qmin (UVI s / 10) 1).
  generalize dependent (Qmin (inject_Z (Visibility s) / 10000) 1).
  generalize dependent (Qmin (WindSpeed s / 20) 1).
  intros. qconst. lra.
Qed.

Lemma scorer_nonneg s w q w' :
  nominal s -> calculateRainbowLikelihood s w = (Ok q, w') -> 0 <= q.
Proof.
  intros Hn. pose proof (base_nonneg s Hn) as Hb. revert Hb.
  run. destruct (Weather s) as [|c l]; simpl; [discriminate|].
  destruct (ID c <? 200)%Z; simpl; [intros _ [= <- _]; lra|].
  destruct (ID c >=? 700)%Z; simpl; [intros _ [= <- _]; lra|].
  destruct (ID c >=? 300)%Z; simpl; [destruct (ID c <? 600)%Z; simpl|];
    try (destruct (Qlt_bool (1 # 2) (Pop s)); simpl);
    intros Hb [= <- _]; apply Q.min_glb; try lra;
    match type of Hb with 0 <= ?b => generalize dependent b end; intros; lra.
Qed.
End Scorer.
End OpenWeatherFacts.

Module PredictionFacts.
Import Go Go.Notations GoFacts Scan ScanFacts OpenWeather OpenWeatherSpec OpenWeatherFacts.

Section Generic.
Context {Cached : Type}.

Lemma forRange_invariant {A S} (P : S -> Prop) (body : A -> S -> M Cached S) xs :
  (forall x s w s' w', P s -> body x s w = (Ok s', w') -> P s') ->
  forall s w s' w', P s -> forRange body xs s w = (Ok s', w') -> P s'.
Proof.
  intros Hbody. induction xs as [|x xs IH]; intros s w s' w' Hs; cbn [forRange].
  - intros [= <- _]. exact Hs.
  - unfold bind. destruct (body x s w) as [[a|p] w1] eqn:E; [|discriminate].
    apply IH. eapply Hbody; eassumption.
Qed.
End Generic.

Section Predictor.
Context {lib : Library}.
Implicit Types (s : Sample) (w : World NoCache).

Ltac run := unfold calculateRainbowLikelihood, orElse, index, bind, ret, log, panic; simpl.

Lemma scorer_run s w :
  Weather s <> [] ->
  exists q, likelihoodOf s = Ok q /\
            calculateRainbowLikelihood s w = (Ok q, addLog w (scorerLog s)).
Proof.
  intros E. unfold likelihoodOf, scorerLog, addLog. run.
  destruct (Weather s) as [|c l]; [congruence|]. simpl.
  destruct (ID c <? 200)%Z; simpl;
    [eexists; split; [reflexivity|rewrite <- ?app_assoc; reflexivity]|].
  destruct (ID c >=? 700)%Z; simpl;
    [eexists; split; [reflexivity|rewrite <- ?app_assoc; reflexivity]|].
  destruct (ID c >=? 300)%Z; simpl; [destruct (ID c <? 600)%Z; simpl|];
    try (destruct (Qlt_bool (1 # 2) (Pop s)); simpl);
    eexists; (split; [reflexivity|]); rewrite <- ?app_assoc; reflexivity.
Qed.

Lemma hourlyBody_run hourly best w :
  Hourly.Weather hourly <> [] ->
  hourlyBody hourly best w =
  (Ok (pick best (candidate hourly)), addLog w (scorerLog (hourlySample hourly))).
Proof.
  intros E. unfold hourlyBody, candidate. destruct best as [bl bt].
  fold (hourlySample hourly).
  destruct (scorer_run (hourlySample hourly) w E) as (q & Hq & Hrun).
  unfold bind. rewrite Hrun, Hq. unfold pick. simpl.
  destruct (Qlt_bool bl q); reflexivity.
Qed.

Lemma hourly_loop_run hs best w :
  Forall (fun hourly => Hourly.Weather hourly <> []) hs ->
  forRange hourlyBody hs best w =
  (Ok (fold_left pick (map candidate hs) best),
   addLog w (flat_map (fun hourly => scorerLog (hourlySample hourly)) hs)).
Proof.
  intros H. apply forRange_pick.
  eapply Forall_impl; [exact H|]. intros hourly E b w'. now apply hourlyBody_run.
Qed.

Lemma hourlyBody_unit hourly best w best' w' :
  0 <= fst best <= 1 -> hourlyBody hourly best w = (Ok best', w') -> 0 <= fst best' <= 1.
Proof.
  intros Hb. unfold hourlyBody. destruct best as [bl bt]. unfold bind.
  destruct (calculateRainbowLikelihood _ w) as [[q|p] w1] eqn:E; [|discriminate].
  apply scorer_le_1 in E.
  destruct (Qlt_bool bl q) eqn:Elt; intros [= <- _]; simpl in *; [|exact Hb].
  apply Qlt_bool_iff in Elt. lra.
Qed.

Lemma handlePrediction_unit apiKey net Decode vars_lat vars_lon w p w' :
  handlePrediction apiKey net Decode vars_lat vars_lon w = (Ok (PredictionJSON p), w') ->
  0 <= Likelihood p <= 1.
Proof.
  unfold handlePrediction.
  destruct (ParseFloat vars_lat) as [lat|e]. 2:{ unfold bind, log, ret; simpl. discriminate. }
  destruct (ParseFloat vars_lon) as [lon|e]. 2:{ unfold bind, log, ret; simpl. discriminate. }
  unfold bind at 1. unfold log at 1. unfold bind at 1.
  destruct (fetchWeatherData _ _ _ _ _ _) as [[[wd [e|]]|pv] w1]; try discriminate.
  unfold bind at 1.
  destruct (forRange hourlyBody (Hourly wd) (0, zeroTime) w1) as [[[bl bt]|pv] w2] eqn:E;
    [|discriminate].
  unfold bind, log, ret. simpl. intros [= <- _]. simpl.
  apply (forRange_invariant (fun b => 0 <= fst b <= 1) hourlyBody) in E; [exact E| |].
  - intros. eapply hourlyBody_unit; eassumption.
  - simpl. lra.
Qed.
End Predictor.
End PredictionFacts.

Module GridFacts.
Import Go Go.Notations GoFacts Scan.

Section Generic.
Context {Cached : Type}.
Implicit Types w : World Cached.

Lemma forRange_ext {A S} (f g : A -> S -> M Cached S) xs :
  (forall x s w, f x s w = g x s w) ->
  forall s w, forRange f xs s w = forRange g xs s w.
Proof.
  intros H. induction xs as [|x xs IH]; intros s w; simpl; [reflexivity|].
  unfold bind. rewrite H. destruct (g x s w) as [[a|p] w1]; [apply IH|reflexivity].
Qed.

Lemma forRange_nested {A B S} (f : A -> B -> S -> M Cached S) xs ys :
  forall s w,
    forRange (fun x s => forRange (f x) ys s) xs s w =
    forRange (fun xy s => f (fst xy) (snd xy) s) (list_prod xs ys) s w.
Proof.
  induction xs as [|x xs IH]; intros s w; simpl; [reflexivity|].
  rewrite forRange_app. unfold bind.
  assert (E : forall s w, forRange (fun xy s => f (fst xy) (snd xy) s) (map (pair x) ys) s w
                          = forRange (f x) ys s w).
  { clear. induction ys as [|y ys IH]; intros s w; simpl; [reflexivity|].
    unfold bind. destruct (f x y s w) as [[a|p] w1]; [apply IH|reflexivity]. }
  rewrite E. destruct (forRange (f x) ys s w) as [[a|p] w1]; [apply IH|reflexivity].
Qed.

Lemma forRange_filter {A S} (keep : A -> bool) (f : A -> S -> M Cached S) xs :
  forall s w,
    forRange (fun x s => if keep x then f x s else ret s) xs s w =
    forRange f (List.filter keep xs) s w.
Proof.
  induction xs as [|x xs IH]; intros s w; simpl; [reflexivity|].
  destruct (keep x); simpl.
  - unfold bind. destruct (f x s w) as [[a|p] w1]; [apply IH|reflexivity].
  - unfold bind, ret. apply IH.
Qed.
End Generic.
End GridFacts.

Module HeatmapLoops.
Import Go Go.Notations GoFacts Scan OpenWeather OpenWeatherSpec GridFacts HeatmapSpec.

Section Stuck.
Context {lib : Library}.
Variable apiKey : string.
Variable net : Upstream.
Variable Decode : Body -> WeatherData + GoError.
Variables lat lon radiusDegrees resolution : Q.
Hypothesis radius_positive : 0 < radiusDegrees.
Hypothesis no_progress : resolution <= 0.
Implicit Types w : World NoCache.

(** West of the square the mask rejects every offset of the first row. *)
Lemma outside_first_row dlon :
  dlon <= - radiusDegrees ->
  Sqrt_le (- radiusDegrees * - radiusDegrees + dlon * dlon) radiusDegrees = false.
Proof.
  intros Hd. unfold Sqrt_le. apply andb_false_iff. right.
  apply not_true_is_false. intros H. apply Qle_bool_iff in H.
  assert (H1 : - radiusDegrees * - radiusDegrees == radiusDegrees * radiusDegrees) by ring.
  assert (H2 : dlon * dlon == (- dlon) * (- dlon)) by ring.
  assert (H3 : radiusDegrees * radiusDegrees <= (- dlon) * (- dlon))
    by (apply Qmult_le_compat_nonneg; split; lra).
  assert (H4 : 0 < radiusDegrees * radiusDegrees)
    by (apply Qmult_lt_0_compat; assumption).
  rewrite H1, H2 in H.
  generalize dependent (radiusDegrees * radiusDegrees).
  generalize dependent (- dlon * - dlon). intros. lra.
Qed.

Lemma dlonLoop_stuck fuel :
  forall dlon heatmapData w,
    dlon <= - radiusDegrees ->
    dlonLoop apiKey net Decode fuel lat lon radiusDegrees resolution
             (- radiusDegrees) dlon heatmapData w = (Ok None, w).
Proof.
  induction fuel as [|fuel IH]; intros dlon hd w Hd; cbn [dlonLoop]; [reflexivity|].
  replace (Qle_bool dlon radiusDegrees) with true
    by (symmetry; apply Qle_bool_iff; lra).
  unfold bind, heatmapPoint. rewrite outside_first_row by assumption.
  cbn [ret]. apply IH. lra.
Qed.

Lemma dlatLoop_stuck fuel heatmapData w :
  dlatLoop apiKey net Decode fuel fuel lat lon radiusDegrees resolution
           (- radiusDegrees) heatmapData w = (Ok None, w).
Proof.
  destruct fuel as [|fuel]; cbn [dlatLoop]; [reflexivity|].
  replace (Qle_bool (- radiusDegrees) radiusDegrees) with true
    by (symmetry; apply Qle_bool_iff; lra).
  unfold bind. rewrite dlonLoop_stuck by lra. reflexivity.
Qed.
End Stuck.

Section Invariant.
Context {lib : Library}.
Variable apiKey : string.
Variable net : Upstream.
Variable Decode : Body -> WeatherData + GoError.
Implicit Types w : World NoCache.

Variable R : Q -> Prop.
Hypothesis scorer_R :
  forall body weatherData w q w',
    Decode body = inl weatherData ->
    calculateRainbowLikelihood (currentSample weatherData) w = (Ok q, w') -> R q.

Lemma samplePoint_good pointLat pointLon heatmapData w heatmapData' w' :
  Forall (fun p => R (HeatmapData.Likelihood p)) heatmapData ->
  samplePoint apiKey net Decode pointLat pointLon heatmapData w = (Ok heatmapData', w') ->
  Forall (fun p => R (HeatmapData.Likelihood p)) heatmapData'.
Proof.
  intros Hg. unfold samplePoint, fetchWeatherData, bind, log, roundTrip, ret. simpl.
  destruct (reply _) as [e|code body]; simpl; [intros [= <- _]; exact Hg|].
  destruct (code =? StatusOK)%Z; simpl; [|intros [= <- _]; exact Hg].
  destruct (Decode body) as [d|e] eqn:Ed; simpl; [|intros [= <- _]; exact Hg].
  fold (currentSample d).
  destruct (calculateRainbowLikelihood (currentSample d) _) as [[q|p] w1] eqn:Eq;
    [|discriminate].
  intros [= <- _]. apply Forall_app. split; [exact Hg|].
  constructor; [|constructor]. simpl. eapply scorer_R; eassumption.
Qed.

Lemma dlonLoop_good fuel lat lon radiusDegrees resolution dlat :
  forall dlon heatmapData w heatmapData' w',
    Forall (fun p => R (HeatmapData.Likelihood p)) heatmapData ->
    dlonLoop apiKey net Decode fuel lat lon radiusDegrees resolution dlat dlon heatmapData w
    = (Ok (Some heatmapData'), w') ->
    Forall (fun p => R (HeatmapData.Likelihood p)) heatmapData'.
Proof.
  induction fuel as [|fuel IH]; intros dlon hd w hd' w' Hg; cbn [dlonLoop];
    [discriminate|].
  destruct (Qle_bool dlon radiusDegrees); [|intros [= <- _]; exact Hg].
  unfold bind, heatmapPoint.
  destruct (Sqrt_le _ _).
  - destruct (samplePoint _ _ _ _ _ _ _) as [[a|p] w1] eqn:Es; [|discriminate].
    apply IH. eapply samplePoint_good; eassumption.
  - cbn [ret]. apply IH. exact Hg.
Qed.

Lemma dlatLoop_good fuel inner lat lon radiusDegrees resolution :
  forall dlat heatmapData w heatmapData' w',
    Forall (fun p => R (HeatmapData.Likelihood p)) heatmapData ->
    dlatLoop apiKey net Decode fuel inner lat lon radiusDegrees resolution dlat heatmapData w
    = (Ok (Some heatmapData'), w') ->
    Forall (fun p => R (HeatmapData.Likelihood p)) heatmapData'.
Proof.
  induction fuel as [|fuel IH]; intros dlat hd w hd' w' Hg; cbn [dlatLoop];
    [discriminate|].
  destruct (Qle_bool dlat radiusDegrees); [|intros [= <- _]; exact Hg].
  unfold bind.
  destruct (dlonLoop _ _ _ _ _ _ _ _ _ _ _ _) as [[[a|]|p] w1] eqn:Es;
    try discriminate.
  apply IH. eapply dlonLoop_good; eassumption.
Qed.

Lemma handleHeatmapData_good fuel q_lat q_lon q_radius q_resolution w points w' :
  handleHeatmapData apiKey net Decode fuel q_lat q_lon q_radius q_resolution w
  = (Ok (Some (HeatmapJSON points)), w') ->
  Forall (fun p => R (HeatmapData.Likelihood p)) points.
Proof.
  unfold handleHeatmapData.
  destruct (ParseFloat q_lat) as [lat|e]; [|discriminate].
  destruct (ParseFloat q_lon) as [lon|e]; [|discriminate].
  destruct (ParseFloat q_radius) as [radius|e]; [|discriminate].
  unfold bind, log.
  destruct (dlatLoop _ _ _ _ _ _ _ _ _ _ _ _) as [[[a|]|p] w1] eqn:Es;
    try discriminate.
  unfold ret. intros [= <- _]. eapply dlatLoop_good; [|eassumption]. constructor.
Qed.
End Invariant.
End HeatmapLoops.

(** ** The loops of the heatmap handler over binary64 *)

(** Binary64 arithmetic stays folded when programs are run symbolically. *)
Arguments F64.add : simpl never.
Arguments F64.sub : simpl never.
Arguments F64.mul : simpl never.
Arguments F64.div : simpl never.
Arguments F64.opp : simpl never.
Arguments F64.sqrt : simpl never.
Arguments F64.leb : simpl never.
Arguments F64.ltb : simpl never.
Arguments F64.ofZ : simpl never.
Arguments F64.decimal : simpl never.
Arguments F64.Min : simpl never.
Arguments OpenWeather64.withinRadius : simpl never.

Module Grid64Facts.
Import Go Go.Notations GoFacts Scan GridFacts OpenWeather64 Grid64 Heatmap64Spec.

(** More tests of the condition of a loop that has ended find the same
    values. *)
Lemma walk_more n m bound step x xs :
  walk n bound step x = Some xs -> (n <= m)%nat -> walk m bound step x = Some xs.
Proof.
  revert m x xs. induction n as [|n IH]; intros m x xs; cbn [walk]; [discriminate|].
  intros H Hm. destruct m as [|m]; [lia|]. cbn [walk].
  destruct (F64.leb x bound); [|exact H].
  destruct (walk n bound step (F64.add x step)) as [ys|] eqn:E; [|discriminate].
  rewrite (IH m _ ys E) by lia. exact H.
Qed.

Lemma after_next k step x : after k step (F64.add x step) = after (S k) step x.
Proof. unfold after. now rewrite Nat.iter_succ_r. Qed.

(** The values of a loop that has ended are the start after 0, 1, ...
    additions of the step, each within the bound, and the value after
    the last of them is the first that the condition refuses. *)
Lemma walk_values n bound step x xs :
  walk n bound step x = Some xs ->
  (forall k v, nth_error xs k = Some v ->
               v = after k step x /\ F64.leb v bound = true) /\
  F64.leb (after (length xs) step x) bound = false.
Proof.
  revert x xs. induction n as [|n IH]; intros x xs; cbn [walk]; [discriminate|].
  destruct (F64.leb x bound) eqn:Ex.
  - destruct (walk n bound step (F64.add x step)) as [ys|] eqn:E; [|discriminate].
    intros [= <-]. destruct (IH _ _ E) as [Hin Hout]. split.
    + intros [|k] v; cbn [nth_error].
      * intros [= <-]. split; [reflexivity|exact Ex].
      * intros H. apply Hin in H. now rewrite after_next in H.
    + cbn [length]. now rewrite <- after_next.
  - intros [= <-]. split; [intros [|k] v; discriminate|exact Ex].
Qed.

Lemma walk_length n bound step x xs :
  walk n bound step x = Some xs -> (length xs < n)%nat.
Proof.
  revert x xs. induction n as [|n IH]; intros x xs; cbn [walk]; [discriminate|].
  destruct (F64.leb x bound); [|intros [= <-]; cbn [length]; lia].
  destruct (walk n bound step (F64.add x step)) as [ys|] eqn:E; [|discriminate].
  intros [= <-]. cbn [length]. apply IH in E. lia.
Qed.

Section Loops.
Context {lib : Library} {flt : FloatLibrary}.
Variable apiKey : string.
Variable net : Upstream.
Variable Decode : Body -> WeatherData + GoError.
Variables lat lon radiusDegrees resolution : F64.t.
Implicit Types w : World NoCache.

(** A loop that is given enough fuel runs its body for the values of
    [walk] and ends. *)
Lemma dlonLoop_walk (dlat : F64.t) (n : nat) :
  forall fuel dlon values heatmapData w,
    walk n radiusDegrees resolution dlon = Some values ->
    (n <= fuel)%nat ->
    dlonLoop apiKey net Decode fuel lat lon radiusDegrees resolution dlat dlon heatmapData w =
    bind (forRange (heatmapPoint apiKey net Decode lat lon radiusDegrees dlat)
                   values heatmapData)
         (fun heatmapData => ret (Some heatmapData)) w.
Proof.
  induction n as [|n IH]; intros fuel dlon values hd w; cbn [walk]; [discriminate|].
  intros H Hfuel. destruct fuel as [|fuel]; [lia|]. cbn [dlonLoop].
  destruct (F64.leb dlon radiusDegrees).
  - destruct (walk n radiusDegrees resolution (F64.add dlon resolution)) as [ys|] eqn:E;
      [|discriminate].
    injection H as <-. cbn [forRange]. unfold bind.
    destruct (heatmapPoint apiKey net Decode lat lon radiusDegrees dlat dlon hd w)
      as [[a|p] w1]; [|reflexivity].
    apply (IH fuel _ ys a w1 E). lia.
  - injection H as <-. reflexivity.
Qed.

(** A loop whose condition still holds when the fuel is spent has not
    ended. *)
Lemma dlonLoop_running (dlat : F64.t) :
  forall fuel dlon heatmapData w row,
    walk fuel radiusDegrees resolution dlon = None ->
    fst (dlonLoop apiKey net Decode fuel lat lon radiusDegrees resolution dlat dlon
                  heatmapData w) <> Ok (Some row).
Proof.
  induction fuel as [|fuel IH]; intros dlon hd w row; cbn [walk dlonLoop];
    [discriminate|].
  destruct (F64.leb dlon radiusDegrees); [|discriminate].
  destruct (walk fuel radiusDegrees resolution (F64.add dlon resolution)) eqn:E;
    [discriminate|].
  intros _. unfold bind.
  destruct (heatmapPoint apiKey net Decode lat lon radiusDegrees dlat dlon hd w)
    as [[a|p] w1]; [|discriminate].
  now apply IH.
Qed.

Lemma dlatLoop_walk (inner : nat) (values : list F64.t) (n : nat) :
  (forall dlat heatmapData w,
      dlonLoop apiKey net Decode inner lat lon radiusDegrees resolution dlat
               (F64.opp radiusDegrees) heatmapData w =
      bind (forRange (heatmapPoint apiKey net Decode lat lon radiusDegrees dlat)
                     values heatmapData)
           (fun heatmapData => ret (Some heatmapData)) w) ->
  forall fuel dlat rows heatmapData w,
    walk n radiusDegrees resolution dlat = Some rows ->
    (n <= fuel)%nat ->
    dlatLoop apiKey net Decode fuel inner lat lon radiusDegrees resolution dlat heatmapData w =
    bind (forRange (fun dlat heatmapData =>
                      forRange (heatmapPoint apiKey net Decode lat lon radiusDegrees dlat)
                               values heatmapData)
                   rows heatmapData)
         (fun heatmapData => ret (Some heatmapData)) w.
Proof.
  intros Hrow.
  induction n as [|n IH]; intros fuel dlat rows hd w; cbn [walk]; [discriminate|].
  intros H Hfuel. destruct fuel as [|fuel]; [lia|]. cbn [dlatLoop].
  destruct (F64.leb dlat radiusDegrees).
  - destruct (walk n radiusDegrees resolution (F64.add dlat resolution)) as [ys|] eqn:E;
      [|discriminate].
    injection H as <-. cbn [forRange]. unfold bind at 1. rewrite Hrow. unfold bind.
    destruct (forRange (heatmapPoint apiKey net Decode lat lon radiusDegrees dlat)
                       values hd w) as [[a|p] w1]; [|reflexivity].
    cbn [ret]. apply (IH fuel _ ys a w1 E). lia.
  - injection H as <-. reflexivity.
Qed.

(** The two loops visit the offsets of the square row by row and sample
    those inside the circle. *)
Lemma loops_sample_grid (n fuel : nat) values heatmapData w :
  axis n radiusDegrees resolution = Some values ->
  (n <= fuel)%nat ->
  dlatLoop apiKey net Decode fuel fuel lat lon radiusDegrees resolution
           (F64.opp radiusDegrees) heatmapData w =
  bind (sampleOffsets apiKey net Decode lat lon (grid radiusDegrees values) heatmapData)
       (fun heatmapData => ret (Some heatmapData)) w.
Proof.
  intros Haxis Hfuel. unfold axis in Haxis.
  rewrite (dlatLoop_walk fuel values n) with (rows := values); try assumption.
  2:{ intros dlat hd w'. now apply (dlonLoop_walk dlat n). }
  unfold bind, sampleOffsets.
  rewrite (forRange_nested (heatmapPoint apiKey net Decode lat lon radiusDegrees)).
  unfold grid. rewrite <- forRange_filter. fold (square values).
  erewrite forRange_ext; [reflexivity|].
  intros [dlat dlon] s w'. reflexivity.
Qed.

(** When the condition of the loops still holds after [fuel] tests, the
    first row has not ended, and neither have the loops. *)
Lemma loops_running (fuel : nat) heatmapData w rows :
  axis fuel radiusDegrees resolution = None ->
  fst (dlatLoop apiKey net Decode fuel fuel lat lon radiusDegrees resolution
                (F64.opp radiusDegrees) heatmapData w) <> Ok (Some rows).
Proof.
  unfold axis. intros Haxis. destruct fuel as [|fuel]; [discriminate|].
  cbn [dlatLoop].
  destruct (F64.leb (F64.opp radiusDegrees) radiusDegrees) eqn:E.
  - unfold bind.
    pose proof (fun row => dlonLoop_running (F64.opp radiusDegrees) (S fuel)
                             (F64.opp radiusDegrees) heatmapData w row Haxis) as Hrow.
    destruct (dlonLoop apiKey net Decode (S fuel) lat lon radiusDegrees resolution
                       (F64.opp radiusDegrees) (F64.opp radiusDegrees) heatmapData w)
      as [[[row|]|p] w1]; cbn [fst] in *; [|discriminate|discriminate].
    exfalso. now apply (Hrow row).
  - cbn [walk] in Haxis. rewrite E in Haxis. discriminate.
Qed.
End Loops.
End Grid64Facts.

Module Heatmap64Facts.
Import Go Go.Notations GoFacts Scan GridFacts OpenWeather64 Grid64 Heatmap64Spec Grid64Facts.

Section Handler.
Context {lib : Library} {flt : FloatLibrary}.
Variable apiKey : string.
Variable net : Upstream.
Variable Decode : Body -> WeatherData + GoError.
Implicit Types (s : Sample) (w : World NoCache).

Ltac run := unfold calculateRainbowLikelihood, OpenWeather.orElse, index, bind, ret, log, panic;
            simpl.

(** With a condition to look at, the scorer returns a number and only
    writes to the log. *)
Lemma scorer64_run s w :
  Weather s <> [] ->
  exists likelihood,
    likelihoodOf s = Ok likelihood /\
    calculateRainbowLikelihood s w = (Ok likelihood, addLog w (scorerLog s)).
Proof.
  intros E. unfold likelihoodOf, scorerLog, addLog. run.
  destruct (Weather s) as [|c l]; [congruence|]. simpl.
  destruct (OpenWeather.ID c <? 200)%Z; simpl;
    [eexists; split; [reflexivity|rewrite <- ?app_assoc; reflexivity]|].
  destruct (OpenWeather.ID c >=? 700)%Z; simpl;
    [eexists; split; [reflexivity|rewrite <- ?app_assoc; reflexivity]|].
  destruct (OpenWeather.ID c >=? 300)%Z; simpl;
    [destruct (OpenWeather.ID c <? 600)%Z; simpl|];
    try (destruct (F64.ltb (F64.decimal 5 1) (Pop s)); simpl);
    eexists; (split; [reflexivity|]); rewrite <- ?app_assoc; reflexivity.
Qed.

Lemma handleHeatmapData_grid n fuel q_lat q_lon q_radius q_resolution lat lon radius values w :
  ParseFloat q_lat = inl lat ->
  ParseFloat q_lon = inl lon ->
  ParseFloat q_radius = inl radius ->
  let resolution := resolutionOf (ParseFloat q_resolution) in
  let radiusDegrees := F64.div radius (F64.ofZ 69) in
  axis n radiusDegrees resolution = Some values ->
  (n <= fuel)%nat ->
  handleHeatmapData apiKey net Decode fuel q_lat q_lon q_radius q_resolution w =
  heatmapOver apiKey net Decode lat lon radius resolution (grid radiusDegrees values) w.
Proof.
  intros Elat Elon Erad resolution radiusDegrees Haxis Hfuel.
  unfold handleHeatmapData, heatmapOver.
  rewrite Elat, Elon, Erad. fold (resolutionOf (ParseFloat q_resolution)).
  fold resolution. fold radiusDegrees. unfold bind, log.
  rewrite (loops_sample_grid apiKey net Decode lat lon radiusDegrees resolution n fuel values)
    by assumption.
  unfold bind, ret.
  destruct (sampleOffsets apiKey net Decode lat lon (grid radiusDegrees values) [] _)
    as [[a|p] w2]; reflexivity.
Qed.

Lemma handleHeatmapData_running fuel q_lat q_lon q_radius q_resolution lat lon radius w written :
  ParseFloat q_lat = inl lat ->
  ParseFloat q_lon = inl lon ->
  ParseFloat q_radius = inl radius ->
  let resolution := resolutionOf (ParseFloat q_resolution) in
  let radiusDegrees := F64.div radius (F64.ofZ 69) in
  axis fuel radiusDegrees resolution = None ->
  fst (handleHeatmapData apiKey net Decode fuel q_lat q_lon q_radius q_resolution w)
  <> Ok (Some written).
Proof.
  intros Elat Elon Erad resolution radiusDegrees Haxis.
  unfold handleHeatmapData.
  rewrite Elat, Elon, Erad. fold (resolutionOf (ParseFloat q_resolution)).
  fold resolution. fold radiusDegrees. unfold bind at 1. unfold log at 1.
  unfold bind at 1.
  match goal with
  | |- context [dlatLoop _ _ _ _ _ _ _ _ _ _ ?hd ?w0] =>
      pose proof (fun rows => loops_running apiKey net Decode lat lon radiusDegrees resolution
                                fuel hd w0 rows Haxis) as Hrun;
      destruct (dlatLoop apiKey net Decode fuel fuel lat lon radiusDegrees resolution
                         (F64.opp radiusDegrees) hd w0) as [[[rows|]|p] w1]
  end; cbn [fst] in *; [|discriminate|discriminate].
  exfalso. now apply (Hrun rows).
Qed.

(** A failed fetch leaves [heatmapData] as it is and the request goes on. *)
Lemma samplePoint_failure pointLat pointLon heatmapData w :
  fetchFails Decode (net (now w) (requests w) (requestURL apiKey pointLat pointLon)) = true ->
  exists err w',
    samplePoint apiKey net Decode pointLat pointLon heatmapData w = (Ok heatmapData, w') /\
    requests w' = requests w ++ [requestURL apiKey pointLat pointLon] /\
    In (mkLog ErrorLevel "Error fetching weather data"
              [("error", VError err); ("lat", VFloat64 pointLat); ("lon", VFloat64 pointLon)])
       (logged w').
Proof.
  unfold fetchFails, samplePoint, fetchWeatherData, bind, log, roundTrip, ret. simpl.
  destruct (reply (net (now w) (requests w) (requestURL apiKey pointLat pointLon)))
    as [e|code body]; simpl.
  - intros _. do 2 eexists. split; [reflexivity|]. split; [reflexivity|].
    simpl. rewrite !in_app_iff. right. left. reflexivity.
  - destruct (code =? StatusOK)%Z; simpl.
    + destruct (Decode body) as [d|e]; [discriminate|]. intros _.
      do 2 eexists. split; [reflexivity|]. split; [reflexivity|].
      simpl. rewrite !in_app_iff. right. left. reflexivity.
    + intros _. do 2 eexists. split; [reflexivity|]. split; [reflexivity|].
      simpl. rewrite !in_app_iff. right. left. reflexivity.
Qed.

(** A fetch that succeeds appends the point with its likelihood. *)
Lemma samplePoint_success pointLat pointLon heatmapData w body weatherData :
  reply (net (now w) (requests w) (requestURL apiKey pointLat pointLon))
  = Response StatusOK body ->
  Decode body = inl weatherData ->
  Current.Weather (Current weatherData) <> [] ->
  exists likelihood w',
    likelihoodOf (currentSample weatherData) = Ok likelihood /\
    samplePoint apiKey net Decode pointLat pointLon heatmapData w
    = (Ok (heatmapData ++ [HeatmapData.mk pointLat pointLon likelihood]), w') /\
    requests w' = requests w ++ [requestURL apiKey pointLat pointLon].
Proof.
  intros Ereply Ebody Hw.
  unfold samplePoint, fetchWeatherData.
  unfold bind at 1. unfold bind at 1. unfold log at 1. unfold bind at 1.
  unfold roundTrip. cbn [now requests]. rewrite Ereply.
  change (negb (StatusOK =? StatusOK)%Z) with false. cbv iota. rewrite Ebody.
  unfold bind at 1. unfold log at 1. unfold ret at 1.
  fold (currentSample weatherData). unfold bind at 1.
  match goal with
  | |- context [calculateRainbowLikelihood ?s ?w0] =>
      destruct (scorer64_run s w0 Hw) as (likelihood & Hl & Hrun)
  end.
  exists likelihood. eexists. split; [exact Hl|].
  rewrite Hrun. unfold ret. split; reflexivity.
Qed.

Lemma sampleOffsets_all_fail lat lon offsets :
  (forall t sent url, fetchFails Decode (net t sent url) = true) ->
  forall heatmapData w,
  exists w',
    sampleOffsets apiKey net Decode lat lon offsets heatmapData w = (Ok heatmapData, w') /\
    requests w' = requests w ++ map (urlAt apiKey lat lon) offsets.
Proof.
  intros Hfail. unfold sampleOffsets.
  induction offsets as [|o offsets IH]; intros hd w; cbn [forRange map].
  - exists w. split; [reflexivity|]. now rewrite app_nil_r.
  - destruct (samplePoint_failure (F64.add lat (fst o)) (F64.add lon (snd o)) hd w
                                  (Hfail _ _ _))
      as (err & w1 & Hrun & Hreq & _).
    unfold bind. rewrite Hrun.
    destruct (IH hd w1) as (w2 & Hrun2 & Hreq2).
    exists w2. split; [exact Hrun2|].
    rewrite Hreq2, Hreq, <- app_assoc. reflexivity.
Qed.
End Handler.
End Heatmap64Facts.

Module Heatmap64Flood.
Import Go Go.Notations GoFacts Scan OpenWeather64 Grid64 Heatmap64Spec Heatmap64Facts.

Section Absorbed.
Context {lib : Library} {flt : FloatLibrary}.
Variable apiKey : string.
Variable net : Upstream.
Variable Decode : Body -> WeatherData + GoError.
Variables lat lon radiusDegrees resolution dlat dlon : F64.t.
Hypothesis in_range : F64.leb dlon radiusDegrees = true.
Hypothesis absorbed : F64.add dlon resolution = dlon.
Hypothesis inside : withinRadius radiusDegrees dlat dlon = true.
Hypothesis fails : forall t sent url, fetchFails Decode (net t sent url) = true.

(** A row whose loop variable does not move, at an offset inside the
    circle: every iteration sends the same request, and the row does not
    end. *)
Lemma dlonLoop_absorbed fuel :
  forall heatmapData (w : World NoCache),
  exists w',
    dlonLoop apiKey net Decode fuel lat lon radiusDegrees resolution dlat dlon heatmapData w
    = (Ok None, w') /\
    requests w' =
    requests w ++ repeat (requestURL apiKey (F64.add lat dlat) (F64.add lon dlon)) fuel.
Proof.
  induction fuel as [|fuel IH]; intros hd w; cbn [dlonLoop repeat].
  - exists w. split; [reflexivity|]. now rewrite app_nil_r.
  - rewrite in_range. unfold bind, heatmapPoint. rewrite inside.
    destruct (samplePoint_failure apiKey net Decode (F64.add lat dlat) (F64.add lon dlon)
                                  hd w (fails _ _ _)) as (err & w1 & Hrun & Hreq & _).
    rewrite Hrun, absorbed.
    destruct (IH hd w1) as (w2 & Hrun2 & Hreq2).
    exists w2. split; [exact Hrun2|].
    rewrite Hreq2, Hreq, <- app_assoc. reflexivity.
Qed.
End Absorbed.
End Heatmap64Flood.

Module GovFacts.
Import Go Go.Notations GoFacts Scan ScanFacts WeatherGov Gov GovSpec.

Section Predictor.
Context {lib : Library}.
Implicit Types (period : Period) (w : World NoCache).

Ltac run := unfold scorePeriod, bind, ret, log; simpl.

Lemma scorePeriod_run period w :
  scorePeriod period w = (Ok (candidate period), addLog w (periodLog period)).
Proof.
  unfold candidate, periodLog, addLog. run.
  destruct (time_Parse (StartTime period)) as [t|e]; simpl; [|reflexivity].
  destruct ((Hour t <? 6)%Z || (Hour t >? 20)%Z); simpl;
    [now rewrite app_nil_r; destruct w|].
  destruct (ParseFloat (firstField (WindSpeed period))) as [v|e]; simpl;
    [now rewrite app_nil_r; destruct w|reflexivity].
Qed.

Lemma periodBody_run period best w :
  periodBody period best w = (Ok (pick best (candidate period)), addLog w (periodLog period)).
Proof.
  unfold periodBody. destruct best as [bl bt]. unfold bind.
  rewrite scorePeriod_run. unfold pick. simpl.
  destruct (candidate period) as [[l t]|]; [|reflexivity].
  destruct (Qlt_bool bl l); reflexivity.
Qed.

Lemma predictRainbow_run forecast location w :
  predictRainbow forecast location w =
  (Ok (let best := fold_left pick (map candidate (Periods forecast)) (0, zeroTime) in
       mkRainbowPrediction (fst best) location (snd best)),
   addLog w (flat_map periodLog (Periods forecast))).
Proof.
  unfold predictRainbow, bind.
  rewrite (forRange_pick periodBody candidate periodLog)
    by (apply Forall_forall; intros; apply periodBody_run).
  destruct (fold_left pick (map candidate (Periods forecast)) (0, zeroTime));
    reflexivity.
Qed.
End Predictor.
End GovFacts.

Module GovBounds.
Import Go Go.Notations GoFacts Scan ScanFacts WeatherGov Gov GovSpec GovFacts.

Lemma square_nonneg (x : Q) : 0 <= x * x.
Proof.
  destruct (Qlt_le_dec x 0).
  - assert (E : x * x == (- x) * (- x)) by ring.
    rewrite E. apply Qmult_le_0_compat; lra.
  - apply Qmult_le_0_compat; lra.
Qed.

Lemma unit3 (a b c : Q) :
  0 <= a <= 1 -> 0 <= b <= 1 -> 0 <= c <= 1 -> 0 <= a * b * c <= 1.
Proof.
  intros Ha Hb Hc. assert (Hab : 0 <= a * b <= 1) by nra.
  generalize dependent (a * b). intros ab Hab. nra.
Qed.

Lemma triangle_unit (x centre : Q) :
  0 < centre -> 0 <= x <= 2 * centre -> 0 <= 1 - Qabs (x - centre) / centre <= 1.
Proof.
  intros Hc Hx.
  assert (Ha : 0 <= Qabs (x - centre) <= centre).
  { split; [apply Qabs_nonneg|]. apply Qabs_Qle_condition. lra. }
  generalize dependent (Qabs (x - centre)). intros a Ha.
  assert (0 <= a / centre <= 1).
  { split.
    - apply Qle_shift_div_l; lra.
    - apply Qle_shift_div_r; lra. }
  lra.
Qed.

Lemma parabola_unit (p : Q) : 0 <= p <= 100 -> 0 <= p * (100 - p) / 2500 <= 1.
Proof.
  intros Hp. qconst.
  assert (H0 : 0 <= p * (100 - p)) by (apply Qmult_le_0_compat; lra).
  assert (H1 : p * (100 - p) == 2500 - (p - 50) * (p - 50)) by ring.
  assert (H2 : 0 <= (p - 50) * (p - 50)) by apply square_nonneg.
  generalize dependent ((p - 50) * (p - 50)).
  generalize dependent (p * (100 - p)). intros. lra.
Qed.

Section Bounds.
Context {lib : Library}.
Implicit Types (period : Period).

Lemma clamp_unit (v : Q) :
  let windFactor := 1 - Qabs (v - 10) / 10 in
  0 <= (if Qlt_bool windFactor 0 then 0 else windFactor) <= 1.
Proof.
  intros windFactor.
  assert (windFactor <= 1).
  { unfold windFactor. pose proof (Qabs_nonneg (v - 10)).
    generalize dependent (Qabs (v - 10)). intros. qconst. lra. }
  destruct (Qlt_bool windFactor 0) eqn:E; [lra|].
  apply Qlt_bool_false_iff in E. lra.
Qed.

Lemma candidate_bounds period l t :
  nominal period -> candidate period = Some (l, t) -> 0 <= l <= 9 # 4.
Proof.
  intros [Hp Hc]. unfold candidate, scorePeriod, bind, ret, log. simpl.
  destruct (time_Parse (StartTime period)) as [t'|e]; simpl; [|discriminate].
  destruct ((Hour t' <? 6)%Z || (Hour t' >? 20)%Z); simpl; [discriminate|].
  assert (Hbase : 0 <= (if Qle_bool (Temperature period) 32 then 0
                        else ProbabilityOfPrecipitation period
                             * (100 - ProbabilityOfPrecipitation period) / 2500) <= 1).
  { destruct (Qle_bool (Temperature period) 32); [lra|now apply parabola_unit]. }
  assert (Hcloud : 0 <= 1 - Qabs (inject_Z (CloudCover period) - 50) / 50 <= 1).
  { apply triangle_unit; [lra|]. destruct Hc as [H0 H100].
    rewrite Zle_Qle in H0, H100.
    change (inject_Z 0) with 0 in H0. change (inject_Z 100) with 100 in H100.
    generalize dependent (inject_Z (CloudCover period)). intros. lra. }
  assert (Hgen : forall v l0,
    (let windFactor := 1 - Qabs (v - 10) / 10 in
     let likelihood :=
       (if Qle_bool (Temperature period) 32 then 0
        else ProbabilityOfPrecipitation period
             * (100 - ProbabilityOfPrecipitation period) / 2500)
       * (1 - Qabs (inject_Z (CloudCover period) - 50) / 50)
       * (if Qlt_bool windFactor 0 then 0 else windFactor) in
     l0 = likelihood \/ l0 = likelihood * (3 # 2) \/ l0 = likelihood * (3 # 2) * (3 # 2)) ->
    0 <= l0 <= 9 # 4).
  { intros v l0 H. pose proof (clamp_unit v) as Hw. cbv zeta in Hw, H.
    pose proof (unit3 _ _ _ Hbase Hcloud Hw) as Hl.
    match type of Hl with 0 <= ?e <= 1 => set (x := e) in *; clearbody x end.
    destruct H as [-> | [-> | ->]]; clear - Hl; lra. }
  destruct (ParseFloat (firstField (WindSpeed period))) as [v|e]; simpl;
    intros [= <- _].
  - apply (Hgen v). cbv zeta.
    repeat match goal with
           | |- context [if andb ?a ?b then _ else _] => destruct (andb a b)
           end; auto.
  - apply (Hgen 0). cbv zeta.
    repeat match goal with
           | |- context [if andb ?a ?b then _ else _] => destruct (andb a b)
           end; auto.
Qed.
End Bounds.
End GovBounds.

Module GovSkips.
Import Go Go.Notations GoFacts Scan ScanFacts WeatherGov Gov GovSpec GovFacts.

Section Skips.
Context {lib : Library}.
Implicit Types (period : Period).

Lemma candidate_unparsed period e :
  time_Parse (StartTime period) = inr e ->
  candidate period = None /\
  periodLog period =
    [mkLog ErrorLevel "Error parsing start time"
           [("startTime", VString (StartTime period)); ("error", VError e)]].
Proof.
  intros E. unfold candidate, periodLog, scorePeriod, bind, ret, log.
  rewrite E. simpl. split; reflexivity.
Qed.

Lemma still_wind_is_zero : 1 - Qabs (0 - 10) / 10 == 0.
Proof. reflexivity. Qed.

Lemma candidate_bad_wind period t e :
  time_Parse (StartTime period) = inl t ->
  (6 <= Hour t <= 20)%Z ->
  ParseFloat (firstField (WindSpeed period)) = inr e ->
  (exists l, candidate period = Some (l, t) /\ l == 0) /\
  periodLog period =
    [mkLog ErrorLevel "Error parsing wind speed"
           [("windSpeed", VString (firstField (WindSpeed period))); ("error", VError e)]].
Proof.
  intros Et Hh Ew. unfold candidate, periodLog, scorePeriod, bind, ret, log.
  rewrite Et. simpl.
  replace ((Hour t <? 6)%Z || (Hour t >? 20)%Z) with false
    by (symmetry; apply orb_false_iff; split;
        [apply Z.ltb_ge|rewrite Z.gtb_ltb; apply Z.ltb_ge]; lia).
  rewrite Ew. simpl. split; [|reflexivity].
  eexists. split; [reflexivity|].
  change (Qlt_bool (1 - Qabs (0 - 10) / 10) 0) with false. cbv iota.
  repeat match goal with
         | |- context [if andb ?a ?b then _ else _] => destruct (andb a b)
         end;
    rewrite still_wind_is_zero; ring.
Qed.

Lemma candidate_night period t :
  time_Parse (StartTime period) = inl t ->
  (Hour t < 6 \/ 20 < Hour t)%Z ->
  candidate period = None /\ periodLog period = [].
Proof.
  intros Et Hh. unfold candidate, periodLog, scorePeriod, bind, ret, log.
  rewrite Et. simpl.
  replace ((Hour t <? 6)%Z || (Hour t >? 20)%Z) with true; [split; reflexivity|].
  symmetry. apply orb_true_iff. rewrite Z.gtb_ltb, !Z.ltb_lt. exact Hh.
Qed.
End Skips.
End GovSkips.

Module GovCachedFacts.
Import Go Go.Notations GoFacts Scan ScanFacts WeatherGov GovCached GovCachedSpec.

Section Predictor.
Context {lib : Library}.
Implicit Types (period : Period) (w : World Target).

Lemma cached_scorePeriod_run period w :
  scorePeriod period w = (Ok (candidate period), addLog w (periodLog period)).
Proof.
  unfold candidate, periodLog, addLog, scorePeriod, bind, ret, log. simpl.
  destruct (time_Parse (StartTime period)) as [t|e]; simpl; [|reflexivity].
  destruct (Qlt_bool (calculateSunAngle t) 0 || Qlt_bool 42 (calculateSunAngle t)); simpl;
    [now rewrite app_nil_r; destruct w|].
  destruct (CloudCover period >? 96)%Z; simpl; [now rewrite app_nil_r; destruct w|].
  destruct (Qlt_bool 0 (ProbabilityOfPrecipitation period)
            && Qlt_bool 32 (Temperature period)); simpl;
    now rewrite app_nil_r; destruct w.
Qed.

Lemma cached_periodBody_run period best w :
  periodBody period best w = (Ok (pick best (candidate period)), addLog w (periodLog period)).
Proof.
  unfold periodBody. destruct best as [bl bt]. unfold bind.
  rewrite cached_scorePeriod_run. unfold pick. simpl.
  destruct (candidate period) as [[l t]|]; [|reflexivity].
  destruct (Qlt_bool bl l); reflexivity.
Qed.

Lemma cached_predictRainbow_run forecast lat lon w :
  predictRainbow forecast lat lon w =
  (Ok (let best := fold_left pick (map candidate (Periods forecast)) (0, zeroTime) in
       mkRainbowPrediction (fst best) (verb_4f lat +:+ ", " +:+ verb_4f lon) (snd best)),
   addLog w (flat_map periodLog (Periods forecast))).
Proof.
  unfold predictRainbow, bind.
  rewrite (forRange_pick periodBody candidate periodLog)
    by (apply Forall_forall; intros; apply cached_periodBody_run).
  destruct (fold_left pick (map candidate (Periods forecast)) (0, zeroTime));
    reflexivity.
Qed.

Lemma cached_candidate_unparsed period e :
  time_Parse (StartTime period) = inr e ->
  candidate period = None /\
  periodLog period =
    [mkLog ErrorLevel "Error parsing start time"
           [("startTime", VString (StartTime period)); ("error", VError e)]].
Proof.
  intros E. unfold candidate, periodLog, scorePeriod, bind, ret, log.
  rewrite E. simpl. split; reflexivity.
Qed.

(** The eligibility filters: too cloudy, or the sun outside the band. *)
Lemma candidate_rejected period t :
  time_Parse (StartTime period) = inl t ->
  (CloudCover period > 96)%Z \/ calculateSunAngle t < 0 \/ 42 < calculateSunAngle t ->
  candidate period = None /\ periodLog period = [].
Proof.
  intros E H. unfold candidate, periodLog, scorePeriod, bind, ret, log.
  rewrite E. simpl.
  destruct (Qlt_bool (calculateSunAngle t) 0 || Qlt_bool 42 (calculateSunAngle t)) eqn:Es;
    simpl; [split; reflexivity|].
  apply orb_false_iff in Es. destruct Es as [E0 E42].
  apply Qlt_bool_false_iff in E0, E42.
  destruct H as [Hc | [Hs | Hs]]; [| lra | lra].
  replace (CloudCover period >? 96)%Z with true by (symmetry; apply Z.gtb_lt; lia).
  split; reflexivity.
Qed.
End Predictor.
End GovCachedFacts.

Module GovCachedBounds.
Import Go Go.Notations GoFacts Scan ScanFacts WeatherGov GovCached GovCachedSpec.
Import GovBounds.

Section Bounds.
Context {lib : Library}.
Implicit Types (period : Period).

Lemma cached_candidate_bounds period l t :
  candidate period = Some (l, t) ->
  0 <= l /\ (nominal period -> l <= 9 # 5).
Proof.
  unfold candidate, scorePeriod, bind, ret, log. simpl.
  destruct (time_Parse (StartTime period)) as [t'|e]; simpl; [|discriminate].
  destruct (Qlt_bool (calculateSunAngle t') 0 || Qlt_bool 42 (calculateSunAngle t')) eqn:Es;
    simpl; [discriminate|].
  apply orb_false_iff in Es. destruct Es as [E0 E42].
  apply Qlt_bool_false_iff in E0, E42.
  destruct (CloudCover period >? 96)%Z eqn:Ec; simpl; [discriminate|].
  destruct (Qlt_bool 0 (ProbabilityOfPrecipitation period)
            && Qlt_bool 32 (Temperature period)) eqn:Ep; simpl; [|discriminate].
  apply andb_true_iff in Ep. destruct Ep as [Ep _]. apply Qlt_bool_iff in Ep.
  assert (Hcc : (CloudCover period <= 96)%Z).
  { destruct (Z.gtb_spec (CloudCover period) 96); [discriminate|assumption]. }
  rewrite Zle_Qle in Hcc. change (inject_Z 96) with 96 in Hcc.
  assert (Hangle : 0 <= 1 - Qabs (calculateSunAngle t' - 21) / 21 <= 1)
    by (apply triangle_unit; lra).
  set (clear := (100 - inject_Z (CloudCover period)) / 100).
  set (rain := ProbabilityOfPrecipitation period / 100).
  set (angle := 1 - Qabs (calculateSunAngle t' - 21) / 21) in *.
  assert (Hclear : 0 <= clear) by (unfold clear; apply Qle_shift_div_l; lra).
  assert (Hrain : 0 <= rain) by (unfold rain; apply Qle_shift_div_l; lra).
  assert (Hbase : 0 <= 1 * clear * rain * angle).
  { assert (0 <= clear * rain) by (apply Qmult_le_0_compat; assumption).
    assert (0 <= clear * rain * angle) by (apply Qmult_le_0_compat; [assumption|lra]).
    assert (E : 1 * clear * rain * angle == clear * rain * angle) by ring.
    rewrite E. assumption. }
  assert (Hnom : nominal period -> 1 * clear * rain * angle <= 1).
  { intros [Hp Hc]. rewrite Zle_Qle in Hc. change (inject_Z 0) with 0 in Hc.
    assert (clear <= 1) by (unfold clear; apply Qle_shift_div_r; lra).
    assert (rain <= 1) by (unfold rain; apply Qle_shift_div_r; lra).
    assert (E : 1 * clear * rain * angle == clear * rain * angle) by ring.
    rewrite E. apply unit3; lra. }
  clearbody clear rain angle.
  set (base := 1 * clear * rain * angle) in *. clearbody base.
  destruct ((Hour t' >=? 16)%Z && (Hour t' <=? 22)%Z);
    destruct ((Month t' >=? April)%Z && (Month t' <=? September)%Z);
    intros [= <- _]; (split; [lra|intros Hn; specialize (Hnom Hn); lra]).
Qed.
End Bounds.
End GovCachedBounds.

Module RetryFacts.
Import Go Go.Notations GoFacts WeatherGov RetrySpec.

Section Retry.
Context {Cached Target : Type}.
Variable fetchJSON : string -> Target -> M Cached (Target * option GoError).
Implicit Types (w : World Cached) (target : Target).

Lemma retryLoop_success n i url target err w t1 w1 :
  fetchJSON url target w = (Ok (t1, None), w1) ->
  retryLoop fetchJSON (S n) i url target err w = (Ok (t1, None), w1).
Proof. intros E. cbn [retryLoop]. unfold bind. rewrite E. reflexivity. Qed.

Lemma retryLoop_failure n i url target err w t1 e1 w1 :
  fetchJSON url target w = (Ok (t1, Some e1), w1) ->
  retryLoop fetchJSON (S n) i url target err w =
  retryLoop fetchJSON n (i + 1)%Z url t1 (Some e1) (pause (i + 1) url e1 w1).
Proof. intros E. cbn [retryLoop]. unfold bind at 1. rewrite E. reflexivity. Qed.

Lemma retryLoop_panic n i url target err w p w1 :
  fetchJSON url target w = (Panic p, w1) ->
  retryLoop fetchJSON (S n) i url target err w = (Panic p, w1).
Proof. intros E. cbn [retryLoop]. unfold bind. rewrite E. reflexivity. Qed.

(** The loop makes at most [n] attempts. *)
Lemma retryLoop_requests n :
  (forall url target w,
      (length (requests (snd (fetchJSON url target w))) <= length (requests w) + 1)%nat) ->
  forall i url target err w,
    (length (requests (snd (retryLoop fetchJSON n i url target err w)))
     <= length (requests w) + n)%nat.
Proof.
  intros Hone. induction n as [|n IH]; intros i url target err w.
  - simpl. lia.
  - specialize (Hone url target w).
    destruct (fetchJSON url target w) as [[[t1 [e1|]]|p] w1] eqn:E; simpl in Hone.
    + rewrite (retryLoop_failure _ _ _ _ _ _ _ _ _ E).
      specialize (IH (i + 1)%Z url t1 (Some e1) (pause (i + 1) url e1 w1)).
      simpl in IH. lia.
    + rewrite (retryLoop_success _ _ _ _ _ _ _ _ E). simpl. lia.
    + rewrite (retryLoop_panic _ _ _ _ _ _ _ _ E). simpl. lia.
Qed.
End Retry.

Section Programs.
Context {lib : Library}.

Lemma Gov_fetchJSON_requests {dec : Decoder Gov.PointMetadata} net url target
      (w : World NoCache) :
  requests (snd (Gov.fetchJSON net url target w)) =
  requests w ++ match NewRequest url with Some _ => [] | None => [url] end.
Proof.
  unfold Gov.fetchJSON, bind, log, roundTrip, ret. simpl.
  destruct (NewRequest url); simpl; [now rewrite app_nil_r|].
  destruct (reply _) as [e|code body]; simpl; [reflexivity|].
  destruct (code =? StatusOK)%Z; simpl; [|reflexivity].
  destruct body as [e|raw]; simpl; [reflexivity|].
  destruct (Unmarshal raw target) as [t' [e|]]; reflexivity.
Qed.
End Programs.
End RetryFacts.

Module CacheFacts.
Import Go Go.Notations GoFacts WeatherGov GovCached.

Section Cache.
Context {lib : Library} {dec : Decoder PointMetadata}.
Variable net : Upstream.
Implicit Types (w : World Target) (target : Target).

(** An unexpired entry: the world is left as it is, so nothing is sent. *)
Lemma fetchJSON_hit url target w entry :
  cache w !! url = Some entry ->
  (now w < ExpiresAt entry)%Z ->
  snd (fetchJSON net url target w) = w.
Proof.
  intros E Hfresh. unfold fetchJSON, bind, cache_lookup, time_Now.
  rewrite E. replace (now w <? ExpiresAt entry)%Z with true
    by (symmetry; apply Z.ltb_lt; assumption).
  destruct target; reflexivity.
Qed.

(** What the hit branch returns: the type assertion only holds for a
    pointer to an empty interface. *)
Lemma fetchJSON_hit_value url target w entry :
  cache w !! url = Some entry ->
  (now w < ExpiresAt entry)%Z ->
  fst (fetchJSON net url target w) =
  match target with
  | OfInterface _ => Ok (OfInterface (BoxPointer (Data entry)), None)
  | _ => Panic (InterfaceConversion (typeName target) "*interface {}")
  end.
Proof.
  intros E Hfresh. unfold fetchJSON, bind, cache_lookup, time_Now.
  rewrite E. replace (now w <? ExpiresAt entry)%Z with true
    by (symmetry; apply Z.ltb_lt; assumption).
  destruct target; reflexivity.
Qed.

(** No entry, or an expired one: the rest of [fetchJSON] runs. *)
Lemma fetchJSON_miss url target w :
  match cache w !! url with
  | Some entry => (ExpiresAt entry <= now w)%Z
  | None => True
  end ->
  fetchJSON net url target w = fetchAndStore net url target w.
Proof.
  unfold fetchJSON, bind, cache_lookup, time_Now.
  destruct (cache w !! url) as [entry|]; [|reflexivity].
  intros H. replace (now w <? ExpiresAt entry)%Z with false
    by (symmetry; apply Z.ltb_ge; assumption).
  reflexivity.
Qed.

Lemma fetchAndStore_requests url target w :
  NewRequest url = None ->
  requests (snd (fetchAndStore net url target w)) = requests w ++ [url].
Proof.
  intros E. unfold fetchAndStore, bind, log, roundTrip, ret, time_Now, cache_store.
  rewrite E. simpl.
  destruct (reply _) as [e|code body]; simpl; [reflexivity|].
  destruct (code =? StatusOK)%Z; simpl; [|reflexivity].
  destruct body as [e|raw]; simpl; [reflexivity|].
  destruct (Unmarshal raw target) as [t' [e|]]; reflexivity.
Qed.

(** A successful response overwrites the entry; it expires [ttl] seconds
    after the response. *)
Lemma fetchAndStore_stores url target w t' w' :
  fetchAndStore net url target w = (Ok (t', None), w') ->
  cache w' !! url = Some (mkCacheEntry t' (now w' + ttl)%Z) /\
  now w' = (now w + took (net (now w) (requests w) url))%Z.
Proof.
  unfold fetchAndStore, bind, log, roundTrip, ret, time_Now, cache_store. simpl.
  destruct (NewRequest url); simpl; [discriminate|].
  destruct (reply _) as [e|code body]; simpl; [discriminate|].
  destruct (code =? StatusOK)%Z; simpl; [|discriminate].
  destruct body as [e|raw]; simpl; [discriminate|].
  destruct (Unmarshal raw target) as [t'' [e|]]; simpl; [discriminate|].
  intros [= <- <-]. simpl. split; [|reflexivity].
  apply lookup_insert_eq.
Qed.

(** A failed attempt leaves the cache as it was. *)
Lemma fetchAndStore_failure url target w t' e w' :
  fetchAndStore net url target w = (Ok (t', Some e), w') -> cache w' = cache w.
Proof.
  unfold fetchAndStore, bind, log, roundTrip, ret, time_Now, cache_store. simpl.
  destruct (NewRequest url); simpl; [intros [= _ _ <-]; reflexivity|].
  destruct (reply _) as [e'|code body]; simpl; [intros [= _ _ <-]; reflexivity|].
  destruct (code =? StatusOK)%Z; simpl; [|intros [= _ _ <-]; reflexivity].
  destruct body as [e'|raw]; simpl; [intros [= _ _ <-]; reflexivity|].
  destruct (Unmarshal raw target) as [t'' [e'|]]; simpl;
    [intros [= _ _ <-]; reflexivity|discriminate].
Qed.
End Cache.

Section Uncached.
Context {lib : Library}.

Lemma fetchWeatherData_requests apiKey net Decode lat lon (w : World NoCache) :
  requests (snd (OpenWeather.fetchWeatherData apiKey net Decode lat lon w)) =
  requests w ++ [OpenWeather.requestURL apiKey lat lon].
Proof.
  unfold OpenWeather.fetchWeatherData, bind, log, roundTrip, ret. simpl.
  destruct (reply _) as [e|code body]; simpl; [reflexivity|].
  destruct (negb _); simpl; [reflexivity|].
  destruct (Decode body); reflexivity.
Qed.
End Uncached.
End CacheFacts.

Module SqrtFacts.
Import Go.
Import Stdlib.Reals.Reals Stdlib.Reals.Qreals.

(** [Sqrt_le] decides the comparison of the real square root. *)
Lemma Sqrt_le_real (x r : Q) :
  0 <= x ->
  Sqrt_le x r = true <-> (sqrt (Q2R x) <= Q2R r)%R.
Proof.
  intros Hx. apply Qle_Rle in Hx. rewrite RMicromega.Q2R_0 in Hx.
  unfold Sqrt_le. rewrite andb_true_iff, !Qle_bool_iff. split.
  - intros [Hr Hsq]. apply Qle_Rle in Hr, Hsq.
    rewrite RMicromega.Q2R_0 in Hr. rewrite Q2R_mult in Hsq.
    rewrite <- (sqrt_square (Q2R r)) by assumption.
    apply sqrt_le_1; try assumption.
    apply Rmult_le_pos; assumption.
  - intros H.
    assert (Hr : (0 <= Q2R r)%R) by (eapply Rle_trans; [apply sqrt_pos|exact H]).
    split.
    + apply Rle_Qle. now rewrite RMicromega.Q2R_0.
    + apply Rle_Qle. rewrite Q2R_mult.
      rewrite <- (sqrt_sqrt (Q2R x)) by assumption.
      apply Rmult_le_compat; try apply sqrt_pos; assumption.
Qed.
End SqrtFacts.

(** * The claims *)
Import Go Go.Notations GoFacts Scan ScanFacts.

(** ** Scorer of [main.go] *)

(** Claim C10.  The scorer of [main.go] is not total: for a sample whose
    [Weather] list is empty the guard [len(weather.Weather) == 0] sends it
    into the rejection branch, whose [log.Debug] call evaluates
    [weather.Weather[0].ID]; the run ends in the panic "index out of range
    [0] with length 0" instead of returning 0. *)
Theorem scorer_panics_on_empty_Weather
        {lib : Library} (Temp : Q) (Humidity : Z) (Clouds : Z) (UVI : Q) (Visibility : Z)
        (WindSpeed : Q) (WindDeg : Z) (Pop : Q) (w : World NoCache) :
  fst (OpenWeather.calculateRainbowLikelihood
         (OpenWeather.mkSample Temp Humidity [] Clouds UVI Visibility WindSpeed WindDeg Pop) w)
  = Panic (IndexOutOfRange 0 0).
Proof. apply OpenWeatherFacts.scorer_empty. reflexivity. Qed.

(** ** Range of the likelihood *)

(** Claim C2, counterexample.  The uncached api.weather.gov predictor has
    no clamp: rain showers at 16:00 with an east wind of 10 mph under
    50% cloud give 1 * 1 * 1 * 1.5 * 1.5 = 2.25. *)
Lemma uncached_prediction_exceeds_one :
  exists p,
    fst (Gov.predictRainbow (lib := Reference.library)
           (WeatherGov.mkForecastData [Scenario.rainyAfternoon]) "39.5000, -105.0000"
           (boot 0)) = Ok p /\
    WeatherGov.Likelihood p == 9 # 4 /\ ~ WeatherGov.Likelihood p <= 1.
Proof.
  eexists. split; [vm_compute; reflexivity|].
  split; [reflexivity|]. intros H. vm_compute in H. apply H. reflexivity.
Qed.

(** Claim C2, as amended.  In [main.go] the scorer caps its result at 1,
    and for field values in their nominal ranges the result is not
    negative; the likelihood of the prediction of [handlePrediction] is in
    [[0, 1]], every heatmap point has a likelihood of at most 1 and, when
    the decoded samples are nominal, of at least 0.  The two
    api.weather.gov predictors do not clamp: their likelihood is never
    negative and, for periods with percentages in range, at most 9/4
    without the cache and 9/5 with it. *)
Theorem likelihood_ranges {lib : Library} :
  (forall s (w : World NoCache) q w',
      OpenWeather.calculateRainbowLikelihood s w = (Ok q, w') ->
      q <= 1 /\ (OpenWeatherSpec.nominal s -> 0 <= q)) /\
  (forall apiKey net Decode vars_lat vars_lon w p w',
      OpenWeather.handlePrediction apiKey net Decode vars_lat vars_lon w
      = (Ok (OpenWeather.PredictionJSON p), w') ->
      0 <= OpenWeather.Likelihood p <= 1) /\
  (forall apiKey net Decode fuel q_lat q_lon q_radius q_resolution w points w',
      OpenWeather.handleHeatmapData apiKey net Decode fuel q_lat q_lon q_radius q_resolution w
      = (Ok (Some (OpenWeather.HeatmapJSON points)), w') ->
      Forall (fun p => OpenWeather.HeatmapData.Likelihood p <= 1) points /\
      ((forall body weatherData,
           Decode body = inl weatherData ->
           OpenWeatherSpec.nominal (OpenWeatherSpec.currentSample weatherData)) ->
       Forall (fun p => 0 <= OpenWeather.HeatmapData.Likelihood p) points)) /\
  (forall forecast location (w : World NoCache) p w',
      Gov.predictRainbow forecast location w = (Ok p, w') ->
      0 <= WeatherGov.Likelihood p /\
      (Forall GovSpec.nominal (WeatherGov.Periods forecast) ->
       WeatherGov.Likelihood p <= 9 # 4)) /\
  (forall forecast lat lon (w : World GovCached.Target) p w',
      GovCached.predictRainbow forecast lat lon w = (Ok p, w') ->
      0 <= WeatherGov.Likelihood p /\
      (Forall GovCachedSpec.nominal (WeatherGov.Periods forecast) ->
       WeatherGov.Likelihood p <= 9 # 5)).
Proof.
  split; [|split; [|split; [|split]]].
  - intros s w q w' Hrun. split.
    + eapply OpenWeatherFacts.scorer_le_1; eassumption.
    + intros Hn. eapply OpenWeatherFacts.scorer_nonneg; eassumption.
  - intros apiKey net Decode vars_lat vars_lon w p w' Hrun.
    eapply PredictionFacts.handlePrediction_unit; eassumption.
  - intros apiKey net Decode fuel q_lat q_lon q_radius q_resolution w points w' Hrun. split.
    + eapply (HeatmapLoops.handleHeatmapData_good _ _ _ (fun q => q <= 1)); [|eassumption].
      intros body wd w1 q w1' _ Hq. eapply OpenWeatherFacts.scorer_le_1; eassumption.
    + intros Hn.
      eapply (HeatmapLoops.handleHeatmapData_good _ _ _ (fun q => 0 <= q)); [|eassumption].
      intros body wd w1 q w1' Hd Hq.
      eapply OpenWeatherFacts.scorer_nonneg; [|eassumption]. eapply Hn; eassumption.
  - intros forecast location w p w' Hrun.
    rewrite GovFacts.predictRainbow_run in Hrun. injection Hrun as <- _. simpl. split.
    + apply (scan_mono _ (0, zeroTime)).
    + intros Hn. apply (scan_bound (fun q => q <= 9 # 4)); [simpl; lra|].
      apply Forall_map. eapply Forall_impl; [exact Hn|].
      intros period Hp l t Hc. eapply GovBounds.candidate_bounds; eassumption.
  - intros forecast lat lon w p w' Hrun.
    rewrite GovCachedFacts.cached_predictRainbow_run in Hrun. injection Hrun as <- _.
    simpl. split.
    + apply (scan_mono _ (0, zeroTime)).
    + intros Hn. apply (scan_bound (fun q => q <= 9 # 5)); [simpl; lra|].
      apply Forall_map. eapply Forall_impl; [exact Hn|].
      intros period Hp l t Hc.
      destruct (GovCachedBounds.cached_candidate_bounds period l t Hc) as [_ Hu].
      now apply Hu.
Qed.

(** ** The heatmap grid *)


(** Claim C6, the boundary: with a radius of 345 the radius in degrees
    is 5; with a resolution of 1 the offset (3, 4), at distance 5, is
    kept, and the offset (4, 4) of the square, at distance 1.13 * 5, is
    not. *)
Example boundary_offset_is_kept :
  let radiusDegrees := F64.div (F64.ofZ 345) (F64.ofZ 69) in
  let at_ (dlat dlon : Z) (o : F64.t * F64.t) :=
    F64.eqb (fst o) (F64.ofZ dlat) && F64.eqb (snd o) (F64.ofZ dlon) in
  exists values,
    Grid64.axis 12 radiusDegrees (F64.ofZ 1) = Some values /\
    values = map F64.ofZ [-5; -4; -3; -2; -1; 0; 1; 2; 3; 4; 5]%Z /\
    existsb (at_ 3 4)%Z (Grid64.grid radiusDegrees values) = true /\
    existsb (at_ 4 4)%Z (Grid64.square values) = true /\
    existsb (at_ 4 4)%Z (Grid64.grid radiusDegrees values) = false.
Proof.
  cbv zeta. eexists. split; [vm_compute; reflexivity|].
  repeat split; vm_compute; reflexivity.
Qed.

(** Claim C6, accumulated rounding: with a radius of 20.7 the radius in
    degrees is the binary64 number nearest to 0.3, and six additions of
    the resolution 0.1 to its opposite give a sum above it.  Each axis
    has six values, not seven, and the grid has 27 offsets. *)
Example accumulated_steps_stop_short :
  let radiusDegrees := F64.div (F64.decimal 207 1) (F64.ofZ 69) in
  let resolution := F64.decimal 1 1 in
  radiusDegrees = F64.decimal 3 1 /\
  F64.ltb radiusDegrees (Grid64.after 6 resolution (F64.opp radiusDegrees)) = true /\
  exists values,
    Grid64.axis 7 radiusDegrees resolution = Some values /\
    length values = 6%nat /\
    length (Grid64.grid radiusDegrees values) = 27%nat.
Proof.
  cbv zeta. split; [vm_compute; reflexivity|]. split; [vm_compute; reflexivity|].
  eexists. split; [vm_compute; reflexivity|]. split; vm_compute; reflexivity.
Qed.

(** Claim C6, an absorbed step: for a radius of 20 the sum of
    [- radiusDegrees] and a resolution of 1e-17 is [- radiusDegrees]
    again, so the enumeration does not end and no run answers. *)
Example absorbed_step_never_ends :
  let radiusDegrees := F64.div (F64.ofZ 20) (F64.ofZ 69) in
  let resolution := F64.decimal 1 17 in
  F64.ltb (F64.ofZ 0) resolution = true /\
  F64.add (F64.opp radiusDegrees) resolution = F64.opp radiusDegrees /\
  forall n, Grid64.axis n radiusDegrees resolution = None.
Proof.
  cbv zeta. split; [vm_compute; reflexivity|].
  assert (Estep : F64.add (F64.opp (F64.div (F64.ofZ 20) (F64.ofZ 69))) (F64.decimal 1 17)
                  = F64.opp (F64.div (F64.ofZ 20) (F64.ofZ 69))) by (vm_compute; reflexivity).
  split; [exact Estep|].
  assert (Ele : F64.leb (F64.opp (F64.div (F64.ofZ 20) (F64.ofZ 69)))
                        (F64.div (F64.ofZ 20) (F64.ofZ 69)) = true) by (vm_compute; reflexivity).
  unfold Grid64.axis. induction n as [|n IH]; cbn [Grid64.walk]; [reflexivity|].
  rewrite Ele, Estep, IH. reflexivity.
Qed.

(** ** Failures of single heatmap points *)



(** ** The resolution parameter *)

(** Claim C9.  [handleHeatmapData] falls back to 0.05 only when
    [strconv.ParseFloat] reports an error.  A resolution that parses to a
    value that is not positive is used as it is: with a positive radius
    the inner loop never advances past the first row, no run of any
    length reaches the end of the handler, and nothing is requested or
    answered. *)
Theorem nonpositive_resolution_never_returns
        {lib : Library} (apiKey : string) (net : Upstream)
        (Decode : Body -> OpenWeather.WeatherData + GoError)
        (q_lat q_lon q_radius q_resolution : string) (lat lon radius resolution : Q) :
  ParseFloat q_lat = inl lat ->
  ParseFloat q_lon = inl lon ->
  ParseFloat q_radius = inl radius ->
  ParseFloat q_resolution = inl resolution ->
  0 < radius ->
  resolution <= 0 ->
  HeatmapSpec.resolutionOf (ParseFloat q_resolution) = resolution /\
  forall fuel w,
    fst (OpenWeather.handleHeatmapData apiKey net Decode fuel q_lat q_lon q_radius
                                       q_resolution w) = Ok None /\
    requests (snd (OpenWeather.handleHeatmapData apiKey net Decode fuel q_lat q_lon q_radius
                                                 q_resolution w)) = requests w.
Proof.
  intros Elat Elon Erad Eres Hrad Hres. split; [now rewrite Eres|].
  intros fuel w. unfold OpenWeather.handleHeatmapData.
  rewrite Elat, Elon, Erad, Eres. unfold bind, log.
  rewrite HeatmapLoops.dlatLoop_stuck; [split; reflexivity| |assumption].
  apply Qlt_shift_div_l; lra.
Qed.

(** ** Malformed periods *)

(** Claim C8, counterexample.  Rain at 17:00 with the wind speed "calm",
    which [strconv.ParseFloat] refuses: the period is not skipped, the
    loop body goes on with a wind speed of 0 and hands the likelihood it
    computes, 0, to the comparison with the running best.  The same
    period at 03:00 is left by the test of the hour before its wind
    speed is read: nothing is logged for it. *)
Lemma malformed_wind_speed_is_not_skipped :
  (exists e, Reference.ParseFloat (firstField "calm") = inr e) /\
  (exists likelihood,
      fst (Gov.scorePeriod (lib := Reference.library) Scenario.noWindSpeed (boot 0))
      = Ok (Some (likelihood, mkTime 2024 6 15 17 0 0 (-21600))) /\
      likelihood == 0) /\
  logged (snd (Gov.predictRainbow (lib := Reference.library)
                                  (WeatherGov.mkForecastData [Scenario.calmNight])
                                  "39.5000, -105.0000" (boot 0))) = [].
Proof.
  split; [eexists; vm_compute; reflexivity|].
  split; [eexists; split; [vm_compute; reflexivity|reflexivity]|].
  vm_compute. reflexivity.
Qed.

(** Claim C8, as amended.  A period whose start time does not parse is
    logged and skipped by [continue], in both api.weather.gov
    predictors: the prediction is the one of the series without the
    period, and the log holds the entries of the periods before it, the
    error, and the entries of the periods after it.  A wind speed that
    does not parse is different.  Without the cache it is read only for
    a period between 6 and 20 o'clock: the error is logged, the wind
    speed is taken as 0 and the period is scored; its likelihood is 0,
    which never replaces the running best, so the prediction is again
    the one of the series without the period.  For a period outside
    these hours nothing is logged.  With the cache the wind speed is
    never read. *)
Theorem malformed_fields_of_a_period {lib : Library} :
  (forall before period after location (w : World NoCache) e,
      time_Parse (WeatherGov.StartTime period) = inr e ->
      let run periods := Gov.predictRainbow (WeatherGov.mkForecastData periods) location w in
      GovSpec.candidate period = None /\
      fst (run (before ++ period :: after)) = fst (run (before ++ after)) /\
      logged (snd (run (before ++ period :: after))) =
        logged w ++ flat_map GovSpec.periodLog before
        ++ mkLog ErrorLevel "Error parsing start time"
                 [("startTime", VString (WeatherGov.StartTime period)); ("error", VError e)]
           :: flat_map GovSpec.periodLog after) /\
  (forall before period after location (w : World NoCache) t e,
      time_Parse (WeatherGov.StartTime period) = inl t ->
      (6 <= Hour t <= 20)%Z ->
      ParseFloat (firstField (WeatherGov.WindSpeed period)) = inr e ->
      let run periods := Gov.predictRainbow (WeatherGov.mkForecastData periods) location w in
      (exists likelihood,
          GovSpec.candidate period = Some (likelihood, t) /\ likelihood == 0) /\
      fst (run (before ++ period :: after)) = fst (run (before ++ after)) /\
      logged (snd (run (before ++ period :: after))) =
        logged w ++ flat_map GovSpec.periodLog before
        ++ mkLog ErrorLevel "Error parsing wind speed"
                 [("windSpeed", VString (firstField (WeatherGov.WindSpeed period)));
                  ("error", VError e)]
           :: flat_map GovSpec.periodLog after) /\
  (forall before period after location (w : World NoCache) t,
      time_Parse (WeatherGov.StartTime period) = inl t ->
      (Hour t < 6 \/ 20 < Hour t)%Z ->
      let run periods := Gov.predictRainbow (WeatherGov.mkForecastData periods) location w in
      GovSpec.candidate period = None /\
      GovSpec.periodLog period = [] /\
      run (before ++ period :: after) = run (before ++ after)) /\
  (forall before period after lat lon (w : World GovCached.Target) e,
      time_Parse (WeatherGov.StartTime period) = inr e ->
      let run periods :=
        GovCached.predictRainbow (WeatherGov.mkForecastData periods) lat lon w in
      GovCachedSpec.candidate period = None /\
      fst (run (before ++ period :: after)) = fst (run (before ++ after)) /\
      logged (snd (run (before ++ period :: after))) =
        logged w ++ flat_map GovCachedSpec.periodLog before
        ++ mkLog ErrorLevel "Error parsing start time"
                 [("startTime", VString (WeatherGov.StartTime period)); ("error", VError e)]
           :: flat_map GovCachedSpec.periodLog after) /\
  (forall startTime temperature precipitation shortForecast windDirection cloudCover
          windSpeed windSpeed' (w : World GovCached.Target),
      GovCached.scorePeriod
        (WeatherGov.mkPeriod startTime temperature precipitation shortForecast windSpeed
                             windDirection cloudCover) w
      = GovCached.scorePeriod
          (WeatherGov.mkPeriod startTime temperature precipitation shortForecast windSpeed'
                               windDirection cloudCover) w).
Proof.
  split; [|split; [|split; [|split]]].
  - intros before period after location w e E run. unfold run.
    destruct (GovSkips.candidate_unparsed period e E) as [Hc Hl].
    split; [exact Hc|].
    rewrite !GovFacts.predictRainbow_run. cbn [fst snd WeatherGov.Periods].
    rewrite !map_app, !flat_map_app. cbn [map flat_map]. rewrite Hc, Hl.
    rewrite scan_skip by (simpl; first [lra | exact I]).
    split; reflexivity.
  - intros before period after location w t e Et Hh Ew run. unfold run.
    destruct (GovSkips.candidate_bad_wind period t e Et Hh Ew) as [(l & Hc & Hz) Hl].
    split; [exists l; split; assumption|].
    rewrite !GovFacts.predictRainbow_run. cbn [fst snd WeatherGov.Periods].
    rewrite !map_app, !flat_map_app. cbn [map flat_map]. rewrite Hc, Hl.
    rewrite scan_skip by (simpl; lra).
    split; reflexivity.
  - intros before period after location w t Et Hh run. unfold run.
    destruct (GovSkips.candidate_night period t Et Hh) as [Hc Hl].
    split; [exact Hc|]. split; [exact Hl|].
    rewrite !GovFacts.predictRainbow_run. cbn [fst snd WeatherGov.Periods].
    rewrite !map_app, !flat_map_app. cbn [map flat_map]. rewrite Hc, Hl.
    rewrite scan_skip by (simpl; first [lra | exact I]).
    reflexivity.
  - intros before period after lat lon w e E run. unfold run.
    destruct (GovCachedFacts.cached_candidate_unparsed period e E) as [Hc Hl].
    split; [exact Hc|].
    rewrite !GovCachedFacts.cached_predictRainbow_run. cbn [fst snd WeatherGov.Periods].
    rewrite !map_app, !flat_map_app. cbn [map flat_map]. rewrite Hc, Hl.
    rewrite scan_skip by (simpl; first [lra | exact I]).
    split; reflexivity.
  - reflexivity.
Qed.

(** ** Selection of the best period *)

(** Claim C5, counterexample.  Two freezing mornings score 0 each, so
    they share the maximal score; the uncached predictor returns neither:
    0 is not greater than the initial best, and the prediction carries the
    zero time. *)
Lemma zero_scores_keep_the_zero_time :
  let library := Reference.library in
  exists l1 t1 l2 t2 p,
    GovSpec.candidate Scenario.frozenNine = Some (l1, t1) /\
    GovSpec.candidate Scenario.frozenTen = Some (l2, t2) /\
    l1 == l2 /\
    fst (Gov.predictRainbow
           (WeatherGov.mkForecastData [Scenario.frozenNine; Scenario.frozenTen])
           "39.5000, -105.0000" (boot 0)) = Ok p /\
    WeatherGov.Time p = zeroTime /\
    WeatherGov.Time p <> t1.
Proof.
  do 5 eexists. repeat split; try (vm_compute; reflexivity).
  vm_compute. discriminate.
Qed.

(** Claim C5, as amended.  When the maximal likelihood of a series is
    positive, each predictor returns the earliest period that reaches it:
    a period whose likelihood [m] is positive, above that of every period
    before it and not below that of any period after it, gives the
    prediction its likelihood and its time.  For [main.go] the statement
    is about the loop of [handlePrediction], from its initial best, over
    entries the scorer accepts. *)
Theorem earliest_maximum_wins {lib : Library} :
  (forall before period after location (w : World NoCache) m t,
      GovSpec.candidate period = Some (m, t) ->
      0 < m ->
      Forall (fun earlier => below true m (GovSpec.candidate earlier)) before ->
      Forall (fun later => below false m (GovSpec.candidate later)) after ->
      fst (Gov.predictRainbow (WeatherGov.mkForecastData (before ++ period :: after))
                              location w)
      = Ok (WeatherGov.mkRainbowPrediction m location t)) /\
  (forall before period after lat lon (w : World GovCached.Target) m t,
      GovCachedSpec.candidate period = Some (m, t) ->
      0 < m ->
      Forall (fun earlier => below true m (GovCachedSpec.candidate earlier)) before ->
      Forall (fun later => below false m (GovCachedSpec.candidate later)) after ->
      fst (GovCached.predictRainbow (WeatherGov.mkForecastData (before ++ period :: after))
                                    lat lon w)
      = Ok (WeatherGov.mkRainbowPrediction m (verb_4f lat +:+ ", " +:+ verb_4f lon) t)) /\
  (forall before hourly after (w : World NoCache) m,
      Forall (fun entry => OpenWeather.Hourly.Weather entry <> [])
             (before ++ hourly :: after) ->
      OpenWeatherSpec.likelihoodOf (OpenWeatherSpec.hourlySample hourly) = Ok m ->
      0 < m ->
      Forall (fun earlier => below true m (OpenWeatherSpec.candidate earlier)) before ->
      Forall (fun later => below false m (OpenWeatherSpec.candidate later)) after ->
      fst (forRange OpenWeather.hourlyBody (before ++ hourly :: after) (0, zeroTime) w)
      = Ok (m, time_Unix (OpenWeather.Hourly.Dt hourly))).
Proof.
  split; [|split].
  - intros before period after location w m t Hc Hm Hb Ha.
    rewrite GovFacts.predictRainbow_run. cbn [fst WeatherGov.Periods].
    rewrite map_app. cbn [map]. rewrite Hc.
    rewrite scan_first_max; [reflexivity|exact Hm| |]; now apply Forall_map.
  - intros before period after lat lon w m t Hc Hm Hb Ha.
    rewrite GovCachedFacts.cached_predictRainbow_run. cbn [fst WeatherGov.Periods].
    rewrite map_app. cbn [map]. rewrite Hc.
    rewrite scan_first_max; [reflexivity|exact Hm| |]; now apply Forall_map.
  - intros before hourly after w m Hw Hc Hm Hb Ha.
    rewrite PredictionFacts.hourly_loop_run by exact Hw. cbn [fst].
    rewrite map_app. cbn [map]. unfold OpenWeatherSpec.candidate at 2. rewrite Hc.
    rewrite scan_first_max; [reflexivity|exact Hm| |]; now apply Forall_map.
Qed.

(** ** Eligibility filters *)

(** Claim C4, counterexample.  In the uncached predictor a period with
    97% cloud cover at noon, when the computed sun angle is 90, still
    scores 1 * (1 - 47/50) * 1 = 3/50 and becomes the prediction. *)
Lemma overcast_noon_still_scores :
  let library := Reference.library in
  exists t l p,
    time_Parse (WeatherGov.StartTime Scenario.overcastNoon) = inl t /\
    (WeatherGov.CloudCover Scenario.overcastNoon > 96)%Z /\
    42 < WeatherGov.calculateSunAngle t /\
    GovSpec.candidate Scenario.overcastNoon = Some (l, t) /\
    l == 3 # 50 /\
    fst (Gov.predictRainbow (WeatherGov.mkForecastData [Scenario.overcastNoon])
                            "39.5000, -105.0000" (boot 0)) = Ok p /\
    0 < WeatherGov.Likelihood p.
Proof.
  do 3 eexists. repeat split; try (vm_compute; reflexivity).
Qed.

(** Claim C4, as amended.  The cached predictor rejects a period whose
    cloud cover is above 96 or whose computed sun angle is outside
    [[0, 42]] before it computes a likelihood: the loop body leaves the
    running best and the world as they are.  The uncached predictor has no
    such filter: every period that parses, between 6 and 20 o'clock, gets
    a likelihood.  [main.go] returns 0 early only for a first condition
    code outside [[200, 700)]. *)
Theorem eligibility_filters {lib : Library} :
  (forall period t best (w : World GovCached.Target),
      time_Parse (WeatherGov.StartTime period) = inl t ->
      (WeatherGov.CloudCover period > 96)%Z
      \/ WeatherGov.calculateSunAngle t < 0 \/ 42 < WeatherGov.calculateSunAngle t ->
      GovCachedSpec.candidate period = None /\
      GovCached.periodBody period best w = (Ok best, w)) /\
  (forall period t,
      time_Parse (WeatherGov.StartTime period) = inl t ->
      (6 <= Hour t <= 20)%Z ->
      exists likelihood, GovSpec.candidate period = Some (likelihood, t)) /\
  (forall s condition rest (w : World NoCache),
      OpenWeather.Weather s = condition :: rest ->
      (OpenWeather.ID condition < 200 \/ 700 <= OpenWeather.ID condition)%Z ->
      fst (OpenWeather.calculateRainbowLikelihood s w) = Ok 0).
Proof.
  split; [|split].
  - intros period t best w Et H.
    destruct (GovCachedFacts.candidate_rejected period t Et H) as [Hc Hl].
    split; [exact Hc|].
    rewrite GovCachedFacts.cached_periodBody_run, Hc, Hl, addLog_nil. reflexivity.
  - intros period t Et Hh.
    unfold GovSpec.candidate, Gov.scorePeriod, bind, ret, log. rewrite Et. simpl.
    replace ((Hour t <? 6)%Z || (Hour t >? 20)%Z) with false
      by (symmetry; apply orb_false_iff; split;
          [apply Z.ltb_ge|rewrite Z.gtb_ltb; apply Z.ltb_ge]; lia).
    destruct (ParseFloat _); simpl; eexists; reflexivity.
  - intros s c rest w E H.
    unfold OpenWeather.calculateRainbowLikelihood, OpenWeather.orElse, index, bind, ret,
      log, panic. simpl. rewrite E. simpl.
    destruct (OpenWeather.ID c <? 200)%Z eqn:E200; simpl; [reflexivity|].
    replace (OpenWeather.ID c >=? 700)%Z with true; [reflexivity|].
    symmetry. apply Z.geb_le. apply Z.ltb_ge in E200. lia.
Qed.

(** ** Retry *)

(** Claim C3.  [fetchJSONWithRetry] with [maxRetries = 3], the value both
    callers pass, never makes a fourth attempt.  It returns the value of
    the first attempt that succeeds, be it the first, the second or the
    third; after failed attempt [i] the error is logged with the number
    [i] and the process sleeps [i] seconds ([pause i]).  When all three
    attempts fail it returns, after the third pause, the error "max
    retries reached: ..." that wraps the error of the third attempt.  With
    the uncached [fetchJSON] a call sends at most 3 requests. *)
Theorem retry_three_attempts
        {Cached Target : Type}
        (fetchJSON : string -> Target -> M Cached (Target * option GoError))
        (url : string) (target : Target) (w : World Cached) :
  let retry := WeatherGov.fetchJSONWithRetry fetchJSON url target 3 w in
  (forall t1 w1,
      fetchJSON url target w = (Ok (t1, None), w1) ->
      retry = (Ok (t1, None), w1)) /\
  (forall t1 e1 w1 t2 w2,
      fetchJSON url target w = (Ok (t1, Some e1), w1) ->
      fetchJSON url t1 (RetrySpec.pause 1 url e1 w1) = (Ok (t2, None), w2) ->
      retry = (Ok (t2, None), w2)) /\
  (forall t1 e1 w1 t2 e2 w2 t3 w3,
      fetchJSON url target w = (Ok (t1, Some e1), w1) ->
      fetchJSON url t1 (RetrySpec.pause 1 url e1 w1) = (Ok (t2, Some e2), w2) ->
      fetchJSON url t2 (RetrySpec.pause 2 url e2 w2) = (Ok (t3, None), w3) ->
      retry = (Ok (t3, None), w3)) /\
  (forall t1 e1 w1 t2 e2 w2 t3 e3 w3,
      fetchJSON url target w = (Ok (t1, Some e1), w1) ->
      fetchJSON url t1 (RetrySpec.pause 1 url e1 w1) = (Ok (t2, Some e2), w2) ->
      fetchJSON url t2 (RetrySpec.pause 2 url e2 w2) = (Ok (t3, Some e3), w3) ->
      exists err,
        retry = (Ok (t3, Some err), RetrySpec.pause 3 url e3 w3) /\
        Unwrap err = Some e3 /\
        Error err = "max retries reached: " +:+ Error e3 /\
        sleeps (RetrySpec.pause 3 url e3 w3) = sleeps w3 ++ [3%Z]) /\
  (forall (lib : Library) (dec : WeatherGov.Decoder Gov.PointMetadata) net u tgt
          (w0 : World NoCache),
      (length (requests (snd (Gov.fetchJSONWithRetry net u tgt 3 w0)))
       <= length (requests w0) + 3)%nat).
Proof.
  intros retry. unfold retry, WeatherGov.fetchJSONWithRetry.
  change (Z.to_nat 3) with 3%nat.
  split; [|split; [|split; [|split]]].
  - intros t1 w1 E1. now apply RetryFacts.retryLoop_success.
  - intros t1 e1 w1 t2 w2 E1 E2.
    rewrite (RetryFacts.retryLoop_failure _ _ _ _ _ _ _ _ _ _ E1).
    now apply RetryFacts.retryLoop_success.
  - intros t1 e1 w1 t2 e2 w2 t3 w3 E1 E2 E3.
    rewrite (RetryFacts.retryLoop_failure _ _ _ _ _ _ _ _ _ _ E1).
    rewrite (RetryFacts.retryLoop_failure _ _ _ _ _ _ _ _ _ _ E2).
    now apply RetryFacts.retryLoop_success.
  - intros t1 e1 w1 t2 e2 w2 t3 e3 w3 E1 E2 E3.
    rewrite (RetryFacts.retryLoop_failure _ _ _ _ _ _ _ _ _ _ E1).
    rewrite (RetryFacts.retryLoop_failure _ _ _ _ _ _ _ _ _ _ E2).
    rewrite (RetryFacts.retryLoop_failure _ _ _ _ _ _ _ _ _ _ E3).
    eexists. repeat split; reflexivity.
  - intros lib dec net u tgt w0.
    unfold Gov.fetchJSONWithRetry, WeatherGov.fetchJSONWithRetry.
    change (Z.to_nat 3) with 3%nat.
    apply RetryFacts.retryLoop_requests.
    intros u' t' w'. rewrite RetryFacts.Gov_fetchJSON_requests.
    rewrite length_app. destruct (NewRequest u'); simpl; lia.
Qed.

(** ** Cache *)

(** Claim C1, counterexample.  The uncached [fetchJSON] is asked twice
    for the same URL; the first request is answered with status 200 after
    one second, well within 15 minutes of the second, and the second is
    sent upstream all the same. *)
Lemma uncached_fetch_repeats_the_request :
  let library := Reference.library in
  let decoder := Scenario.carries Gov.zeroPointMetadata
                                  (WeatherGov.mkForecastData [Scenario.rainyAfternoon]) in
  let target := WeatherGov.OfForecastData WeatherGov.zeroForecastData in
  let first := Gov.fetchJSON Scenario.healthy Scenario.forecastURL target (boot 0) in
  let second := Gov.fetchJSON Scenario.healthy Scenario.forecastURL target (snd first) in
  (exists payload, fst first = Ok (payload, None)) /\
  (now (snd first) - 0 < 15 * 60)%Z /\
  requests (snd first) = [Scenario.forecastURL] /\
  requests (snd second) = [Scenario.forecastURL; Scenario.forecastURL].
Proof.
  repeat split; try (vm_compute; reflexivity).
  eexists. vm_compute. reflexivity.
Qed.

(** Claim C1, as amended.  In the cached program a request whose URL has
    an entry that has not expired is not sent: the world, and with it the
    list of requests, is left as it is.  Without an entry, or with an
    expired one, a URL that [http.NewRequest] accepts is sent once, and a
    successful answer overwrites the entry with one that expires 15
    minutes after the answer; while that entry is in the cache, the same
    URL is not sent again before that instant and is sent again from that
    instant on.  The uncached [fetchJSON] and [fetchWeatherData] of
    [main.go] have no cache: each call sends its request. *)
Theorem cache_policy {lib : Library} (net : Upstream) :
  (forall (dec : WeatherGov.Decoder GovCached.PointMetadata) url target
          (w : World GovCached.Target),
      (forall entry,
          cache w !! url = Some entry ->
          (now w < ExpiresAt entry)%Z ->
          snd (GovCached.fetchJSON net url target w) = w) /\
      (NewRequest url = None ->
       match cache w !! url with
       | Some entry => (ExpiresAt entry <= now w)%Z
       | None => True
       end ->
       requests (snd (GovCached.fetchJSON net url target w)) = requests w ++ [url] /\
       forall payload w',
         GovCached.fetchJSON net url target w = (Ok (payload, None), w') ->
         cache w' !! url = Some (mkCacheEntry payload (now w' + 15 * 60)%Z) /\
         forall again later,
           cache later !! url = cache w' !! url ->
           ((now later < now w' + 15 * 60)%Z ->
            snd (GovCached.fetchJSON net url again later) = later) /\
           ((now w' + 15 * 60 <= now later)%Z ->
            requests (snd (GovCached.fetchJSON net url again later))
            = requests later ++ [url]))) /\
  (forall (dec : WeatherGov.Decoder Gov.PointMetadata) url target (w : World NoCache),
      NewRequest url = None ->
      requests (snd (Gov.fetchJSON net url target w)) = requests w ++ [url]) /\
  (forall apiKey Decode lat lon (w : World NoCache),
      requests (snd (OpenWeather.fetchWeatherData apiKey net Decode lat lon w))
      = requests w ++ [OpenWeather.requestURL apiKey lat lon]).
Proof.
  split; [|split].
  - intros dec url target w. split.
    + intros entry E Hfresh. eapply CacheFacts.fetchJSON_hit; eassumption.
    + intros Hurl Hmiss. rewrite (CacheFacts.fetchJSON_miss net url target w Hmiss).
      split; [now apply CacheFacts.fetchAndStore_requests|].
      intros payload w' E. apply CacheFacts.fetchAndStore_stores in E.
      destruct E as [Hstored _]. split; [exact Hstored|].
      intros again later Hsame. rewrite <- Hsame in Hstored. split.
      * intros Hfresh. eapply CacheFacts.fetchJSON_hit; [exact Hstored|exact Hfresh].
      * intros Hexpired. rewrite CacheFacts.fetchJSON_miss.
        -- now apply CacheFacts.fetchAndStore_requests.
        -- rewrite Hstored. exact Hexpired.
  - intros dec url target w E. rewrite RetryFacts.Gov_fetchJSON_requests, E. reflexivity.
  - intros. apply CacheFacts.fetchWeatherData_requests.
Qed.

(** On a hit the cached program asserts that the destination is a
    pointer to an empty interface; [fetchPointMetadata] and
    [fetchForecast] pass pointers to structs, for which the run panics. *)
Lemma cache_hit_panics {lib : Library} {dec : WeatherGov.Decoder GovCached.PointMetadata}
      (net : Upstream) (url : string) (w : World GovCached.Target) entry :
  cache w !! url = Some entry ->
  (now w < ExpiresAt entry)%Z ->
  (forall m, fst (GovCached.fetchJSON net url (WeatherGov.OfPointMetadata m) w)
             = Panic (InterfaceConversion "*main.PointMetadata" "*interface {}")) /\
  (forall f, fst (GovCached.fetchJSON net url (WeatherGov.OfForecastData f) w)
             = Panic (InterfaceConversion "*main.ForecastData" "*interface {}")).
Proof.
  intros E Hfresh.
  split; intros x; now rewrite (CacheFacts.fetchJSON_hit_value net url _ w entry E Hfresh).
Qed.

(** * The theorems at concrete inputs *)

(** Claim C1: an empty cache sends the request; the entry it leaves
    answers the repeated request without a second one, and 15 minutes
    later the request is sent again. *)
Lemma cache_policy_witness :
  let library := Reference.library in
  let decoder := Scenario.carries GovCached.zeroPointMetadata
                                  (WeatherGov.mkForecastData [Scenario.rainyAfternoon]) in
  let target := WeatherGov.OfInterface WeatherGov.BoxNil in
  let w1 := snd (GovCached.fetchJSON Scenario.healthy Scenario.forecastURL target (boot 0)) in
  let later := mkWorld (now w1 + 15 * 60) (requests w1) (sleeps w1) (logged w1) (cache w1) in
  requests w1 = [] ++ [Scenario.forecastURL] /\
  snd (GovCached.fetchJSON Scenario.healthy Scenario.forecastURL target w1) = w1 /\
  requests (snd (GovCached.fetchJSON Scenario.healthy Scenario.forecastURL target later))
  = requests later ++ [Scenario.forecastURL].
Proof.
  cbv zeta.
  destruct (cache_policy (lib := Reference.library) Scenario.healthy) as [Hcached _].
  split; [|split].
  - refine (proj1 (proj2 (Hcached _ Scenario.forecastURL _ (boot 0)) _ _));
      [reflexivity|exact I].
  - refine (proj1 (Hcached _ Scenario.forecastURL _ _) _ _ _);
      [vm_compute; reflexivity|vm_compute; reflexivity].
  - destruct (proj2 (Hcached
                       (Scenario.carries GovCached.zeroPointMetadata
                                         (WeatherGov.mkForecastData [Scenario.rainyAfternoon]))
                       Scenario.forecastURL (WeatherGov.OfInterface WeatherGov.BoxNil)
                       (boot 0)) eq_refl I) as [_ Hstored].
    edestruct Hstored as [_ Hlater]; [vm_compute; reflexivity|].
    refine (proj2 (Hlater _ _ _) _); [reflexivity|vm_compute; discriminate].
Defined.

(** Claim C2: the scorer of [main.go] on a drizzle sample, and the two
    api.weather.gov predictors on a nominal forecast. *)
Lemma likelihood_ranges_witness :
  let library := Reference.library in
  let sample := OpenWeatherSpec.currentSample Scenario.drizzle in
  let forecast := WeatherGov.mkForecastData [Scenario.rainyAfternoon] in
  (exists q w',
      OpenWeather.calculateRainbowLikelihood sample (boot 0) = (Ok q, w') /\
      OpenWeatherSpec.nominal sample /\ 0 <= q <= 1) /\
  (exists p w',
      Gov.predictRainbow forecast "39.5000, -105.0000" (boot 0) = (Ok p, w') /\
      Forall GovSpec.nominal (WeatherGov.Periods forecast) /\
      0 <= WeatherGov.Likelihood p <= 9 # 4) /\
  (exists p w',
      GovCached.predictRainbow forecast (395 # 10) (- (105 # 1)) (boot 0) = (Ok p, w') /\
      Forall GovCachedSpec.nominal (WeatherGov.Periods forecast) /\
      0 <= WeatherGov.Likelihood p <= 9 # 5).
Proof.
  cbv zeta.
  destruct (likelihood_ranges (lib := Reference.library))
    as (Hscorer & _ & _ & Hgov & Hcached).
  split; [|split].
  - assert (Hnominal : OpenWeatherSpec.nominal
                         (OpenWeatherSpec.currentSample Scenario.drizzle)).
    { repeat split; simpl; lra || lia. }
    do 2 eexists. split; [vm_compute; reflexivity|]. split; [exact Hnominal|].
    match goal with
    | |- 0 <= ?q <= _ =>
        edestruct (Hscorer (OpenWeatherSpec.currentSample Scenario.drizzle) (boot 0) q)
          as [Hhigh Hlow];
          [vm_compute; reflexivity|]
    end.
    split; [exact (Hlow Hnominal)|exact Hhigh].
  - assert (Hnominal : Forall GovSpec.nominal
                              (WeatherGov.Periods
                                 (WeatherGov.mkForecastData [Scenario.rainyAfternoon]))).
    { repeat constructor; simpl; lra || lia. }
    do 2 eexists. split; [vm_compute; reflexivity|]. split; [exact Hnominal|].
    match goal with
    | |- 0 <= WeatherGov.Likelihood ?p <= _ =>
        destruct (Hgov (WeatherGov.mkForecastData [Scenario.rainyAfternoon])
                       "39.5000, -105.0000" (boot 0) p (boot 0)) as [Hlow Hhigh];
          [vm_compute; reflexivity|]
    end.
    split; [exact Hlow|exact (Hhigh Hnominal)].
  - assert (Hnominal : Forall GovCachedSpec.nominal
                              (WeatherGov.Periods
                                 (WeatherGov.mkForecastData [Scenario.rainyAfternoon]))).
    { repeat constructor; simpl; lra || lia. }
    do 2 eexists. split; [vm_compute; reflexivity|]. split; [exact Hnominal|].
    match goal with
    | |- 0 <= WeatherGov.Likelihood ?p <= _ =>
        edestruct (Hcached (WeatherGov.mkForecastData [Scenario.rainyAfternoon])
                           (395 # 10) (- (105 # 1)) (boot 0) p) as [Hlow Hhigh];
          [vm_compute; reflexivity|]
    end.
    split; [exact Hlow|exact (Hhigh Hnominal)].
Defined.

(** Claim C3: two answers with status 503, then one with status 200;
    and three answers with status 503. *)
Lemma retry_three_attempts_witness :
  let library := Reference.library in
  let forecast := WeatherGov.mkForecastData [Scenario.rainyAfternoon] in
  let decoder := Scenario.carries Gov.zeroPointMetadata forecast in
  let target := WeatherGov.OfForecastData WeatherGov.zeroForecastData in
  let retry net := Gov.fetchJSONWithRetry net Scenario.forecastURL target 3 (boot 0) in
  (fst (retry Scenario.flaky) = Ok (WeatherGov.OfForecastData forecast, None) /\
   sleeps (snd (retry Scenario.flaky)) = [1%Z; 2%Z] /\
   length (requests (snd (retry Scenario.flaky))) = 3%nat) /\
  (exists err,
      fst (retry Scenario.down) = Ok (target, Some err) /\
      Error err = "max retries reached: unexpected status code: 503" /\
      sleeps (snd (retry Scenario.down)) = [1%Z; 2%Z; 3%Z] /\
      length (requests (snd (retry Scenario.down))) = 3%nat).
Proof.
  cbv zeta. split.
  - destruct (retry_three_attempts
                (Gov.fetchJSON (lib := Reference.library)
                   (dec := Scenario.carries Gov.zeroPointMetadata
                             (WeatherGov.mkForecastData [Scenario.rainyAfternoon]))
                   Scenario.flaky)
                Scenario.forecastURL
                (WeatherGov.OfForecastData WeatherGov.zeroForecastData)
                (boot 0)) as (_ & _ & Hthird & _).
    unfold Gov.fetchJSONWithRetry.
    erewrite Hthird; cycle 1.
    + vm_compute. reflexivity.
    + vm_compute. reflexivity.
    + vm_compute. reflexivity.
    + repeat split; vm_compute; reflexivity.
  - destruct (retry_three_attempts
                (Gov.fetchJSON (lib := Reference.library)
                   (dec := Scenario.carries Gov.zeroPointMetadata
                             (WeatherGov.mkForecastData [Scenario.rainyAfternoon]))
                   Scenario.down)
                Scenario.forecastURL
                (WeatherGov.OfForecastData WeatherGov.zeroForecastData)
                (boot 0)) as (_ & _ & _ & Hnone & _).
    unfold Gov.fetchJSONWithRetry.
    eassert (E1 : (Gov.fetchJSON (lib := Reference.library)
                     (dec := Scenario.carries Gov.zeroPointMetadata
                               (WeatherGov.mkForecastData [Scenario.rainyAfternoon]))
                     Scenario.down Scenario.forecastURL
                     (WeatherGov.OfForecastData WeatherGov.zeroForecastData) (boot 0))
                  = (Ok (_, Some _), _)) by (vm_compute; reflexivity).
    match type of E1 with
    | _ = (Ok (?t1, Some ?e1), ?w1) =>
        eassert (E2 : (Gov.fetchJSON (lib := Reference.library)
                     (dec := Scenario.carries Gov.zeroPointMetadata
                               (WeatherGov.mkForecastData [Scenario.rainyAfternoon]))
                     Scenario.down Scenario.forecastURL
                     t1 (RetrySpec.pause 1 Scenario.forecastURL e1 w1))
                      = (Ok (_, Some _), _)) by (vm_compute; reflexivity)
    end.
    match type of E2 with
    | _ = (Ok (?t2, Some ?e2), ?w2) =>
        eassert (E3 : (Gov.fetchJSON (lib := Reference.library)
                     (dec := Scenario.carries Gov.zeroPointMetadata
                               (WeatherGov.mkForecastData [Scenario.rainyAfternoon]))
                     Scenario.down Scenario.forecastURL
                     t2 (RetrySpec.pause 2 Scenario.forecastURL e2 w2))
                      = (Ok (_, Some _), _)) by (vm_compute; reflexivity)
    end.
    destruct (Hnone _ _ _ _ _ _ _ _ _ E1 E2 E3) as (err & Hrun & _ & Herr & _).
    exists err. rewrite Hrun, Herr.
    repeat split; vm_compute; reflexivity.
Defined.

(** Claim C4: the cached predictor passes over the overcast noon, the
    uncached one gives it a likelihood, and [main.go] returns 0 for the
    condition code 800 (clear sky). *)
Lemma eligibility_filters_witness :
  let library := Reference.library in
  (GovCachedSpec.candidate Scenario.overcastNoon = None /\
   GovCached.periodBody Scenario.overcastNoon (0, zeroTime) (boot 0)
   = (Ok (0, zeroTime), boot 0)) /\
  (exists likelihood,
      GovSpec.candidate Scenario.overcastNoon
      = Some (likelihood, mkTime 2024 6 15 12 0 0 (-21600))) /\
  fst (OpenWeather.calculateRainbowLikelihood
         (OpenWeather.mkSample 18 80 [OpenWeather.mkWeatherCondition 800 "clear sky"]
                               0 5 10000 4 90 0)
         (boot 0)) = Ok 0.
Proof.
  cbv zeta.
  destruct (eligibility_filters (lib := Reference.library)) as (Hcached & Hgov & Hmain).
  split; [|split].
  - eapply Hcached; [vm_compute; reflexivity|]. left. reflexivity.
  - apply Hgov; [vm_compute; reflexivity|]. vm_compute. split; discriminate.
  - eapply Hmain; [reflexivity|]. right. vm_compute. discriminate.
Defined.

(** Claim C5: of two periods with the same positive likelihood the one at
    16:00 is returned, not the one at 17:00; the cached predictor, where
    the period at 17:00 scores higher, returns that one; of two hourly
    entries of [main.go] under drizzle, both capped at 1, the first. *)
Lemma earliest_maximum_wins_witness :
  let library := Reference.library in
  let hourly dt :=
    OpenWeather.Hourly.mk dt 18 80 [OpenWeather.mkWeatherCondition 300 "drizzle"]
                          40 5 10000 4 90 0 in
  (exists m t m' t',
      GovSpec.candidate Scenario.rainyAfternoon = Some (m, t) /\
      GovSpec.candidate Scenario.rainyEvening = Some (m', t') /\
      m' == m /\ 0 < m /\ Hour t = 16%Z /\ Hour t' = 17%Z /\
      fst (Gov.predictRainbow
             (WeatherGov.mkForecastData
                ([] ++ Scenario.rainyAfternoon :: [Scenario.rainyEvening]))
             "39.5000, -105.0000" (boot 0))
      = Ok (WeatherGov.mkRainbowPrediction m "39.5000, -105.0000" t)) /\
  (exists m t,
      GovCachedSpec.candidate Scenario.rainyEvening = Some (m, t) /\
      0 < m /\ Hour t = 17%Z /\
      fst (GovCached.predictRainbow
             (WeatherGov.mkForecastData
                ([Scenario.rainyAfternoon] ++ Scenario.rainyEvening :: [Scenario.rainyEvening]))
             (395 # 10) (- (105 # 1)) (boot 0))
      = Ok (WeatherGov.mkRainbowPrediction
              m (verb_4f (395 # 10) +:+ ", " +:+ verb_4f (- (105 # 1))) t)) /\
  fst (forRange OpenWeather.hourlyBody
                ([] ++ hourly 1718467200%Z :: [hourly 1718470800%Z]) (0, zeroTime) (boot 0))
  = Ok (1, time_Unix 1718467200).
Proof.
  cbv zeta.
  destruct (earliest_maximum_wins (lib := Reference.library)) as (Hgov & Hcached & Hmain).
  split; [|split].
  - do 4 eexists.
    split; [vm_compute; reflexivity|]. split; [vm_compute; reflexivity|].
    split; [reflexivity|]. split; [reflexivity|].
    split; [reflexivity|]. split; [reflexivity|].
    apply Hgov.
    + vm_compute. reflexivity.
    + reflexivity.
    + constructor.
    + constructor; [|constructor]. vm_compute. discriminate.
  - do 2 eexists.
    split; [vm_compute; reflexivity|]. split; [reflexivity|]. split; [reflexivity|].
    apply Hcached.
    + vm_compute. reflexivity.
    + reflexivity.
    + constructor; [|constructor]. vm_compute. reflexivity.
    + constructor; [|constructor]. vm_compute. discriminate.
  - apply Hmain.
    + repeat constructor; discriminate.
    + vm_compute. reflexivity.
    + reflexivity.
    + constructor.
    + constructor; [|constructor]. vm_compute. discriminate.
Defined.



(** Claim C8: a period without a readable start time, one without a
    readable wind speed at 17:00 and one at 03:00, between two others. *)
Lemma malformed_fields_of_a_period_witness :
  let run periods :=
    Gov.predictRainbow (lib := Reference.library) (WeatherGov.mkForecastData periods)
                       "39.5000, -105.0000" (boot 0) in
  let cached periods :=
    GovCached.predictRainbow (lib := Reference.library) (WeatherGov.mkForecastData periods)
                             (395 # 10) (- (105 # 1)) (boot 0) in
  ((exists e, Reference.time_Parse (WeatherGov.StartTime Scenario.noStartTime) = inr e) /\
   fst (run ([Scenario.overcastNoon] ++ Scenario.noStartTime :: [Scenario.rainyAfternoon]))
   = fst (run ([Scenario.overcastNoon] ++ [Scenario.rainyAfternoon]))) /\
  ((exists e,
       Reference.ParseFloat (firstField (WeatherGov.WindSpeed Scenario.noWindSpeed)) = inr e) /\
   (exists likelihood t,
       GovSpec.candidate (lib := Reference.library) Scenario.noWindSpeed
       = Some (likelihood, t) /\ likelihood == 0) /\
   fst (run ([Scenario.overcastNoon] ++ Scenario.noWindSpeed :: [Scenario.rainyAfternoon]))
   = fst (run ([Scenario.overcastNoon] ++ [Scenario.rainyAfternoon]))) /\
  (GovSpec.periodLog (lib := Reference.library) Scenario.calmNight = [] /\
   run ([Scenario.overcastNoon] ++ Scenario.calmNight :: [Scenario.rainyAfternoon])
   = run ([Scenario.overcastNoon] ++ [Scenario.rainyAfternoon])) /\
  fst (cached ([Scenario.rainyAfternoon] ++ Scenario.noStartTime :: [Scenario.rainyEvening]))
  = fst (cached ([Scenario.rainyAfternoon] ++ [Scenario.rainyEvening])) /\
  GovCached.scorePeriod (lib := Reference.library) Scenario.noWindSpeed (boot 0)
  = GovCached.scorePeriod (lib := Reference.library) Scenario.rainyEvening (boot 0).
Proof.
  cbv zeta.
  destruct (malformed_fields_of_a_period (lib := Reference.library))
    as (Hstart & Hwind & Hnight & Hcached & Hignored).
  split; [|split; [|split; [|split]]].
  - split; [eexists; vm_compute; reflexivity|].
    refine (proj1 (proj2 (Hstart [Scenario.overcastNoon] Scenario.noStartTime
                                 [Scenario.rainyAfternoon] "39.5000, -105.0000" (boot 0) _ _))).
    vm_compute. reflexivity.
  - split; [eexists; vm_compute; reflexivity|].
    destruct (Hwind [Scenario.overcastNoon] Scenario.noWindSpeed
                    [Scenario.rainyAfternoon] "39.5000, -105.0000" (boot 0)
                    (mkTime 2024 6 15 17 0 0 (-21600))
                    (ErrorString ("strconv.ParseFloat: parsing " +:+ Reference.quote "calm"
                                  +:+ ": invalid syntax")))
      as ((likelihood & Hc & Hz) & Hrun & _).
    + vm_compute. reflexivity.
    + vm_compute. split; discriminate.
    + vm_compute. reflexivity.
    + split; [exists likelihood; eexists; split; [exact Hc|exact Hz]|exact Hrun].
  - destruct (Hnight [Scenario.overcastNoon] Scenario.calmNight
                     [Scenario.rainyAfternoon] "39.5000, -105.0000" (boot 0)
                     (mkTime 2024 6 15 3 0 0 (-21600)))
      as (_ & Hl & Hrun).
    + vm_compute. reflexivity.
    + left. vm_compute. reflexivity.
    + split; [exact Hl|exact Hrun].
  - refine (proj1 (proj2 (Hcached [Scenario.rainyAfternoon] Scenario.noStartTime
                                  [Scenario.rainyEvening] (395 # 10) (- (105 # 1)) (boot 0)
                                  _ _))).
    vm_compute. reflexivity.
  - apply Hignored.
Defined.

(** Claim C9: [/heatmap?lat=39.5&lon=-105.0&radius=20&resolution=0]. *)
Lemma nonpositive_resolution_never_returns_witness :
  let library := Reference.library in
  ParseFloat "0" = inl 0 /\
  forall fuel w,
    fst (OpenWeather.handleHeatmapData "key" Scenario.healthy Scenario.decodesDrizzle fuel
                                       "39.5" "-105.0" "20" "0" w) = Ok None.
Proof.
  cbv zeta. split; [vm_compute; reflexivity|].
  intros fuel w.
  refine (proj1 (proj2 (nonpositive_resolution_never_returns
                          (lib := Reference.library) "key" Scenario.healthy
                          Scenario.decodesDrizzle "39.5" "-105.0" "20" "0"
                          (395 # 10) (- (1050 # 10)) 20 0 _ _ _ _ _ _) fuel w)).
  - vm_compute. reflexivity.
  - vm_compute. reflexivity.
  - vm_compute. reflexivity.
  - vm_compute. reflexivity.
  - reflexivity.
  - discriminate.
Defined.
(** * Further properties of the three programs *)

(** ** Worlds that differ by log output *)
Module QuietFacts.
Import Go Go.Notations GoFacts Scan HandlerSpec.

Section Quiet.
Context {Cached : Type}.
Implicit Types w : World Cached.

Lemma onlyLogs_refl w : onlyLogs w w.
Proof. exists []. now rewrite addLog_nil. Qed.

Lemma onlyLogs_trans w1 w2 w3 : onlyLogs w1 w2 -> onlyLogs w2 w3 -> onlyLogs w1 w3.
Proof. intros [e1 ->] [e2 ->]. exists (e1 ++ e2). apply addLog_app. Qed.

Lemma onlyLogs_log l msg kv w : onlyLogs w (snd (log l msg kv w)).
Proof. eexists. reflexivity. Qed.

Lemma onlyLogs_requests w w' : onlyLogs w w' -> requests w' = requests w.
Proof. intros [e ->]. reflexivity. Qed.

Lemma onlyLogs_sleeps w w' : onlyLogs w w' -> sleeps w' = sleeps w.
Proof. intros [e ->]. reflexivity. Qed.

Lemma onlyLogs_cache w w' : onlyLogs w w' -> cache w' = cache w.
Proof. intros [e ->]. reflexivity. Qed.

Lemma onlyLogs_now w w' : onlyLogs w w' -> now w' = now w.
Proof. intros [e ->]. reflexivity. Qed.

(** A loop whose body only writes to the log only writes to the log. *)
Lemma forRange_onlyLogs {A S} (body : A -> S -> M Cached S) xs :
  (forall x s w, onlyLogs w (snd (body x s w))) ->
  forall s w, onlyLogs w (snd (forRange body xs s w)).
Proof.
  intros Hbody. induction xs as [|x xs IH]; intros s w; cbn [forRange].
  - apply onlyLogs_refl.
  - unfold bind. specialize (Hbody x s w).
    destruct (body x s w) as [[a|p] w1]; simpl in Hbody.
    + eapply onlyLogs_trans; [exact Hbody|apply IH].
    + exact Hbody.
Qed.
End Quiet.
End QuietFacts.

(** ** [main.go]: what the scorer and the predictor handler leave behind *)
Module OpenWeatherRuns.
Import Go Go.Notations GoFacts Scan HandlerSpec QuietFacts OpenWeather OpenWeatherSpec.

Section Runs.
Context {lib : Library}.
Variable apiKey : string.
Variable net : Upstream.
Variable Decode : Body -> WeatherData + GoError.
Implicit Types (s : Sample) (w : World NoCache).

Lemma scorer_onlyLogs s w : onlyLogs w (snd (calculateRainbowLikelihood s w)).
Proof.
  unfold onlyLogs, addLog, calculateRainbowLikelihood, orElse, index, bind, ret, log, panic.
  simpl. destruct (Weather s) as [|c l]; simpl; [eexists; reflexivity|].
  destruct (ID c <? 200)%Z; simpl; [eexists; rewrite <- ?app_assoc; reflexivity|].
  destruct (ID c >=? 700)%Z; simpl; [eexists; rewrite <- ?app_assoc; reflexivity|].
  destruct (ID c >=? 300)%Z; simpl; [destruct (ID c <? 600)%Z; simpl|];
    try (destruct (Qlt_bool (1 # 2) (Pop s)); simpl);
    eexists; rewrite <- ?app_assoc; reflexivity.
Qed.

Lemma hourlyBody_onlyLogs hourly best w : onlyLogs w (snd (hourlyBody hourly best w)).
Proof.
  unfold hourlyBody. destruct best as [bl bt]. unfold bind.
  pose proof (scorer_onlyLogs (hourlySample hourly) w) as H. unfold hourlySample in H.
  destruct (calculateRainbowLikelihood _ w) as [[q|p] w1]; simpl in *; [|exact H].
  destruct (Qlt_bool bl q); exact H.
Qed.

(** One exchange with the upstream, and log output. *)
Lemma fetchWeatherData_world lat lon w :
  let x := net (now w) (requests w) (requestURL apiKey lat lon) in
  exists entries,
    snd (fetchWeatherData apiKey net Decode lat lon w)
    = mkWorld (now w + took x)%Z (requests w ++ [requestURL apiKey lat lon]) (sleeps w)
              (logged w ++ entries) (cache w).
Proof.
  unfold fetchWeatherData, bind, log, roundTrip, ret. simpl.
  destruct (reply _) as [e|code body]; simpl;
    [eexists; rewrite <- ?app_assoc; reflexivity|].
  destruct (negb _); simpl; [eexists; rewrite <- ?app_assoc; reflexivity|].
  destruct (Decode body); simpl; eexists; rewrite <- ?app_assoc; reflexivity.
Qed.
End Runs.
End OpenWeatherRuns.
(** ** [main.go]: the predictor handler *)

(** Property X1.  [handlePrediction] of [main.go] answers 400 without
    any upstream request when a path variable is not a number: "Invalid
    latitude" first, "Invalid longitude" when only the longitude fails.
    When both are numbers it sends exactly one request upstream, to the
    URL of these coordinates, whatever happens afterwards (a failed fetch,
    a panic of the scorer), and the answer, if there is one, is not a
    400. *)
Theorem prediction_sends_one_request
        {lib : Library} (apiKey : string) (net : Upstream)
        (Decode : Body -> OpenWeather.WeatherData + GoError)
        (vars_lat vars_lon : string) (w : World NoCache) :
  let run := OpenWeather.handlePrediction apiKey net Decode vars_lat vars_lon w in
  match ParseFloat vars_lat, ParseFloat vars_lon with
  | inr _, _ =>
      fst run = Ok (OpenWeather.HttpError 400 "Invalid latitude") /\
      requests (snd run) = requests w
  | inl _, inr _ =>
      fst run = Ok (OpenWeather.HttpError 400 "Invalid longitude") /\
      requests (snd run) = requests w
  | inl lat, inl lon =>
      requests (snd run) = requests w ++ [OpenWeather.requestURL apiKey lat lon] /\
      forall written, fst run = Ok written -> OpenWeather.status written <> 400%Z
  end.
Proof.
  intros run. unfold run. clear run.
  destruct (OpenWeather.handlePrediction apiKey net Decode vars_lat vars_lon w)
    as [out w'] eqn:Er.
  unfold OpenWeather.handlePrediction in Er.
  destruct (ParseFloat vars_lat) as [lat|e]; [|injection Er as <- <-; split; reflexivity].
  destruct (ParseFloat vars_lon) as [lon|e]; [|injection Er as <- <-; split; reflexivity].
  unfold bind at 1 in Er. unfold log at 1 in Er. unfold bind at 1 in Er.
  match type of Er with
  | context [OpenWeather.fetchWeatherData _ _ _ _ _ ?w0] =>
      destruct (OpenWeatherRuns.fetchWeatherData_world apiKey net Decode lat lon w0)
        as [entries Hw];
      destruct (OpenWeather.fetchWeatherData apiKey net Decode lat lon w0)
        as [[[wd [e|]]|pv] w1]
  end; simpl in Hw; subst w1.
  - injection Er as <- <-. split; [reflexivity|]. intros written [= <-]. discriminate.
  - unfold bind at 1 in Er.
    match type of Er with
    | context [forRange OpenWeather.hourlyBody ?hs ?b ?w0] =>
        pose proof (QuietFacts.forRange_onlyLogs OpenWeather.hourlyBody hs
                      (OpenWeatherRuns.hourlyBody_onlyLogs) b w0) as Hq;
        destruct (forRange OpenWeather.hourlyBody hs b w0) as [[[bl bt]|pv] w2]
    end; simpl in Hq; apply QuietFacts.onlyLogs_requests in Hq; simpl in Hq;
      injection Er as <- <-.
    + split; [exact Hq|]. intros written [= <-]. discriminate.
    + split; [exact Hq|]. discriminate.
  - injection Er as <- <-. split; [reflexivity|]. discriminate.
Qed.

(** Property X2.  When the upstream exchange of [handlePrediction] fails,
    the answer is a 500 whose text carries the error of
    [fetchWeatherData]: the transport error behind "error making request:
    ", the status code behind "API request failed with status code: " for
    an answer that is not a 200, or the decoding error behind "error
    decoding response: ".  The error is wrapped for the first and the last
    cause and is plain text for the status code.  When the exchange
    succeeds, an answer is a 200. *)
Theorem prediction_reports_the_fetch_error
        {lib : Library} (apiKey : string) (net : Upstream)
        (Decode : Body -> OpenWeather.WeatherData + GoError)
        (vars_lat vars_lon : string) (lat lon : Q) (w : World NoCache) :
  ParseFloat vars_lat = inl lat ->
  ParseFloat vars_lon = inl lon ->
  let run := OpenWeather.handlePrediction apiKey net Decode vars_lat vars_lon w in
  let answer err :=
    Ok (OpenWeather.HttpError 500 ("Error fetching weather data: " +:+ Error err)) in
  match reply (net (now w) (requests w) (OpenWeather.requestURL apiKey lat lon)) with
  | TransportError e =>
      fst run = answer (Errorf_w "error making request: " e)
  | Response StatusCode body =>
      if negb (StatusCode =? 200)%Z then
        fst run = answer (ErrorString ("API request failed with status code: "
                                       +:+ verb_d StatusCode))
      else
        match Decode body with
        | inr e => fst run = answer (Errorf_w "error decoding response: " e)
        | inl _ => forall written, fst run = Ok written -> OpenWeather.status written = 200%Z
        end
  end.
Proof.
  intros Elat Elon run answer. unfold run, answer, OpenWeather.handlePrediction.
  rewrite Elat, Elon.
  unfold bind at 1. unfold log at 1. unfold bind at 1.
  unfold OpenWeather.fetchWeatherData, bind, log, roundTrip, ret. simpl.
  destruct (reply _) as [e|code body]; simpl; [reflexivity|].
  change OpenWeather.StatusOK with 200%Z.
  destruct (code =? 200)%Z; simpl; [|reflexivity].
  destruct (Decode body) as [wd|e]; simpl; [|reflexivity].
  match goal with
  | |- context [forRange ?body ?hs ?b ?w0] =>
      destruct (forRange body hs b w0) as [[[bl bt]|pv] w2]
  end; simpl.
  - intros written [= <-]. reflexivity.
  - discriminate.
Qed.

(** Property X3.  When every hourly entry of the decoded answer names a
    weather condition and none of them scores above 0, in particular
    when the answer has no hourly entries at all, [handlePrediction] of
    [main.go] answers 200 with likelihood 0 and with the zero [time.Time]
    put through [Format]: no entry replaces the initial best.  (An entry
    with an empty [Weather] list makes the scorer panic instead.) *)
Theorem prediction_without_a_positive_entry
        {lib : Library} (apiKey : string) (net : Upstream)
        (Decode : Body -> OpenWeather.WeatherData + GoError)
        (vars_lat vars_lon : string) (lat lon : Q) (w : World NoCache)
        (body : Body) (weatherData : OpenWeather.WeatherData) :
  ParseFloat vars_lat = inl lat ->
  ParseFloat vars_lon = inl lon ->
  reply (net (now w) (requests w) (OpenWeather.requestURL apiKey lat lon))
  = Response 200 body ->
  Decode body = inl weatherData ->
  Forall (fun hourly => OpenWeather.Hourly.Weather hourly <> [] /\
                        below false 0 (OpenWeatherSpec.candidate hourly))
         (OpenWeather.Hourly weatherData) ->
  fst (OpenWeather.handlePrediction apiKey net Decode vars_lat vars_lon w)
  = Ok (OpenWeather.PredictionJSON
          (OpenWeather.mkRainbowPrediction 0 (verb_4f lat +:+ ", " +:+ verb_4f lon)
                                           (Format zeroTime))).
Proof.
  intros Elat Elon Ereply Ebody Hzero. unfold OpenWeather.handlePrediction.
  rewrite Elat, Elon.
  unfold bind at 1. unfold log at 1. unfold bind at 1.
  unfold OpenWeather.fetchWeatherData, bind at 1, log at 1, bind at 1, roundTrip.
  cbn [now requests Scan.addLog fst snd]. rewrite Ereply.
  change (negb (200 =? OpenWeather.StatusOK)%Z) with false. cbv iota. rewrite Ebody.
  unfold bind at 1, log at 1, ret at 1. unfold bind at 1.
  rewrite PredictionFacts.hourly_loop_run
    by (eapply Forall_impl; [exact Hzero|]; intros hourly [H _]; exact H).
  rewrite scan_keeps; [reflexivity|].
  apply Forall_map. eapply Forall_impl; [exact Hzero|]. intros hourly [_ H]. exact H.
Qed.

(** ** [main.go]: the scorer *)

(** Property X4.  The scorer of [main.go] is monotone in each of the
    five quantities it adds up: between two samples with the same
    conditions and the same precipitation probability, the one with no
    more clouds, no less humidity, UV index and visibility and no more
    wind has a likelihood that is not smaller. *)
Theorem scorer_is_monotone
        {lib : Library} (better worse : OpenWeather.Sample) (w1 w2 : World NoCache)
        (q1 q2 : Q) (w1' w2' : World NoCache) :
  OpenWeather.Weather better = OpenWeather.Weather worse ->
  OpenWeather.Pop better = OpenWeather.Pop worse ->
  (OpenWeather.Clouds better <= OpenWeather.Clouds worse)%Z ->
  (OpenWeather.Humidity worse <= OpenWeather.Humidity better)%Z ->
  OpenWeather.UVI worse <= OpenWeather.UVI better ->
  (OpenWeather.Visibility worse <= OpenWeather.Visibility better)%Z ->
  OpenWeather.WindSpeed better <= OpenWeather.WindSpeed worse ->
  OpenWeather.calculateRainbowLikelihood better w1 = (Ok q1, w1') ->
  OpenWeather.calculateRainbowLikelihood worse w2 = (Ok q2, w2') ->
  q2 <= q1.
Proof.
  intros EW EP Hc Hh Hu Hv Hs.
  rewrite Zle_Qle in Hc, Hh, Hv.
  assert (Huvi : Qmin (OpenWeather.UVI worse / 10) 1 <= Qmin (OpenWeather.UVI better / 10) 1).
  { apply Q.min_le_compat_r. qconst. lra. }
  assert (Hvis : Qmin (inject_Z (OpenWeather.Visibility worse) / 10000) 1
                 <= Qmin (inject_Z (OpenWeather.Visibility better) / 10000) 1).
  { apply Q.min_le_compat_r. qconst. lra. }
  assert (Hwind : Qmin (OpenWeather.WindSpeed better / 20) 1
                  <= Qmin (OpenWeather.WindSpeed worse / 20) 1).
  { apply Q.min_le_compat_r. qconst. lra. }
  assert (Hbase :
    (1 - inject_Z (OpenWeather.Clouds worse) / 100
     + inject_Z (OpenWeather.Humidity worse) / 100
     + Qmin (OpenWeather.UVI worse / 10) 1
     + Qmin (inject_Z (OpenWeather.Visibility worse) / 10000) 1
     + (1 - Qmin (OpenWeather.WindSpeed worse / 20) 1)) / 5
    <= (1 - inject_Z (OpenWeather.Clouds better) / 100
        + inject_Z (OpenWeather.Humidity better) / 100
        + Qmin (OpenWeather.UVI better / 10) 1
        + Qmin (inject_Z (OpenWeather.Visibility better) / 10000) 1
        + (1 - Qmin (OpenWeather.WindSpeed better / 20) 1)) / 5).
  { generalize dependent (Qmin (OpenWeather.UVI worse / 10) 1).
    generalize dependent (Qmin (OpenWeather.UVI better / 10) 1).
    generalize dependent (Qmin (inject_Z (OpenWeather.Visibility worse) / 10000) 1).
    generalize dependent (Qmin (inject_Z (OpenWeather.Visibility better) / 10000) 1).
    generalize dependent (Qmin (OpenWeather.WindSpeed worse / 20) 1).
    generalize dependent (Qmin (OpenWeather.WindSpeed better / 20) 1).
    intros. qconst. lra. }
  revert Hbase.
  unfold OpenWeather.calculateRainbowLikelihood, OpenWeather.orElse, index, bind, ret,
    log, panic.
  simpl. rewrite EW, EP.
  destruct (OpenWeather.Weather worse) as [|c l]; simpl; [discriminate|].
  destruct (OpenWeather.ID c <? 200)%Z; simpl; [intros _ [= <- _] [= <- _]; lra|].
  destruct (OpenWeather.ID c >=? 700)%Z; simpl; [intros _ [= <- _] [= <- _]; lra|].
  destruct (OpenWeather.ID c >=? 300)%Z; simpl;
    [destruct (OpenWeather.ID c <? 600)%Z; simpl|];
    try (destruct (Qlt_bool (1 # 2) (OpenWeather.Pop worse)); simpl);
    intros Hbase [= <- _] [= <- _]; apply Q.min_le_compat_r;
    match type of Hbase with ?a <= ?b => generalize dependent a; generalize dependent b end;
    intros; lra.
Qed.

(** ** [main.go]: what the heatmap handler sends and returns *)
Module HeatmapRuns.
Import Go Go.Notations GoFacts Scan HandlerSpec QuietFacts OpenWeather OpenWeatherSpec.
Import HeatmapPoints OpenWeatherRuns.

Section Runs.
Context {lib : Library}.
Variable apiKey : string.
Variable net : Upstream.
Variable Decode : Body -> WeatherData + GoError.
Implicit Types (w : World NoCache).

(** One point: one request, and at most one new element, at the end. *)
Lemma samplePoint_run pointLat pointLon heatmapData w :
  let run := samplePoint apiKey net Decode pointLat pointLon heatmapData w in
  requests (snd run) = requests w ++ [requestURL apiKey pointLat pointLon] /\
  forall heatmapData',
    fst run = Ok heatmapData' ->
    heatmapData' = heatmapData \/
    exists likelihood,
      heatmapData' = heatmapData ++ [HeatmapData.mk pointLat pointLon likelihood].
Proof.
  intros run. unfold run. clear run.
  destruct (samplePoint apiKey net Decode pointLat pointLon heatmapData w)
    as [out w'] eqn:Er.
  unfold samplePoint in Er. unfold bind at 1 in Er.
  destruct (fetchWeatherData_world apiKey net Decode pointLat pointLon w) as [entries Hw].
  destruct (fetchWeatherData apiKey net Decode pointLat pointLon w)
    as [[[wd [e|]]|pv] w1]; simpl in Hw; subst w1.
  - injection Er as <- <-. split; [reflexivity|]. intros hd [= <-]. now left.
  - unfold bind at 1 in Er.
    match type of Er with
    | context [calculateRainbowLikelihood ?s ?w0] =>
        pose proof (scorer_onlyLogs s w0) as Hq;
        destruct (calculateRainbowLikelihood s w0) as [[q|pv] w2]
    end; simpl in Hq; apply onlyLogs_requests in Hq; simpl in Hq; injection Er as <- <-.
    + split; [exact Hq|]. intros hd [= <-]. right. eexists. reflexivity.
    + split; [exact Hq|]. discriminate.
  - injection Er as <- <-. split; [reflexivity|]. discriminate.
Qed.

End Runs.
End HeatmapRuns.

(** ** [main.go]: the points of a heatmap *)

Module Heatmap64Points.
Import Go Go.Notations GoFacts Scan OpenWeather64 Grid64 Heatmap64Spec Heatmap64Facts.

Section Stateless.
Context {lib : Library} {flt : FloatLibrary}.
Variable apiKey : string.
Variable net : Upstream.
Variable Decode : Body -> WeatherData + GoError.
Hypothesis stateless :
  forall t sent t' sent' url, reply (net t sent url) = reply (net t' sent' url).
Hypothesis named :
  forall body weatherData,
    Decode body = inl weatherData -> Current.Weather (Current weatherData) <> [].
Implicit Types w : World NoCache.

(** One offset: a request, and the point when the fetch succeeds. *)
Lemma samplePoint_stateless lat lon offset heatmapData w :
  exists w',
    samplePoint apiKey net Decode (F64.add lat (fst offset)) (F64.add lon (snd offset))
                heatmapData w
    = (Ok (heatmapData
           ++ match pointFor Decode lat lon offset (net 0%Z [] (urlAt apiKey lat lon offset)) with
              | Some p => [p]
              | None => []
              end), w') /\
    requests w' = requests w ++ [urlAt apiKey lat lon offset].
Proof.
  unfold pointFor.
  rewrite (stateless 0%Z [] (now w) (requests w)).
  destruct (reply (net (now w) (requests w) (urlAt apiKey lat lon offset)))
    as [e|code body] eqn:Ereply.
  - destruct (samplePoint_failure apiKey net Decode (F64.add lat (fst offset))
                (F64.add lon (snd offset)) heatmapData w) as (err & w' & Hrun & Hreq & _).
    { unfold fetchFails. fold (urlAt apiKey lat lon offset). now rewrite Ereply. }
    exists w'. rewrite app_nil_r. split; assumption.
  - destruct (code =? StatusOK)%Z eqn:Ecode; cbn [negb].
    + apply Z.eqb_eq in Ecode. subst code.
      destruct (Decode body) as [weatherData|e] eqn:Ebody.
      * destruct (samplePoint_success apiKey net Decode (F64.add lat (fst offset))
                    (F64.add lon (snd offset)) heatmapData w body weatherData Ereply Ebody
                    (named body weatherData Ebody)) as (likelihood & w' & Hl & Hrun & Hreq).
        exists w'. rewrite Hl. split; assumption.
      * destruct (samplePoint_failure apiKey net Decode (F64.add lat (fst offset))
                    (F64.add lon (snd offset)) heatmapData w) as (err & w' & Hrun & Hreq & _).
        { unfold fetchFails. fold (urlAt apiKey lat lon offset). rewrite Ereply, Ebody.
          apply orb_true_r. }
        exists w'. rewrite app_nil_r. split; assumption.
    + destruct (samplePoint_failure apiKey net Decode (F64.add lat (fst offset))
                  (F64.add lon (snd offset)) heatmapData w) as (err & w' & Hrun & Hreq & _).
      { unfold fetchFails. fold (urlAt apiKey lat lon offset). rewrite Ereply, Ecode.
        reflexivity. }
      exists w'. rewrite app_nil_r. split; assumption.
Qed.

Lemma sampleOffsets_stateless lat lon offsets :
  forall heatmapData w,
  exists w',
    sampleOffsets apiKey net Decode lat lon offsets heatmapData w
    = (Ok (heatmapData ++ pointsFor apiKey net Decode lat lon offsets), w') /\
    requests w' = requests w ++ map (urlAt apiKey lat lon) offsets.
Proof.
  unfold sampleOffsets, pointsFor.
  induction offsets as [|o offsets IH]; intros hd w; cbn [forRange map omap].
  - exists w. rewrite !app_nil_r. split; reflexivity.
  - destruct (samplePoint_stateless lat lon o hd w) as (w1 & Hrun & Hreq).
    unfold bind. rewrite Hrun.
    destruct (IH (hd ++ match pointFor Decode lat lon o (net 0%Z [] (urlAt apiKey lat lon o)) with
                        | Some p => [p]
                        | None => []
                        end) w1) as (w2 & Hrun2 & Hreq2).
    exists w2. rewrite Hrun2, Hreq2, Hreq, <- !app_assoc. split; [|reflexivity].
    cbn [list_omap omap].
    destruct (pointFor Decode lat lon o (net 0%Z [] (urlAt apiKey lat lon o)));
      reflexivity.
Qed.

Lemma respond_answer heatmapData w :
  exists w',
    respond heatmapData w = (Ok (answer heatmapData), w') /\ requests w' = requests w.
Proof.
  unfold respond, answer. destruct (Encode heatmapData) as [err|].
  - unfold bind, log, ret. eexists. split; reflexivity.
  - exists w. split; reflexivity.
Qed.
End Stateless.
End Heatmap64Points.


(** ** [main.go]: a heatmap of negative radius *)


(** ** [main.go]: a heatmap of radius 0 with a step of 0 *)
Module HeatmapFlood.
Import Go Go.Notations GoFacts Scan OpenWeather HeatmapPoints HeatmapRuns.

Section Flood.
Context {lib : Library}.
Variable apiKey : string.
Variable net : Upstream.
Variable Decode : Body -> WeatherData + GoError.
Variables lat lon radiusDegrees resolution dlat : Q.
Hypothesis no_radius : radiusDegrees == 0.
Hypothesis no_step : resolution == 0.
Hypothesis first_row : dlat == 0.
Implicit Types w : World NoCache.

(** The inner loop stays on the centre: every iteration sends its
    request. *)
Lemma dlonLoop_flood fuel :
  forall dlon heatmapData w,
    dlon == 0 ->
    let run := dlonLoop apiKey net Decode fuel lat lon radiusDegrees resolution dlat dlon
                        heatmapData w in
    exists new,
      requests (snd run) = requests w ++ new /\
      Forall (atCentre apiKey lat lon) new /\
      (length new <= fuel)%nat /\
      (fst run = Ok None -> length new = fuel) /\
      forall heatmapData', fst run <> Ok (Some heatmapData').
Proof.
  induction fuel as [|fuel IH]; intros dlon hd w Hd; cbv zeta; cbn [dlonLoop].
  - exists []. cbn [ret fst snd]. rewrite app_nil_r.
    split; [reflexivity|]. split; [constructor|]. split; [reflexivity|].
    split; [reflexivity|discriminate].
  - replace (Qle_bool dlon radiusDegrees) with true
      by (symmetry; apply Qle_bool_iff; rewrite Hd, no_radius; apply Qle_refl).
    unfold bind, heatmapPoint.
    replace (Sqrt_le (dlat * dlat + dlon * dlon) radiusDegrees) with true.
    2:{ symmetry. unfold Sqrt_le. apply andb_true_iff.
        split; apply Qle_bool_iff; rewrite ?first_row, ?Hd, no_radius; [apply Qle_refl|].
        assert (E : 0 * 0 + 0 * 0 == 0 * 0) by ring. rewrite E. apply Qle_refl. }
    destruct (samplePoint_run apiKey net Decode (lat + dlat) (lon + dlon) hd w) as [Hreq _].
    assert (Hc : atCentre apiKey lat lon (requestURL apiKey (lat + dlat) (lon + dlon)))
      by (exists dlat, dlon; repeat split; assumption).
    destruct (samplePoint apiKey net Decode (lat + dlat) (lon + dlon) hd w)
      as [[hd1|pv] w1]; cbn [fst snd] in Hreq.
    + assert (Hd' : dlon + resolution == 0) by (rewrite Hd, no_step; reflexivity).
      destruct (IH (dlon + resolution) hd1 w1 Hd') as (new & Hn & Hall & Hlen & Hnone & Hsome).
      exists (requestURL apiKey (lat + dlat) (lon + dlon) :: new).
      split; [|split; [|split; [|split]]].
      * rewrite Hn. etransitivity; [apply (f_equal (fun l => l ++ _) Hreq)|].
        now rewrite <- app_assoc.
      * now constructor.
      * simpl. lia.
      * intros E. simpl. f_equal. now apply Hnone.
      * exact Hsome.
    + exists [requestURL apiKey (lat + dlat) (lon + dlon)]. cbn [fst snd].
      split; [exact Hreq|]. split; [now constructor|]. split; [simpl; lia|].
      split; discriminate.
Qed.
End Flood.
End HeatmapFlood.

(** Property X7.  With a radius and a resolution that are both 0 the
    loops of [handleHeatmapData] stay on the centre, which the mask
    keeps: every iteration sends one more request for the weather at the
    centre.  No run of any length reaches the end of the handler, and a
    run of [fuel] iterations that has not panicked has sent [fuel]
    requests. *)
Theorem zero_radius_and_step_flood_the_upstream
        {lib : Library} (apiKey : string) (net : Upstream)
        (Decode : Body -> OpenWeather.WeatherData + GoError)
        (q_lat q_lon q_radius q_resolution : string) (lat lon radius resolution : Q) :
  ParseFloat q_lat = inl lat ->
  ParseFloat q_lon = inl lon ->
  ParseFloat q_radius = inl radius ->
  ParseFloat q_resolution = inl resolution ->
  radius == 0 ->
  resolution == 0 ->
  forall fuel w,
    let run := OpenWeather.handleHeatmapData apiKey net Decode fuel q_lat q_lon q_radius
                                             q_resolution w in
    exists new,
      requests (snd run) = requests w ++ new /\
      Forall (HeatmapPoints.atCentre apiKey lat lon) new /\
      (length new <= fuel)%nat /\
      (fst run = Ok None -> length new = fuel) /\
      forall written, fst run <> Ok (Some written).
Proof.
  intros Elat Elon Erad Eres Hrad Hres fuel w run. unfold run. clear run.
  assert (Hrd : radius / 69 == 0) by (rewrite Hrad; reflexivity).
  assert (Hrow : - (radius / 69) == 0) by (rewrite Hrd; reflexivity).
  destruct (OpenWeather.handleHeatmapData apiKey net Decode fuel q_lat q_lon q_radius
                                          q_resolution w) as [out w'] eqn:Er.
  unfold OpenWeather.handleHeatmapData in Er. rewrite Elat, Elon, Erad, Eres in Er.
  unfold bind at 1 in Er. unfold log at 1 in Er. unfold bind at 1 in Er.
  destruct fuel as [|fuel]; cbn [OpenWeather.dlatLoop] in Er.
  - injection Er as <- <-. exists []. cbn [fst snd requests]. rewrite app_nil_r.
    split; [reflexivity|]. split; [constructor|]. split; [reflexivity|].
    split; [reflexivity|discriminate].
  - replace (Qle_bool (- (radius / 69)) (radius / 69)) with true in Er
      by (symmetry; apply Qle_bool_iff; rewrite Hrow, Hrd; apply Qle_refl).
    unfold bind at 1 in Er.
    match type of Er with
    | context [OpenWeather.dlonLoop _ _ _ ?f _ _ _ _ ?dlat ?dlon ?hd ?w0] =>
        destruct (HeatmapFlood.dlonLoop_flood apiKey net Decode lat lon (radius / 69)
                    resolution dlat Hrd Hres Hrow f dlon hd w0 Hrow)
          as (new & Hn & Hall & Hlen & Hnone & Hsome);
        destruct (OpenWeather.dlonLoop apiKey net Decode f lat lon (radius / 69) resolution
                                       dlat dlon hd w0) as [[[hd1|]|pv] w1]
    end; cbn [fst snd requests] in Hn, Hnone, Hsome.
    + exfalso. now apply (Hsome hd1).
    + injection Er as <- <-. exists new. cbn [fst snd].
      split; [exact Hn|]. split; [exact Hall|]. split; [exact Hlen|].
      split; [intros _; now apply Hnone|discriminate].
    + injection Er as <- <-. exists new. cbn [fst snd].
      split; [exact Hn|]. split; [exact Hall|]. split; [exact Hlen|].
      split; discriminate.
Qed.

(** ** The api.weather.gov program without a cache: fetching *)
Module GovRuns.
Import Go Go.Notations GoFacts Scan HandlerSpec QuietFacts WeatherGov RetrySpec RetryFacts Gov.

Section Runs.
Context {lib : Library} {dec : Decoder PointMetadata}.
Variable net : Upstream.
Implicit Types (w : World NoCache) (target : Target).

(** An attempt whose request can be built: one line of log, one
    exchange, and a result. *)
Lemma fetchJSON_attempt url target w :
  NewRequest url = None ->
  let x := net (now w) (requests w) url in
  exists result,
    fetchJSON net url target w =
    (Ok result,
     mkWorld (now w + took x)%Z (requests w ++ [url]) (sleeps w)
             (logged w ++ [mkLog InfoLevel "Fetching JSON" [("url", VString url)]])
             (cache w)).
Proof.
  intros E. unfold fetchJSON, bind, log, roundTrip, ret. rewrite E. simpl.
  destruct (reply _) as [e|code body]; simpl; [eexists; reflexivity|].
  destruct (negb _); simpl; [eexists; reflexivity|].
  destruct body as [e|raw]; simpl; [eexists; reflexivity|].
  destruct (Unmarshal raw target) as [t' [e|]]; eexists; reflexivity.
Qed.

(** The retry loop from attempt number [i + 1] with [n] attempts left:
    [k] requests, all for [url], and a pause after each of the [f]
    failed attempts. *)
Lemma retryLoop_attempts url :
  NewRequest url = None ->
  forall n i target err w,
  exists k f t oe w',
    retryLoop (fetchJSON net) n i url target err w = (Ok (t, oe), w') /\
    requests w' = requests w ++ repeat url k /\
    sleeps w' = sleeps w ++ map (fun j => (i + Z.of_nat j)%Z) (seq 1 f) /\
    cache w' = cache w /\
    (k <= n)%nat /\
    match oe with
    | None => k = S f
    | Some e' =>
        k = n /\ f = n /\ ((0 < n)%nat -> exists e, e' = Errorf_w "max retries reached: " e)
    end.
Proof.
  intros E. induction n as [|n IH]; intros i target err w.
  - exists O, O. do 3 eexists. cbn [retryLoop ret].
    split; [reflexivity|]. cbn [repeat seq map]. rewrite !app_nil_r.
    repeat split; try reflexivity. intros H. lia.
  - destruct (fetchJSON_attempt url target w E) as [[t1 [e1|]] E1]; cbv zeta in E1.
    + rewrite (retryLoop_failure _ _ _ _ _ _ _ _ _ _ E1).
      match goal with
      | |- context [retryLoop _ n ?i' url t1 ?err' ?w'] =>
          destruct (IH i' t1 err' w') as (k & f & t & oe & w2 & Hrun & Hreq & Hsl & Hc & Hk & Hoe)
      end.
      exists (S k), (S f), t, oe, w2. split; [exact Hrun|].
      cbn [pause requests sleeps cache] in Hreq, Hsl, Hc.
      split; [rewrite Hreq, <- app_assoc; reflexivity|].
      split.
      { rewrite Hsl, <- app_assoc. f_equal. cbn [seq map app]. f_equal.
        rewrite <- (seq_shift f 1), map_map. apply map_ext. intros j. lia. }
      split; [exact Hc|]. split; [lia|].
      destruct oe as [e'|].
      * destruct Hoe as (-> & -> & He). repeat split.
        intros _. destruct n as [|n].
        -- cbn [retryLoop ret] in Hrun. injection Hrun as _ <- _. eexists. reflexivity.
        -- apply He. lia.
      * lia.
    + rewrite (retryLoop_success _ _ _ _ _ _ _ _ _ E1).
      exists 1%nat, O. do 3 eexists. split; [reflexivity|].
      cbn [requests sleeps cache repeat seq map]. rewrite !app_nil_r.
      repeat split; lia.
Qed.
End Runs.
End GovRuns.

(** ** [strings.Replace] with a count of 1, as [fetchForecast] uses it *)
Module ReplaceFacts.
Import Go.

Lemma append_cons (c : ascii) (a b : string) : String c a +:+ b = String c (a +:+ b).
Proof. reflexivity. Qed.

Lemma append_assoc (a b c : string) : (a +:+ b) +:+ c = a +:+ (b +:+ c).
Proof.
  induction a as [|x a IH]; [reflexivity|]. rewrite !append_cons. f_equal. exact IH.
Qed.

Lemma append_empty (a : string) : a +:+ EmptyString = a.
Proof. induction a as [|x a IH]; [reflexivity|]. rewrite append_cons. f_equal. exact IH. Qed.

Lemma length_append (a b : string) :
  String.length (a +:+ b) = (String.length a + String.length b)%nat.
Proof.
  induction a as [|x a IH]; [reflexivity|]. rewrite append_cons. simpl. f_equal. exact IH.
Qed.

Lemma prefix_append (old rest : string) : String.prefix old (old +:+ rest) = true.
Proof.
  induction old as [|c old IH]; [now destruct rest|].
  rewrite append_cons. simpl. rewrite IH.
  destruct (ascii_dec c c); [reflexivity|congruence].
Qed.

Lemma substring_whole (s : string) : String.substring 0 (String.length s) s = s.
Proof. induction s as [|c s IH]; simpl; [reflexivity|]. now rewrite IH. Qed.

Lemma substring_after (old rest : string) :
  String.substring (String.length old)
                   (String.length (old +:+ rest) - String.length old) (old +:+ rest)
  = rest.
Proof.
  induction old as [|c old IH].
  - change (EmptyString +:+ rest) with rest. simpl. rewrite Nat.sub_0_r.
    apply substring_whole.
  - rewrite append_cons. simpl. exact IH.
Qed.

(** [prefix old] reads no further than the length of [old]. *)
Lemma prefix_reads_its_length (old : string) :
  forall u t1 t2,
    (String.length old <= String.length u)%nat ->
    String.prefix old (u +:+ t1) = String.prefix old (u +:+ t2).
Proof.
  induction old as [|c old IH]; intros u t1 t2 Hlen.
  - simpl. now destruct (u +:+ t1), (u +:+ t2).
  - destruct u as [|d u]; simpl in Hlen; [lia|]. rewrite !append_cons. simpl.
    destruct (ascii_dec c d); [|reflexivity]. apply IH. lia.
Qed.

Lemma replaceFirst_unfold (s old new : string) :
  replaceFirst s old new =
  if String.prefix old s
  then new +:+ String.substring (String.length old) (String.length s - String.length old) s
  else match s with
       | EmptyString => EmptyString
       | String c rest => String c (replaceFirst rest old new)
       end.
Proof. destruct s; reflexivity. Qed.

(** The first occurrence is the one that is replaced: [old] is [init]
    followed by [last], and no occurrence of [old] ends before the one
    that follows [before]. *)
Lemma replaceFirst_at (before init : string) (last : ascii) (rest new : string) :
  let old := init +:+ String last EmptyString in
  Contains (before +:+ init) old = false ->
  replaceFirst (before +:+ old +:+ rest) old new = before +:+ new +:+ rest.
Proof.
  intros old. induction before as [|c before IH]; intros Hno.
  - change (EmptyString +:+ old +:+ rest) with (old +:+ rest).
    change (EmptyString +:+ new +:+ rest) with (new +:+ rest).
    rewrite replaceFirst_unfold, prefix_append, substring_after. reflexivity.
  - rewrite !append_cons. rewrite replaceFirst_unfold.
    rewrite append_cons in Hno.
    cbn [Contains] in Hno. apply orb_false_iff in Hno. destruct Hno as [Hp Hrest].
    replace (String.prefix old (String c (before +:+ old +:+ rest))) with false.
    + rewrite (IH Hrest). reflexivity.
    + rewrite <- Hp. rewrite <- !append_cons.
      assert (E : String c before +:+ old +:+ rest
                  = (String c before +:+ init) +:+ (String last EmptyString +:+ rest))
        by (unfold old; rewrite !append_assoc; reflexivity).
      rewrite E. rewrite <- (append_empty (String c before +:+ init)) at 1.
      apply prefix_reads_its_length.
      unfold old. rewrite !length_append. simpl. lia.
Qed.

(** Without an occurrence nothing is replaced. *)
Lemma replaceFirst_absent (s old new : string) :
  Contains s old = false -> replaceFirst s old new = s.
Proof.
  induction s as [|c s IH]; cbn [Contains replaceFirst]; intros H;
    apply orb_false_iff in H; destruct H as [Hp Hrest]; rewrite Hp; [reflexivity|].
  now rewrite IH.
Qed.
End ReplaceFacts.

(** ** The api.weather.gov program without a cache: the two fetches *)

(** Property X8.  Without the cache, [fetchPointMetadata] makes a single
    attempt: it sends one request, for the URL of the point, and neither
    retries, sleeps nor writes to the log, whatever the upstream answers.
    It does not panic; a 404 gives the error "no data available for
    coordinates: lat, lon", and with every error comes the zero
    [PointMetadata]. *)
Theorem uncached_metadata_is_fetched_once
        {lib : Library} {dec : WeatherGov.Decoder Gov.PointMetadata} (net : Upstream)
        (lat lon : Q) (w : World NoCache) :
  let url := HandlerSpec.pointsURL lat lon in
  NewRequest url = None ->
  let x := net (now w) (requests w) url in
  exists metadata err,
    Gov.fetchPointMetadata net lat lon w =
    (Ok (metadata, err),
     mkWorld (now w + took x)%Z (requests w ++ [url]) (sleeps w) (logged w) (cache w)) /\
    (err <> None -> metadata = Gov.zeroPointMetadata) /\
    (forall body,
        reply x = Response 404 body ->
        err = Some (ErrorString ("no data available for coordinates: "
                                 +:+ verb_4f lat +:+ ", " +:+ verb_4f lon))).
Proof.
  intros url E x. unfold Gov.fetchPointMetadata. fold (HandlerSpec.pointsURL lat lon).
  fold url. rewrite E. unfold bind, roundTrip, ret. cbn [fst snd]. fold x.
  destruct (reply x) as [e|code body].
  - do 2 eexists. split; [reflexivity|]. split; [reflexivity|discriminate].
  - destruct (code =? WeatherGov.StatusNotFound)%Z eqn:E404.
    + do 2 eexists. split; [reflexivity|]. split; reflexivity.
    + assert (code <> 404%Z) by (apply Z.eqb_neq; exact E404).
      destruct (negb (code =? WeatherGov.StatusOK)%Z).
      * do 2 eexists. split; [reflexivity|]. split; [reflexivity|].
        intros body' [= -> _]. congruence.
      * destruct (match body with
                  | ReadError err => (Gov.zeroPointMetadata, Some err)
                  | Bytes raw => WeatherGov.decodePointMetadata raw Gov.zeroPointMetadata
                  end) as [m [e|]];
          do 2 eexists; (split; [reflexivity|]);
          (split; [try reflexivity; intros Hn; now contradiction Hn
                  |intros body' [= -> _]; congruence]).
Qed.

(** Property X9.  Without the cache, [fetchForecast] refuses metadata
    whose forecast URL is empty with the error "forecast URL not
    available" and touches nothing.  Otherwise it sends between one and
    three requests, all for the same URL (the field with its first
    "forecast" replaced by "forecast/hourly"), and pauses 1, 2 and 3
    seconds after the first, second and third failed attempt.  It never
    panics.  After three failures the error reads "error fetching hourly
    forecast: max retries reached: ..." and comes with the zero
    [ForecastData]. *)
Theorem uncached_forecast_fetch
        {lib : Library} {dec : WeatherGov.Decoder Gov.PointMetadata} (net : Upstream)
        (metadata : Gov.PointMetadata) (w : World NoCache) :
  let run := Gov.fetchForecast net metadata w in
  let url := replaceFirst (Gov.Forecast metadata) "forecast" "forecast/hourly" in
  (Gov.Forecast metadata = EmptyString ->
   run = (Ok (WeatherGov.zeroForecastData, Some (ErrorString "forecast URL not available")),
          w)) /\
  (Gov.Forecast metadata <> EmptyString ->
   NewRequest url = None ->
   exists k f forecast err w',
     run = (Ok (forecast, err), w') /\
     requests w' = requests w ++ repeat url k /\
     sleeps w' = sleeps w ++ map Z.of_nat (seq 1 f) /\
     (1 <= k <= 3)%nat /\
     match err with
     | None => k = S f
     | Some err =>
         k = 3%nat /\ f = 3%nat /\ forecast = WeatherGov.zeroForecastData /\
         exists e,
           err = Errorf_w "error fetching hourly forecast: "
                          (Errorf_w "max retries reached: " e)
     end).
Proof.
  intros run url. unfold run, Gov.fetchForecast. split.
  - intros ->. reflexivity.
  - intros Hne E. apply String.eqb_neq in Hne. rewrite Hne. fold url.
    unfold Gov.fetchJSONWithRetry, WeatherGov.fetchJSONWithRetry.
    change (Z.to_nat 3) with 3%nat. unfold bind.
    destruct (GovRuns.retryLoop_attempts net url E 3 0%Z
                (WeatherGov.OfForecastData WeatherGov.zeroForecastData) None w)
      as (k & f & t & oe & w' & Hrun & Hreq & Hsl & _ & Hk & Hoe).
    rewrite Hrun. exists k, f.
    assert (Hsl' : sleeps w' = sleeps w ++ map Z.of_nat (seq 1 f))
      by (rewrite Hsl; f_equal; apply map_ext; intros j; lia).
    destruct oe as [e'|].
    + destruct Hoe as (-> & -> & He). destruct (He ltac:(lia)) as [e ->].
      do 3 eexists. split; [reflexivity|]. split; [exact Hreq|]. split; [exact Hsl'|].
      split; [lia|]. repeat split. eexists. reflexivity.
    + do 3 eexists. split; [reflexivity|]. split; [exact Hreq|]. split; [exact Hsl'|].
      split; [lia|exact Hoe].
Qed.

(** Property X10.  The URL that [fetchForecast] asks for, without the
    cache, is the one the metadata gives with "forecast/hourly" in the
    place of its first "forecast": a URL that already ends in
    "/forecast/hourly" is asked for with "/forecast/hourly/hourly" at its
    end, and a URL without "forecast" as it is. *)
Theorem hourly_forecast_url_is_rewritten
        {lib : Library} {dec : WeatherGov.Decoder Gov.PointMetadata} (net : Upstream)
        (metadata : Gov.PointMetadata) (w : World NoCache) :
  let sent := requests (snd (Gov.fetchForecast net metadata w)) in
  (forall before rest,
      Gov.Forecast metadata = before +:+ "forecast" +:+ rest ->
      Contains (before +:+ "forecas") "forecast" = false ->
      NewRequest (before +:+ "forecast/hourly" +:+ rest) = None ->
      exists k, (1 <= k <= 3)%nat /\
                sent = requests w ++ repeat (before +:+ "forecast/hourly" +:+ rest) k) /\
  (Gov.Forecast metadata <> EmptyString ->
   Contains (Gov.Forecast metadata) "forecast" = false ->
   NewRequest (Gov.Forecast metadata) = None ->
   exists k, (1 <= k <= 3)%nat /\ sent = requests w ++ repeat (Gov.Forecast metadata) k).
Proof.
  intros sent.
  assert (Hgen : forall url,
             Gov.Forecast metadata <> EmptyString ->
             replaceFirst (Gov.Forecast metadata) "forecast" "forecast/hourly" = url ->
             NewRequest url = None ->
             exists k, (1 <= k <= 3)%nat /\ sent = requests w ++ repeat url k).
  { intros url Hne Hurl E. unfold sent, Gov.fetchForecast.
    apply String.eqb_neq in Hne. rewrite Hne, Hurl.
    unfold Gov.fetchJSONWithRetry, WeatherGov.fetchJSONWithRetry.
    change (Z.to_nat 3) with 3%nat. unfold bind.
    destruct (GovRuns.retryLoop_attempts net url E 3 0%Z
                (WeatherGov.OfForecastData WeatherGov.zeroForecastData) None w)
      as (k & f & t & oe & w' & Hrun & Hreq & _ & _ & Hk & Hoe).
    rewrite Hrun. exists k. split; [destruct oe as [e'|]; [destruct Hoe as (-> & _)|]; lia|].
    destruct oe; exact Hreq. }
  split.
  - intros before rest Hurl Hfirst E. apply Hgen; [| |exact E].
    + rewrite Hurl. destruct before; discriminate.
    + rewrite Hurl.
      apply (ReplaceFacts.replaceFirst_at before "forecas" "t" rest "forecast/hourly").
      exact Hfirst.
  - intros Hne Habsent E. apply Hgen; [exact Hne| |exact E].
    now apply ReplaceFacts.replaceFirst_absent.
Qed.

(** ** The api.weather.gov program without a cache: the handler *)
Module GovHandler.
Import Go Go.Notations GoFacts Scan HandlerSpec QuietFacts WeatherGov RetrySpec RetryFacts Gov.

Section Handler.
Context {lib : Library} {dec : Decoder PointMetadata}.
Variable net : Upstream.
Implicit Types (w : World NoCache) (target : Target).

(** An attempt returns; it sends at most one request and does not
    sleep. *)
Lemma fetchJSON_total url target w :
  exists result w',
    fetchJSON net url target w = (Ok result, w') /\
    (length (requests w') <= length (requests w) + 1)%nat /\
    sleeps w' = sleeps w.
Proof.
  unfold fetchJSON, bind, log, roundTrip, ret. simpl.
  destruct (NewRequest url); simpl;
    [do 2 eexists; split; [reflexivity|simpl; split; [lia|reflexivity]]|].
  assert (Hlen : forall l : list string, (length (l ++ [url]) <= length l + 1)%nat)
    by (intros l; rewrite length_app; simpl; lia).
  destruct (reply _) as [e|code body]; simpl;
    [do 2 eexists; split; [reflexivity|simpl; auto]|].
  destruct (negb _); simpl; [do 2 eexists; split; [reflexivity|simpl; auto]|].
  destruct body as [e|raw]; simpl; [do 2 eexists; split; [reflexivity|simpl; auto]|].
  destruct (Unmarshal raw target) as [t' [e|]];
    do 2 eexists; (split; [reflexivity|simpl; auto]).
Qed.

Lemma retryLoop_total url :
  forall n i target err w,
  exists f t oe w',
    retryLoop (fetchJSON net) n i url target err w = (Ok (t, oe), w') /\
    (length (requests w') <= length (requests w) + n)%nat /\
    sleeps w' = sleeps w ++ map (fun j => (i + Z.of_nat j)%Z) (seq 1 f) /\
    (f <= n)%nat.
Proof.
  induction n as [|n IH]; intros i target err w.
  - exists O. do 3 eexists. cbn [retryLoop ret]. split; [reflexivity|].
    cbn [seq map]. rewrite app_nil_r. repeat split; lia.
  - destruct (fetchJSON_total url target w) as ([t1 [e1|]] & w1 & E1 & Hreq1 & Hsl1).
    + rewrite (retryLoop_failure _ _ _ _ _ _ _ _ _ _ E1).
      match goal with
      | |- context [retryLoop _ n ?i' url t1 ?err' ?w'] =>
          destruct (IH i' t1 err' w') as (f & t & oe & w2 & Hrun & Hreq & Hsl & Hf)
      end.
      exists (S f), t, oe, w2. split; [exact Hrun|].
      cbn [pause requests sleeps] in Hreq, Hsl. split; [lia|]. split; [|lia].
      rewrite Hsl, Hsl1, <- app_assoc. f_equal. cbn [seq map app]. f_equal.
      rewrite <- (seq_shift f 1), map_map. apply map_ext. intros j. lia.
    + rewrite (retryLoop_success _ _ _ _ _ _ _ _ _ E1).
      exists O. do 3 eexists. split; [reflexivity|]. cbn [seq map]. rewrite app_nil_r.
      repeat split; [lia|exact Hsl1|lia].
Qed.

Lemma fetchPointMetadata_total lat lon w :
  exists metadata err w',
    fetchPointMetadata net lat lon w = (Ok (metadata, err), w') /\
    (length (requests w') <= length (requests w) + 1)%nat /\
    sleeps w' = sleeps w.
Proof.
  unfold fetchPointMetadata, bind, roundTrip, ret.
  destruct (NewRequest _); [do 3 eexists; split; [reflexivity|simpl; split; [lia|reflexivity]]|].
  assert (Hlen : forall (l : list string) u, (length (l ++ [u]) <= length l + 1)%nat)
    by (intros l u; rewrite length_app; simpl; lia).
  cbn [fst snd]. destruct (reply _) as [e|code body];
    [do 3 eexists; split; [reflexivity|simpl; auto]|].
  destruct (code =? StatusNotFound)%Z; [do 3 eexists; split; [reflexivity|simpl; auto]|].
  destruct (negb _); [do 3 eexists; split; [reflexivity|simpl; auto]|].
  destruct (match body with
            | ReadError err => (zeroPointMetadata, Some err)
            | Bytes raw => decodePointMetadata raw zeroPointMetadata
            end) as [m [e|]];
    do 3 eexists; (split; [reflexivity|simpl; auto]).
Qed.

Lemma fetchForecast_total metadata w :
  exists f forecast err w',
    fetchForecast net metadata w = (Ok (forecast, err), w') /\
    (length (requests w') <= length (requests w) + 3)%nat /\
    sleeps w' = sleeps w ++ map Z.of_nat (seq 1 f) /\
    (f <= 3)%nat.
Proof.
  unfold fetchForecast.
  destruct (String.eqb (Forecast metadata) EmptyString).
  - exists O. do 3 eexists. split; [reflexivity|]. cbn [seq map]. rewrite app_nil_r.
    repeat split; lia.
  - unfold fetchJSONWithRetry, WeatherGov.fetchJSONWithRetry.
    change (Z.to_nat 3) with 3%nat. unfold bind.
    match goal with
    | |- context [retryLoop _ 3 0%Z ?u ?t ?e w] =>
        destruct (retryLoop_total u 3 0%Z t e w) as (f & t' & oe & w' & Hrun & Hreq & Hsl & Hf)
    end.
    rewrite Hrun. exists f.
    assert (Hsl' : sleeps w' = sleeps w ++ map Z.of_nat (seq 1 f))
      by (rewrite Hsl; f_equal; apply map_ext; intros j; lia).
    destruct oe; do 3 eexists; (split; [reflexivity|]); repeat split; assumption.
Qed.
End Handler.
End GovHandler.

(** Property X11.  Without the cache, the handler of [/predict] always
    answers: it does not panic, sends at most four requests upstream (one
    for the point, at most three for the forecast) and sleeps at most 1,
    2 and 3 seconds in a row.  Its answer is one of four fixed errors
    (the 500 never carries the error of the upstream) or a prediction
    whose location is the two parsed coordinates with four decimals and
    whose likelihood is not negative. *)
Theorem uncached_prediction_contract
        {lib : Library} {dec : WeatherGov.Decoder Gov.PointMetadata} (net : Upstream)
        (q_lat q_lon : string) (w : World NoCache) :
  exists written f w',
    Gov.handlePrediction net q_lat q_lon w = (Ok written, w') /\
    (length (requests w') <= length (requests w) + 4)%nat /\
    sleeps w' = sleeps w ++ map Z.of_nat (seq 1 f) /\
    (f <= 3)%nat /\
    (written = WeatherGov.HttpError 400 "Invalid latitude" \/
     written = WeatherGov.HttpError 400 "Invalid longitude" \/
     written = WeatherGov.HttpError 400 "Coordinates are outside of Colorado" \/
     written = WeatherGov.HttpError 500 "Error fetching weather data" \/
     exists lat lon p,
       ParseFloat q_lat = inl lat /\ ParseFloat q_lon = inl lon /\
       written = WeatherGov.PredictionJSON p /\
       WeatherGov.Location p = verb_4f lat +:+ ", " +:+ verb_4f lon /\
       0 <= WeatherGov.Likelihood p).
Proof.
  unfold Gov.handlePrediction.
  assert (Hnil : forall l : list Z, l = l ++ map Z.of_nat (seq 1 0))
    by (intros l; cbn [seq map]; now rewrite app_nil_r).
  destruct (ParseFloat q_lat) as [lat|e].
  2:{ exists (WeatherGov.HttpError 400 "Invalid latitude"), O, w.
      repeat split; [lia|apply Hnil|lia|auto]. }
  destruct (ParseFloat q_lon) as [lon|e].
  2:{ exists (WeatherGov.HttpError 400 "Invalid longitude"), O, w.
      repeat split; [lia|apply Hnil|lia|auto]. }
  destruct (Qlt_bool lat 37 || Qlt_bool 41 lat || Qlt_bool lon (-109) || Qlt_bool (-102) lon)
    eqn:Ebox.
  { exists (WeatherGov.HttpError 400 "Coordinates are outside of Colorado"), O, w.
    repeat split; [lia|apply Hnil|lia|auto]. }
  unfold bind at 1.
  destruct (GovHandler.fetchPointMetadata_total net lat lon w)
    as (metadata & [e|] & w1 & -> & Hreq1 & Hsl1).
  - unfold bind, log, ret. cbn [fst snd].
    exists (WeatherGov.HttpError 500 "Error fetching weather data"), O. eexists.
    split; [reflexivity|]. cbn [requests sleeps]. rewrite Hsl1.
    repeat split; [lia|apply Hnil|lia|auto].
  - unfold bind at 1.
    destruct (GovHandler.fetchForecast_total net metadata w1)
      as (f & forecast & [e|] & w2 & -> & Hreq2 & Hsl2 & Hf).
    + unfold bind, log, ret. cbn [fst snd].
      exists (WeatherGov.HttpError 500 "Error fetching weather data"), f. eexists.
      split; [reflexivity|]. cbn [requests sleeps]. rewrite Hsl2, Hsl1.
      repeat split; [lia|lia|auto].
    + unfold bind at 1. rewrite GovFacts.predictRainbow_run. unfold ret.
      eexists. exists f. eexists. split; [reflexivity|].
      cbn [requests sleeps Scan.addLog]. rewrite Hsl2, Hsl1.
      repeat split; [lia|lia|].
      do 4 right. exists lat, lon. eexists.
      split; [reflexivity|]. split; [reflexivity|].
      split; [reflexivity|]. split; [reflexivity|].
      cbn [WeatherGov.Likelihood]. apply (scan_mono _ (0, zeroTime)).
Qed.

(** Property X12.  Both api.weather.gov handlers answer a request for
    coordinates outside the box of Colorado (latitude 37 to 41, longitude
    -109 to -102) with a 400 and leave everything as it is: nothing is
    sent upstream, logged or cached.  The borders belong to the box: for
    coordinates inside or on them the answer is never this one. *)
Theorem coordinates_outside_colorado
        {lib : Library} (net : Upstream) (q_lat q_lon : string) (lat lon : Q) :
  ParseFloat q_lat = inl lat ->
  ParseFloat q_lon = inl lon ->
  let refusal := WeatherGov.HttpError 400 "Coordinates are outside of Colorado" in
  (lat < 37 \/ 41 < lat \/ lon < - (109 # 1) \/ - (102 # 1) < lon ->
   (forall (dec : WeatherGov.Decoder Gov.PointMetadata) (w : World NoCache),
       Gov.handlePrediction net q_lat q_lon w = (Ok refusal, w)) /\
   (forall (dec : WeatherGov.Decoder GovCached.PointMetadata) (w : World GovCached.Target),
       GovCached.handlePrediction net q_lat q_lon w = (Ok refusal, w))) /\
  (HandlerSpec.inColorado lat lon ->
   (forall (dec : WeatherGov.Decoder Gov.PointMetadata) (w : World NoCache),
       fst (Gov.handlePrediction net q_lat q_lon w) <> Ok refusal) /\
   (forall (dec : WeatherGov.Decoder GovCached.PointMetadata) (w : World GovCached.Target),
       fst (GovCached.handlePrediction net q_lat q_lon w) <> Ok refusal)).
Proof.
  intros Elat Elon refusal. split.
  - intros Hout.
    assert (Ebox : Qlt_bool lat 37 || Qlt_bool 41 lat || Qlt_bool lon (-109)
                   || Qlt_bool (-102) lon = true).
    { rewrite !orb_true_iff, !Qlt_bool_iff. tauto. }
    split; intros dec w.
    + unfold Gov.handlePrediction. now rewrite Elat, Elon, Ebox.
    + unfold GovCached.handlePrediction. now rewrite Elat, Elon, Ebox.
  - intros [[H1 H2] [H3 H4]].
    assert (Ebox : Qlt_bool lat 37 || Qlt_bool 41 lat || Qlt_bool lon (-109)
                   || Qlt_bool (-102) lon = false).
    { rewrite !orb_false_iff, !Qlt_bool_false_iff. tauto. }
    split; intros dec w.
    + unfold Gov.handlePrediction. rewrite Elat, Elon, Ebox. unfold bind at 1.
      destruct (Gov.fetchPointMetadata net lat lon w) as [[[m [e|]]|pv] w1];
        [discriminate| |discriminate].
      unfold bind at 1.
      destruct (Gov.fetchForecast net m w1) as [[[fc [e|]]|pv] w2];
        [discriminate| |discriminate].
      unfold bind at 1.
      destruct (Gov.predictRainbow fc _ w2) as [[p|pv] w3]; discriminate.
    + unfold GovCached.handlePrediction. rewrite Elat, Elon, Ebox. unfold bind at 1.
      destruct (GovCached.fetchPointMetadata net lat lon w) as [[[m [e|]]|pv] w1];
        [discriminate| |discriminate].
      unfold bind at 1.
      destruct (GovCached.fetchForecast net m w1) as [[[fc [e|]]|pv] w2];
        [discriminate| |discriminate].
      unfold bind at 1.
      destruct (GovCached.predictRainbow fc lat lon w2) as [[p|pv] w3]; discriminate.
Qed.

(** ** The api.weather.gov program with the cache: fetching *)
Module CachedRuns.
Import Go Go.Notations GoFacts Scan HandlerSpec QuietFacts WeatherGov RetrySpec RetryFacts.
Import GovCached CacheFacts CacheSpec.

Section Runs.
Context {lib : Library} {dec : Decoder PointMetadata}.
Variable net : Upstream.
Implicit Types (w : World Target) (target : Target).

Lemma Unmarshal_keeps_type raw target t e :
  Unmarshal raw target = (t, e) -> typeName t = typeName target /\ (toStruct target -> toStruct t).
Proof.
  unfold Unmarshal. destruct target as [m|f|v].
  - destruct (decodePointMetadata raw m). intros [= <- _]. now split.
  - destruct (decodeForecastData raw f). intros [= <- _]. now split.
  - destruct (decodeInterface raw v). intros [= <- _]. now split.
Qed.

(** The three ways a call of [fetchJSON] for a struct can end: a panic
    on an entry that has not expired, a failed attempt, which leaves the
    cache as it is, or a successful one, which writes the entry. *)
Lemma fetchJSON_cases url target w :
  toStruct target ->
  (exists entry,
      cache w !! url = Some entry /\ (now w < ExpiresAt entry)%Z /\
      fetchJSON net url target w
      = (Panic (InterfaceConversion (typeName target) "*interface {}"), w)) \/
  (exists t e w',
      fetchJSON net url target w = (Ok (t, Some e), w') /\
      typeName t = typeName target /\ toStruct t /\
      cache w' = cache w /\ sleeps w' = sleeps w /\
      (requests w' = requests w \/ requests w' = requests w ++ [url])) \/
  (exists t w',
      fetchJSON net url target w = (Ok (t, None), w') /\
      cache w' = <[url := mkCacheEntry t (now w' + ttl)%Z]> (cache w) /\
      sleeps w' = sleeps w /\
      requests w' = requests w ++ [url]).
Proof.
  intros Hs. unfold fetchJSON, bind, cache_lookup, time_Now.
  assert (Hmiss :
    (exists t e w',
        fetchAndStore net url target w = (Ok (t, Some e), w') /\
        typeName t = typeName target /\ toStruct t /\
        cache w' = cache w /\ sleeps w' = sleeps w /\
        (requests w' = requests w \/ requests w' = requests w ++ [url])) \/
    (exists t w',
        fetchAndStore net url target w = (Ok (t, None), w') /\
        cache w' = <[url := mkCacheEntry t (now w' + ttl)%Z]> (cache w) /\
        sleeps w' = sleeps w /\
        requests w' = requests w ++ [url])).
  { unfold fetchAndStore, bind, log, roundTrip, ret, time_Now, cache_store. simpl.
    destruct (NewRequest url); simpl.
    { left. do 3 eexists. split; [reflexivity|]. simpl. auto 10. }
    destruct (reply _) as [e|code body]; simpl.
    { left. do 3 eexists. split; [reflexivity|]. simpl. auto 10. }
    destruct (negb _); simpl.
    { left. do 3 eexists. split; [reflexivity|]. simpl. auto 10. }
    destruct body as [e|raw]; simpl.
    { left. do 3 eexists. split; [reflexivity|]. simpl. auto 10. }
    destruct (Unmarshal raw target) as [t' [e|]] eqn:Eu;
      apply Unmarshal_keeps_type in Eu; destruct Eu as [Ht Hst]; simpl.
    - left. do 3 eexists. split; [reflexivity|]. simpl. auto 10.
    - right. do 2 eexists. split; [reflexivity|]. simpl. auto. }
  destruct (cache w !! url) as [entry|] eqn:Ec; [|right; exact Hmiss].
  destruct (now w <? ExpiresAt entry)%Z eqn:Et; [|right; exact Hmiss].
  left. exists entry. apply Z.ltb_lt in Et. split; [reflexivity|]. split; [exact Et|].
  destruct target; [reflexivity|reflexivity|contradiction].
Qed.

(** The retry loop for a struct: the requests are for [url], at most
    [n] of them; the cache is as before or has one entry written at
    [url], and it has that entry when the loop succeeds; the only panic
    is the one of an entry that has not expired. *)
Lemma retryLoop_cases url :
  forall n i target err w,
    toStruct target ->
    exists k out w',
      retryLoop (fetchJSON net) n i url target err w = (out, w') /\
      requests w' = requests w ++ repeat url k /\ (k <= n)%nat /\
      match out with
      | Panic p =>
          p = InterfaceConversion (typeName target) "*interface {}" /\ cache w' = cache w
      | Ok (_, Some _) => cache w' = cache w
      | Ok (t, None) => (1 <= k)%nat /\ exists entry, cache w' = <[url := entry]> (cache w)
      end.
Proof.
  induction n as [|n IH]; intros i target err w Hs.
  - exists O. do 2 eexists. cbn [retryLoop ret repeat]. rewrite app_nil_r.
    repeat split; lia.
  - destruct (fetchJSON_cases url target w Hs)
      as [(entry & _ & _ & E1) | [(t1 & e1 & w1 & E1 & Ht & Hst & Hc & _ & Hreq)
                                 | (t1 & w1 & E1 & Hc & _ & Hreq)]].
    + rewrite (retryLoop_panic _ _ _ _ _ _ _ _ _ E1).
      exists O. do 2 eexists. split; [reflexivity|]. cbn [repeat]. rewrite app_nil_r.
      repeat split; lia.
    + rewrite (retryLoop_failure _ _ _ _ _ _ _ _ _ _ E1).
      match goal with
      | |- context [retryLoop _ n ?i' url t1 ?err' ?w'] =>
          destruct (IH i' t1 err' w' Hst) as (k & out & w2 & Hrun & Hreq2 & Hk & Hout)
      end.
      cbn [pause requests cache] in Hreq2, Hout.
      destruct Hreq as [Hreq | Hreq].
      * exists k, out, w2. split; [exact Hrun|]. rewrite Hreq2, Hreq.
        split; [reflexivity|]. split; [lia|].
        destruct out as [[t [e|]]|p]; rewrite ?Ht, ?Hc in Hout; exact Hout.
      * exists (S k), out, w2. split; [exact Hrun|]. rewrite Hreq2, Hreq, <- app_assoc.
        split; [reflexivity|]. split; [lia|].
        destruct out as [[t [e|]]|p]; rewrite ?Ht, ?Hc in Hout;
          [exact Hout|destruct Hout as [Hk1 Hout]; split; [lia|exact Hout]|exact Hout].
    + rewrite (retryLoop_success _ _ _ _ _ _ _ _ _ E1).
      exists 1%nat. do 2 eexists. split; [reflexivity|]. split; [exact Hreq|].
      split; [lia|]. split; [lia|]. eexists. exact Hc.
Qed.
End Runs.
End CachedRuns.

(** ** The api.weather.gov program with the cache: the handler *)
Module CachedHandler.
Import Go Go.Notations GoFacts Scan HandlerSpec QuietFacts WeatherGov RetrySpec RetryFacts.
Import GovCached CacheFacts CacheSpec CachedRuns.

Section Handler.
Context {lib : Library} {dec : Decoder PointMetadata}.
Variable net : Upstream.
Implicit Types (w : World Target) (target : Target).

Lemma insert_keeps (m : gmap string (CacheEntry Target)) url entry u :
  is_Some (m !! u) -> is_Some (<[url := entry]> m !! u).
Proof.
  intros H. destruct (decide (url = u)) as [->|Hne].
  - rewrite lookup_insert_eq. eauto.
  - now rewrite lookup_insert_ne.
Qed.

(** A URL whose entry has changed was asked for. *)
Lemma changed_sent (m m' : gmap string (CacheEntry Target)) url k u :
  (forall v, v <> url -> m' !! v = m !! v) ->
  m' = m \/ (1 <= k)%nat ->
  m' !! u <> m !! u -> In u (repeat url k).
Proof.
  intros Hframe Hk Hu. destruct (decide (u = url)) as [->|Hne].
  - destruct Hk as [-> | Hk]; [congruence|]. destruct k; [lia|]. now left.
  - now rewrite Hframe in Hu.
Qed.

(** A fetch with retries for a struct, as the two fetch functions run
    it: at most three requests, all for [url]; no entry is lost, and only
    the entry at [url] can have changed, after a request for it. *)
Lemma fetchJSONWithRetry_run url target w :
  toStruct target ->
  exists k out w',
    fetchJSONWithRetry net url target 3 w = (out, w') /\
    requests w' = requests w ++ repeat url k /\ (k <= 3)%nat /\
    (forall u, is_Some (cache w !! u) -> is_Some (cache w' !! u)) /\
    (forall u, u <> url -> cache w' !! u = cache w !! u) /\
    (cache w' = cache w \/ (1 <= k)%nat) /\
    match out with
    | Panic p => p = InterfaceConversion (typeName target) "*interface {}"
    | Ok (_, Some _) => True
    | Ok (_, None) => is_Some (cache w' !! url)
    end.
Proof.
  intros Hs. unfold fetchJSONWithRetry, WeatherGov.fetchJSONWithRetry.
  change (Z.to_nat 3) with 3%nat.
  destruct (retryLoop_cases net url 3 0%Z target None w Hs)
    as (k & out & w' & Hrun & Hreq & Hk & Hout).
  exists k, out, w'. split; [exact Hrun|]. split; [exact Hreq|]. split; [exact Hk|].
  destruct out as [[t [e|]]|p].
  - rewrite Hout. repeat split; auto.
  - destruct Hout as (Hk1 & entry & ->). split; [|split; [|split]].
    + intros u. apply insert_keeps.
    + intros u Hu. now rewrite lookup_insert_ne.
    + now right.
    + rewrite lookup_insert_eq. eauto.
  - destruct Hout as [-> ->]. repeat split; auto.
Qed.

(** A branch of the handler that answers at once. *)
Ltac stay :=
  match goal with
  | Er : _ = (_, _) |- _ =>
      injection Er as <- <-; exists []; rewrite app_nil_r;
      split; [reflexivity|]; split; [simpl; lia|]; split; [auto|];
      split; [congruence|]; split; discriminate
  end.

(** The handler: what it sends, what it does to the cache, how it can
    panic, and what a prediction leaves in the cache. *)
Lemma handlePrediction_run q_lat q_lon w :
  let run := handlePrediction net q_lat q_lon w in
  exists sent,
    requests (snd run) = requests w ++ sent /\
    (length sent <= 6)%nat /\
    (forall u, is_Some (cache w !! u) -> is_Some (cache (snd run) !! u)) /\
    (forall u, cache (snd run) !! u <> cache w !! u -> In u sent) /\
    (forall p,
        fst run = Panic p ->
        p = InterfaceConversion "*main.PointMetadata" "*interface {}" \/
        p = InterfaceConversion "*main.ForecastData" "*interface {}") /\
    (forall prediction,
        fst run = Ok (PredictionJSON prediction) ->
        exists lat lon,
          ParseFloat q_lat = inl lat /\ ParseFloat q_lon = inl lon /\
          inColorado lat lon /\
          is_Some (cache (snd run) !! pointsURL lat lon)).
Proof.
  intros run. unfold run. clear run.
  destruct (handlePrediction net q_lat q_lon w) as [out w'] eqn:Er.
  cbn [fst snd]. unfold handlePrediction in Er.
  destruct (ParseFloat q_lat) as [lat|e]; [|stay].
  destruct (ParseFloat q_lon) as [lon|e]; [|stay].
  destruct (Qlt_bool lat 37 || Qlt_bool 41 lat || Qlt_bool lon (-109) || Qlt_bool (-102) lon)
    eqn:Ebox; [stay|].
  assert (Hin : inColorado lat lon).
  { rewrite !orb_false_iff, !Qlt_bool_false_iff in Ebox. unfold inColorado. tauto. }
  unfold bind at 1 in Er. unfold fetchPointMetadata in Er.
  fold (pointsURL lat lon) in Er. unfold bind at 1 in Er.
  destruct (fetchJSONWithRetry_run (pointsURL lat lon) (OfPointMetadata zeroPointMetadata) w I)
    as (k1 & out1 & w1 & Hrun1 & Hreq1 & Hk1 & Hkeep1 & Hframe1 & Hch1 & Hout1).
  rewrite Hrun1 in Er.
  assert (Hsent1 : forall u, cache w1 !! u <> cache w !! u ->
                             In u (repeat (pointsURL lat lon) k1))
    by (intros u; now apply changed_sent).
  destruct out1 as [[t1 [e1|]]|p1].
  - unfold ret, bind, log in Er. injection Er as <- <-. cbn [requests cache].
    exists (repeat (pointsURL lat lon) k1). rewrite repeat_length.
    split; [exact Hreq1|]. split; [lia|]. split; [exact Hkeep1|]. split; [exact Hsent1|].
    split; discriminate.
  - unfold ret at 1 in Er. unfold bind at 1 in Er. unfold fetchForecast in Er.
    destruct (String.eqb (ForecastHourly (metadataOf zeroPointMetadata t1)) EmptyString).
    + unfold ret, bind, log in Er. injection Er as <- <-. cbn [requests cache].
      exists (repeat (pointsURL lat lon) k1). rewrite repeat_length.
      split; [exact Hreq1|]. split; [lia|]. split; [exact Hkeep1|]. split; [exact Hsent1|].
      split; discriminate.
    + unfold bind at 1 in Er.
      match type of Er with
      | context [fetchJSONWithRetry net ?u2 ?t2 3 w1] =>
          destruct (fetchJSONWithRetry_run u2 t2 w1 I)
            as (k2 & out2 & w2 & Hrun2 & Hreq2 & Hk2 & Hkeep2 & Hframe2 & Hch2 & Hout2);
          rewrite Hrun2 in Er;
          assert (Hsent : forall u, cache w2 !! u <> cache w !! u ->
                                    In u (repeat (pointsURL lat lon) k1 ++ repeat u2 k2))
      end.
      { intros u Hu. apply in_app_iff.
        destruct (decide (u = ForecastHourly (metadataOf zeroPointMetadata t1)))
          as [->|Hne].
        - destruct Hch2 as [E | Hk]; [left; apply Hsent1; now rewrite <- E|].
          right. destruct k2; [lia|]. now left.
        - left. apply Hsent1. now rewrite <- (Hframe2 u Hne). }
      assert (Hreq : requests w2 = requests w ++ repeat (pointsURL lat lon) k1
                                   ++ repeat (ForecastHourly (metadataOf zeroPointMetadata t1))
                                             k2)
        by (rewrite Hreq2, Hreq1, <- app_assoc; reflexivity).
      assert (Hkeep : forall u, is_Some (cache w !! u) -> is_Some (cache w2 !! u))
        by (intros u Hu; apply Hkeep2, Hkeep1, Hu).
      assert (Hlen : (length (repeat (pointsURL lat lon) k1
                              ++ repeat (ForecastHourly (metadataOf zeroPointMetadata t1)) k2)
                      <= 6)%nat)
        by (rewrite length_app, !repeat_length; lia).
      destruct out2 as [[t2 [e2|]]|p2].
      * unfold ret, bind, log in Er. injection Er as <- <-. cbn [requests cache].
        eexists. split; [exact Hreq|]. split; [exact Hlen|]. split; [exact Hkeep|].
        split; [exact Hsent|]. split; discriminate.
      * unfold ret at 1 in Er. unfold bind at 1 in Er.
        rewrite GovCachedFacts.cached_predictRainbow_run in Er.
        unfold ret in Er. injection Er as <- <-. cbn [requests cache Scan.addLog].
        eexists. split; [exact Hreq|]. split; [exact Hlen|]. split; [exact Hkeep|].
        split; [exact Hsent|]. split; [discriminate|].
        intros prediction _. exists lat, lon. repeat split; try apply Hin.
        apply Hkeep2. exact Hout1.
      * injection Er as <- <-.
        eexists. split; [exact Hreq|]. split; [exact Hlen|]. split; [exact Hkeep|].
        split; [exact Hsent|]. split; [|discriminate].
        intros p [= <-]. right. exact Hout2.
  - injection Er as <- <-.
    exists (repeat (pointsURL lat lon) k1). rewrite repeat_length.
    split; [exact Hreq1|]. split; [lia|]. split; [exact Hkeep1|]. split; [exact Hsent1|].
    split; [|discriminate]. intros p [= <-]. left. exact Hout1.
Qed.

(** An entry for the point that has not expired stops the handler at
    its first fetch. *)
Lemma handlePrediction_hit q_lat q_lon lat lon w entry :
  ParseFloat q_lat = inl lat ->
  ParseFloat q_lon = inl lon ->
  inColorado lat lon ->
  cache w !! pointsURL lat lon = Some entry ->
  (now w < ExpiresAt entry)%Z ->
  handlePrediction net q_lat q_lon w
  = (Panic (InterfaceConversion "*main.PointMetadata" "*interface {}"), w).
Proof.
  intros Elat Elon [[H1 H2] [H3 H4]] Ec Hfresh.
  assert (Ebox : Qlt_bool lat 37 || Qlt_bool 41 lat || Qlt_bool lon (-109)
                 || Qlt_bool (-102) lon = false).
  { rewrite !orb_false_iff, !Qlt_bool_false_iff. tauto. }
  unfold handlePrediction. rewrite Elat, Elon, Ebox.
  unfold bind at 1. unfold fetchPointMetadata. fold (pointsURL lat lon).
  unfold bind at 1. unfold fetchJSONWithRetry, WeatherGov.fetchJSONWithRetry.
  change (Z.to_nat 3) with 3%nat.
  assert (E : fetchJSON net (pointsURL lat lon) (OfPointMetadata zeroPointMetadata) w
              = (Panic (InterfaceConversion "*main.PointMetadata" "*interface {}"), w)).
  { rewrite (surjective_pairing (fetchJSON _ _ _ _)).
    rewrite (fetchJSON_hit net _ _ w entry Ec Hfresh).
    rewrite (fetchJSON_hit_value net _ _ w entry Ec Hfresh). reflexivity. }
  rewrite (retryLoop_panic _ _ _ _ _ _ _ _ _ E). reflexivity.
Qed.
End Handler.
End CachedHandler.

(** Property X13.  With the cache, a prediction can be served once: the
    call that answers with a prediction leaves an entry for the URL of
    the point in the cache, and as long as that entry is there and has
    not expired, every call of the handler for the same coordinates stops
    in [fetchJSON] with the panic of the type assertion ([&metadata] is a
    [*PointMetadata], not a [*interface {}]), before anything is sent,
    logged or answered. *)
Theorem repeated_prediction_panics
        {lib : Library} {dec : WeatherGov.Decoder GovCached.PointMetadata} (net : Upstream)
        (q_lat q_lon : string) (w : World GovCached.Target)
        (prediction : WeatherGov.RainbowPrediction) (w' : World GovCached.Target) :
  GovCached.handlePrediction net q_lat q_lon w = (Ok (WeatherGov.PredictionJSON prediction), w') ->
  exists lat lon entry,
    ParseFloat q_lat = inl lat /\
    ParseFloat q_lon = inl lon /\
    cache w' !! HandlerSpec.pointsURL lat lon = Some entry /\
    forall (net' : Upstream) (later : World GovCached.Target),
      cache later !! HandlerSpec.pointsURL lat lon = Some entry ->
      (now later < ExpiresAt entry)%Z ->
      GovCached.handlePrediction net' q_lat q_lon later
      = (Panic (InterfaceConversion "*main.PointMetadata" "*interface {}"), later).
Proof.
  intros Er.
  destruct (CachedHandler.handlePrediction_run net q_lat q_lon w)
    as (sent & _ & _ & _ & _ & _ & Hpr).
  rewrite Er in Hpr. cbn [fst snd] in Hpr.
  destruct (Hpr prediction eq_refl) as (lat & lon & Elat & Elon & Hin & [entry Hentry]).
  exists lat, lon, entry. repeat split; try assumption.
  intros net' later Hc Hfresh.
  now apply (CachedHandler.handlePrediction_hit net' q_lat q_lon lat lon later entry).
Qed.

(** Property X14.  With the cache, a call of the handler sends at most
    six requests upstream, three for the point and three for the
    forecast.  It never removes an entry from the cache, and an entry
    that it changes belongs to a URL that it has asked for during the
    call.  If it panics, the panic is one of the two type assertions of a
    cache hit. *)
Theorem cached_prediction_budget
        {lib : Library} {dec : WeatherGov.Decoder GovCached.PointMetadata} (net : Upstream)
        (q_lat q_lon : string) (w : World GovCached.Target) :
  let run := GovCached.handlePrediction net q_lat q_lon w in
  exists sent,
    requests (snd run) = requests w ++ sent /\
    (length sent <= 6)%nat /\
    (forall url, is_Some (cache w !! url) -> is_Some (cache (snd run) !! url)) /\
    (forall url, cache (snd run) !! url <> cache w !! url -> In url sent) /\
    (forall p,
        fst run = Panic p ->
        p = InterfaceConversion "*main.PointMetadata" "*interface {}" \/
        p = InterfaceConversion "*main.ForecastData" "*interface {}").
Proof.
  intros run.
  destruct (CachedHandler.handlePrediction_run net q_lat q_lon w)
    as (sent & Hreq & Hlen & Hkeep & Hframe & Hpanic & _).
  exists sent. repeat split; assumption.
Qed.

(** ** The two predictors: which periods can win *)
Module PeriodFacts.
Import Go Go.Notations GoFacts Scan ScanFacts WeatherGov.

Section Periods.
Context {lib : Library}.
Implicit Types (period : Period).

(** Without the cache, a period at or below 32 degrees, or with a
    probability of precipitation of 0, has a likelihood of 0. *)
Lemma uncached_no_liquid_rain period :
  Temperature period <= 32 \/ ProbabilityOfPrecipitation period == 0 ->
  below false 0 (GovSpec.candidate period).
Proof.
  intros H. unfold GovSpec.candidate, Gov.scorePeriod, bind, ret, log. simpl.
  destruct (time_Parse (StartTime period)) as [t|e]; simpl; [|exact I].
  destruct ((Hour t <? 6)%Z || (Hour t >? 20)%Z); simpl; [exact I|].
  assert (Hbase : (if Qle_bool (Temperature period) 32 then 0
                   else ProbabilityOfPrecipitation period
                        * (100 - ProbabilityOfPrecipitation period) / 2500) == 0).
  { destruct (Qle_bool (Temperature period) 32) eqn:Et; [reflexivity|].
    destruct H as [H | H].
    - apply Qle_bool_iff in H. congruence.
    - rewrite H. reflexivity. }
  set (base := if Qle_bool (Temperature period) 32 then 0
               else ProbabilityOfPrecipitation period
                    * (100 - ProbabilityOfPrecipitation period) / 2500) in *.
  clearbody base.
  destruct (ParseFloat (firstField (WindSpeed period))) as [v|e]; simpl;
    repeat match goal with
           | |- context [if andb ?a ?b then _ else _] => destruct (andb a b)
           end;
    rewrite Hbase;
    match goal with
    | |- ?x <= 0 => assert (E : x == 0) by ring; rewrite E; apply Qle_refl
    end.
Qed.

(** With the cache such a period is passed over. *)
Lemma cached_no_liquid_rain period :
  Temperature period <= 32 \/ ProbabilityOfPrecipitation period <= 0 ->
  GovCachedSpec.candidate period = None.
Proof.
  intros H. unfold GovCachedSpec.candidate, GovCached.scorePeriod, bind, ret, log. simpl.
  destruct (time_Parse (StartTime period)) as [t|e]; simpl; [|reflexivity].
  destruct (Qlt_bool (calculateSunAngle t) 0 || Qlt_bool 42 (calculateSunAngle t)); simpl;
    [reflexivity|].
  destruct (CloudCover period >? 96)%Z; simpl; [reflexivity|].
  replace (Qlt_bool 0 (ProbabilityOfPrecipitation period)
           && Qlt_bool 32 (Temperature period)) with false; [reflexivity|].
  symmetry. apply andb_false_iff. rewrite !Qlt_bool_false_iff. tauto.
Qed.
End Periods.
End PeriodFacts.

(** Property X15.  A period without liquid rain never becomes the
    prediction: in both predictors a period at or below 32 degrees, or
    with a probability of precipitation of 0, can be taken out of the
    series and the prediction stays the same (without the cache the
    likelihood of such a period is 0, with it the period is passed
    over). *)
Theorem periods_without_liquid_rain_never_win {lib : Library} :
  (forall before period after location (w : World NoCache),
      WeatherGov.Temperature period <= 32 \/
      WeatherGov.ProbabilityOfPrecipitation period == 0 ->
      fst (Gov.predictRainbow (WeatherGov.mkForecastData (before ++ period :: after))
                              location w)
      = fst (Gov.predictRainbow (WeatherGov.mkForecastData (before ++ after)) location w)) /\
  (forall before period after lat lon (w : World GovCached.Target),
      WeatherGov.Temperature period <= 32 \/
      WeatherGov.ProbabilityOfPrecipitation period <= 0 ->
      fst (GovCached.predictRainbow (WeatherGov.mkForecastData (before ++ period :: after))
                                    lat lon w)
      = fst (GovCached.predictRainbow (WeatherGov.mkForecastData (before ++ after))
                                      lat lon w)).
Proof.
  split.
  - intros before period after location w H.
    rewrite !GovFacts.predictRainbow_run. cbn [fst WeatherGov.Periods].
    rewrite !map_app. cbn [map].
    rewrite scan_skip; [reflexivity|simpl; lra|].
    now apply PeriodFacts.uncached_no_liquid_rain.
  - intros before period after lat lon w H.
    rewrite !GovCachedFacts.cached_predictRainbow_run. cbn [fst WeatherGov.Periods].
    rewrite !map_app. cbn [map].
    rewrite (PeriodFacts.cached_no_liquid_rain period H).
    rewrite scan_skip; [reflexivity|simpl; lra|exact I].
Qed.

(** ** The computed sun angle *)
Module SunFacts.
Import Go Go.Notations GoFacts WeatherGov SunSpec.

(** The angle as a function of the distance to noon. *)
Lemma angle_from_noon (t : Go.Time) (P : Q -> Prop) :
  (12 <= clock t -> P (90 - (clock t - 12) * 15)) ->
  (clock t <= 12 -> P (90 - (12 - clock t) * 15)) ->
  (forall a b, a == b -> P a -> P b) ->
  P (calculateSunAngle t).
Proof.
  intros Hafter Hbefore Hext. unfold calculateSunAngle. cbv zeta. fold (clock t).
  destruct (Qlt_le_dec (clock t) 12) as [Hlt | Hge].
  - apply (Hext (90 - (12 - clock t) * 15)); [|apply Hbefore; lra].
    rewrite (Qabs_neg (clock t - 12)) by lra. ring.
  - apply (Hext (90 - (clock t - 12) * 15)); [|apply Hafter; exact Hge].
    rewrite (Qabs_pos (clock t - 12)) by lra. ring.
Qed.

Lemma angle_in_band (t : Go.Time) :
  0 <= calculateSunAngle t <= 42 <-> lowSun (clock t).
Proof.
  unfold lowSun. apply (angle_from_noon t (fun a => 0 <= a <= 42 <-> _)).
  - intros H. split; intros; lra.
  - intros H. split; intros; lra.
  - intros a b E H. now rewrite <- E.
Qed.

Lemma angle_inside_band (t : Go.Time) :
  0 < calculateSunAngle t < 42 <-> lowSunInside (clock t).
Proof.
  unfold lowSunInside. apply (angle_from_noon t (fun a => 0 < a < 42 <-> _)).
  - intros H. split; intros; lra.
  - intros H. split; intros; lra.
  - intros a b E H. now rewrite <- E.
Qed.

Lemma scale_positive (c x : Q) : 0 < c -> (0 < c * x <-> 0 < x).
Proof.
  intros Hc. split; intros H.
  - apply Qnot_le_lt. intros Hx.
    assert (c * x <= c * 0) by (rewrite !(Qmult_comm c); apply Qmult_le_compat_r; lra).
    assert (E : c * 0 == 0) by ring. rewrite E in *. lra.
  - now apply Qmult_lt_0_compat.
Qed.

(** On the hour, strictly inside the band means 7, 8, 16 or 17
    o'clock. *)
Lemma inside_on_the_hour (t : Go.Time) :
  Minute t = 0%Z -> lowSunInside (clock t) ->
  (Hour t = 7 \/ Hour t = 8 \/ Hour t = 16 \/ Hour t = 17)%Z.
Proof.
  unfold lowSunInside, clock. intros ->.
  assert (E : inject_Z (Hour t) + inject_Z 0 / 60 == inject_Z (Hour t)) by (unfold Qdiv; ring).
  rewrite E.
  intros [[H1 H2] | [H1 H2]].
  - assert (6 < Hour t)%Z by (rewrite Zlt_Qlt; exact H1).
    assert (Hour t < 9)%Z by (rewrite Zlt_Qlt; change (inject_Z 9) with 9; lra).
    lia.
  - assert (15 < Hour t)%Z by (rewrite Zlt_Qlt; change (inject_Z 15) with 15; lra).
    assert (Hour t < 18)%Z by (rewrite Zlt_Qlt; exact H2).
    lia.
Qed.
End SunFacts.

(** Property X16.  With the cache, a period is a candidate only if its
    start time parses, the clock reading of that time lies between 6:00
    and 8:48 or between 15:12 and 18:00 (the computed sun angle is then
    in [[0, 42]]), its cloud cover is at most 96, its probability of
    precipitation is positive and its temperature is above 32.  The
    likelihood of a candidate is positive exactly when the clock reading
    is strictly inside one of the two intervals; for a period that starts
    on the hour this leaves 7, 8, 16 and 17 o'clock. *)
Theorem cached_candidates_need_a_low_sun
        {lib : Library} (period : WeatherGov.Period) (m : Q) (t : Go.Time) :
  GovCachedSpec.candidate period = Some (m, t) ->
  time_Parse (WeatherGov.StartTime period) = inl t /\
  SunSpec.lowSun (SunSpec.clock t) /\
  (WeatherGov.CloudCover period <= 96)%Z /\
  0 < WeatherGov.ProbabilityOfPrecipitation period /\
  32 < WeatherGov.Temperature period /\
  (0 < m <-> SunSpec.lowSunInside (SunSpec.clock t)) /\
  (Minute t = 0%Z -> 0 < m -> (Hour t = 7 \/ Hour t = 8 \/ Hour t = 16 \/ Hour t = 17)%Z).
Proof.
  unfold GovCachedSpec.candidate, GovCached.scorePeriod, bind, ret, log. simpl.
  destruct (time_Parse (WeatherGov.StartTime period)) as [t'|e]; simpl; [|discriminate].
  destruct (Qlt_bool (WeatherGov.calculateSunAngle t') 0
            || Qlt_bool 42 (WeatherGov.calculateSunAngle t')) eqn:Es;
    simpl; [discriminate|].
  apply orb_false_iff in Es. destruct Es as [E0 E42].
  apply Qlt_bool_false_iff in E0, E42.
  destruct (WeatherGov.CloudCover period >? 96)%Z eqn:Ec; simpl; [discriminate|].
  destruct (Qlt_bool 0 (WeatherGov.ProbabilityOfPrecipitation period)
            && Qlt_bool 32 (WeatherGov.Temperature period)) eqn:Ep; simpl; [|discriminate].
  apply andb_true_iff in Ep. destruct Ep as [Ep Et]. apply Qlt_bool_iff in Ep, Et.
  assert (Hcc : (WeatherGov.CloudCover period <= 96)%Z).
  { destruct (Z.gtb_spec (WeatherGov.CloudCover period) 96); [discriminate|assumption]. }
  assert (Hclear : 0 < (100 - inject_Z (WeatherGov.CloudCover period)) / 100).
  { rewrite Zle_Qle in Hcc. change (inject_Z 96) with 96 in Hcc.
    apply Qlt_shift_div_l; lra. }
  assert (Hrain : 0 < WeatherGov.ProbabilityOfPrecipitation period / 100)
    by (apply Qlt_shift_div_l; lra).
  assert (Hangle : 0 < 1 - Qabs (WeatherGov.calculateSunAngle t' - 21) / 21
                   <-> SunSpec.lowSunInside (SunSpec.clock t')).
  { rewrite <- SunFacts.angle_inside_band.
    assert (Hq : Qabs (WeatherGov.calculateSunAngle t' - 21) / 21 < 1
                 <-> Qabs (WeatherGov.calculateSunAngle t' - 21) < 21).
    { generalize (Qabs (WeatherGov.calculateSunAngle t' - 21)). intros a.
      qconst. split; intros; lra. }
    rewrite Qabs_Qlt_condition in Hq.
    split; intros H.
    - assert (H' : Qabs (WeatherGov.calculateSunAngle t' - 21) / 21 < 1) by lra.
      apply Hq in H'. lra.
    - assert (H' : Qabs (WeatherGov.calculateSunAngle t' - 21) / 21 < 1) by (apply Hq; lra).
      lra. }
  set (clear := (100 - inject_Z (WeatherGov.CloudCover period)) / 100) in *.
  set (rain := WeatherGov.ProbabilityOfPrecipitation period / 100) in *.
  set (angle := 1 - Qabs (WeatherGov.calculateSunAngle t' - 21) / 21) in *.
  clearbody clear rain angle.
  assert (Hpos : 0 < clear * rain) by (now apply Qmult_lt_0_compat).
  assert (Hm : forall k, 0 < k -> forall m', m' == k * (clear * rain) * angle ->
                         (0 < m' <-> SunSpec.lowSunInside (SunSpec.clock t'))).
  { intros k Hk m' E. rewrite E, <- Hangle. apply SunFacts.scale_positive.
    now apply Qmult_lt_0_compat. }
  intros Hrun.
  assert (Ht : t' = t) by (destruct (_ && _), (_ && _) in Hrun; now injection Hrun).
  subst t'.
  assert (Hiff : 0 < m <-> SunSpec.lowSunInside (SunSpec.clock t)).
  { destruct ((Hour t >=? 16)%Z && (Hour t <=? 22)%Z);
      destruct ((Month t >=? April)%Z && (Month t <=? September)%Z);
      injection Hrun as <-.
    - apply (Hm ((3 # 2) * (12 # 10))); [reflexivity|ring].
    - apply (Hm (3 # 2)); [reflexivity|ring].
    - apply (Hm (12 # 10)); [reflexivity|ring].
    - apply (Hm 1); [reflexivity|ring]. }
  split; [reflexivity|]. split; [apply SunFacts.angle_in_band; split; assumption|].
  split; [exact Hcc|]. split; [exact Ep|]. split; [exact Et|]. split; [exact Hiff|].
  intros Hmin Hm0. apply SunFacts.inside_on_the_hour; [exact Hmin|]. now apply Hiff.
Qed.

(** ** The predictor without the cache: when the likelihood is positive *)
Module PositiveFacts.
Import Go Go.Notations GoFacts WeatherGov.

Lemma product_positive (a b : Q) :
  0 <= a -> 0 <= b -> (0 < a * b <-> 0 < a /\ 0 < b).
Proof.
  intros Ha Hb. split.
  - intros H. destruct (Qlt_le_dec 0 a) as [Ha'|Ha'], (Qlt_le_dec 0 b) as [Hb'|Hb'];
      try (split; assumption); exfalso.
    + assert (E : b == 0) by lra. rewrite E in H.
      assert (E' : a * 0 == 0) by ring. rewrite E' in H. lra.
    + assert (E : a == 0) by lra. rewrite E in H.
      assert (E' : 0 * b == 0) by ring. rewrite E' in H. lra.
    + assert (E : a == 0) by lra. rewrite E in H.
      assert (E' : 0 * b == 0) by ring. rewrite E' in H. lra.
  - intros [Ha' Hb']. now apply Qmult_lt_0_compat.
Qed.

(** The triangle [1 - |x - centre| / centre] is positive strictly
    between 0 and twice the centre. *)
Lemma triangle_positive (x centre : Q) :
  0 < centre -> (0 < 1 - Qabs (x - centre) / centre <-> 0 < x < 2 * centre).
Proof.
  intros Hc.
  assert (Hq : Qabs (x - centre) / centre < 1 <-> Qabs (x - centre) < centre).
  { split; intros H.
    - apply (Qmult_lt_r _ _ (/ centre)); [now apply Qinv_lt_0_compat|].
      rewrite Qmult_inv_r by lra. exact H.
    - apply Qlt_shift_div_r; lra. }
  rewrite Qabs_Qlt_condition in Hq. split; intros H.
  - assert (H' : Qabs (x - centre) / centre < 1) by lra. apply Hq in H'. lra.
  - assert (H' : Qabs (x - centre) / centre < 1) by (apply Hq; lra). lra.
Qed.

Lemma parabola_positive (p : Q) :
  0 <= p <= 100 -> (0 < p * (100 - p) / 2500 <-> 0 < p < 100).
Proof.
  intros Hp.
  assert (E : p * (100 - p) / 2500 == (1 # 2500) * (p * (100 - p)))
    by (unfold Qdiv; change (/ 2500) with (1 # 2500); ring).
  rewrite E, SunFacts.scale_positive by reflexivity.
  rewrite product_positive by lra. split; intros; lra.
Qed.
End PositiveFacts.

(** With a wind speed that does not parse the factor is the one of a
    wind speed of 0, which the clamp leaves as it is. *)
Ltac wind_ring :=
  change (Qlt_bool (1 - Qabs (0 - 10) / 10) 0) with false; cbv iota;
  generalize (1 - Qabs (0 - 10) / 10); intros; ring.

(** Property X17.  Without the cache, a period is a candidate when its
    start time parses and its hour is between 6 and 20.  For percentages
    in range, the likelihood of a candidate is positive exactly when the
    temperature is above 32, the probability of precipitation is strictly
    between 0 and 100, the cloud cover is strictly between 0 and 100 and
    the wind speed is a number strictly between 0 and 20; in every other
    case it is 0, and the period cannot become the prediction. *)
Theorem uncached_likelihood_is_positive
        {lib : Library} (period : WeatherGov.Period) (m : Q) (t : Time) :
  GovSpec.nominal period ->
  GovSpec.candidate period = Some (m, t) ->
  time_Parse (WeatherGov.StartTime period) = inl t /\
  (6 <= Hour t <= 20)%Z /\
  (0 < m <->
   32 < WeatherGov.Temperature period /\
   0 < WeatherGov.ProbabilityOfPrecipitation period < 100 /\
   (0 < WeatherGov.CloudCover period < 100)%Z /\
   exists v, ParseFloat (firstField (WeatherGov.WindSpeed period)) = inl v /\ 0 < v < 20) /\
  (~ 0 < m -> m == 0).
Proof.
  intros [Hp Hc]. unfold GovSpec.candidate, Gov.scorePeriod, bind, ret, log. simpl.
  destruct (time_Parse (WeatherGov.StartTime period)) as [t'|e]; simpl; [|discriminate].
  destruct ((Hour t' <? 6)%Z || (Hour t' >? 20)%Z) eqn:Eh; simpl; [discriminate|].
  apply orb_false_iff in Eh. destruct Eh as [Eh1 Eh2].
  apply Z.ltb_ge in Eh1. rewrite Z.gtb_ltb in Eh2. apply Z.ltb_ge in Eh2.
  set (base := if Qle_bool (WeatherGov.Temperature period) 32 then 0
               else WeatherGov.ProbabilityOfPrecipitation period
                    * (100 - WeatherGov.ProbabilityOfPrecipitation period) / 2500).
  set (cloud := 1 - Qabs (inject_Z (WeatherGov.CloudCover period) - 50) / 50).
  assert (Hbase : 0 <= base /\
                  (0 < base <-> 32 < WeatherGov.Temperature period /\
                                0 < WeatherGov.ProbabilityOfPrecipitation period < 100)).
  { unfold base. destruct (Qle_bool (WeatherGov.Temperature period) 32) eqn:Et.
    - apply Qle_bool_iff in Et. split; [lra|]. split; intros; lra.
    - assert (32 < WeatherGov.Temperature period).
      { apply Qnot_le_lt. intros H. apply Qle_bool_iff in H. congruence. }
      split; [apply GovBounds.parabola_unit; exact Hp|].
      rewrite PositiveFacts.parabola_positive by exact Hp. tauto. }
  assert (Hcloud : 0 <= cloud /\ (0 < cloud <-> (0 < WeatherGov.CloudCover period < 100)%Z)).
  { unfold cloud. destruct Hc as [H0 H100].
    assert (H0' := H0). assert (H100' := H100).
    rewrite Zle_Qle in H0', H100'.
    change (inject_Z 0) with 0 in H0'. change (inject_Z 100) with 100 in H100'.
    split; [apply GovBounds.triangle_unit; lra|].
    rewrite PositiveFacts.triangle_positive by reflexivity.
    rewrite !Zlt_Qlt. change (inject_Z 0) with 0. change (inject_Z 100) with 100.
    split; intros; lra. }
  assert (Hwind : forall v,
             let windFactor := 1 - Qabs (v - 10) / 10 in
             let clamped := if Qlt_bool windFactor 0 then 0 else windFactor in
             0 <= clamped /\ (0 < clamped <-> 0 < v < 20)).
  { intros v windFactor clamped. split; [apply (GovBounds.clamp_unit v)|].
    unfold clamped. rewrite <- (PositiveFacts.triangle_positive v 10) by reflexivity.
    fold windFactor. destruct (Qlt_bool windFactor 0) eqn:E.
    - apply Qlt_bool_iff in E. split; intros; lra.
    - reflexivity. }
  assert (Hprod : forall v k m',
             0 < k ->
             m' == k * (base * cloud
                        * (if Qlt_bool (1 - Qabs (v - 10) / 10) 0 then 0
                           else 1 - Qabs (v - 10) / 10)) ->
             (0 < m' <-> 0 < base /\ 0 < cloud /\ 0 < v < 20) /\ (~ 0 < m' -> m' == 0)).
  { intros v k m' Hk E. specialize (Hwind v). cbv zeta in Hwind.
    destruct Hwind as [Hw0 Hw]. destruct Hbase as [Hb0 _]. destruct Hcloud as [Hc0 _].
    assert (Hbc : 0 <= base * cloud) by (apply Qmult_le_0_compat; assumption).
    rewrite E, SunFacts.scale_positive by exact Hk.
    rewrite PositiveFacts.product_positive by assumption.
    rewrite PositiveFacts.product_positive by assumption.
    rewrite Hw. split; [tauto|].
    intros Hn.
    set (x := base * cloud * _) in *.
    assert (Hx : 0 <= x) by (unfold x; apply Qmult_le_0_compat; assumption).
    assert (Hz : x == 0).
    { destruct (Qlt_le_dec 0 x) as [Hpos|Hle]; [|lra].
      exfalso. apply Hn. unfold x in Hpos.
      rewrite !PositiveFacts.product_positive in Hpos by assumption. tauto. }
    rewrite Hz. ring. }
  clearbody base cloud.
  intros Hrun.
  assert (Ht : t' = t).
  { destruct (ParseFloat _) in Hrun; simpl in Hrun;
      destruct (_ && _), (_ && _) in Hrun; now injection Hrun. }
  subst t'. split; [reflexivity|]. split; [lia|].
  destruct (ParseFloat (firstField (WeatherGov.WindSpeed period))) as [v|e]; simpl in Hrun.
  - assert (Hm : (0 < m <-> 0 < base /\ 0 < cloud /\ 0 < v < 20) /\ (~ 0 < m -> m == 0)).
    { destruct (_ && _), (_ && _) in Hrun; injection Hrun as <-.
      - apply (Hprod v ((3 # 2) * (3 # 2))); [reflexivity|ring].
      - apply (Hprod v (3 # 2)); [reflexivity|ring].
      - apply (Hprod v (3 # 2)); [reflexivity|ring].
      - apply (Hprod v 1); [reflexivity|ring]. }
    destruct Hm as [Hm Hz]. split; [|exact Hz].
    rewrite Hm. destruct Hbase as [_ ->]. destruct Hcloud as [_ ->].
    split.
    + intros (H1 & H2 & H3). repeat split; try tauto. exists v. tauto.
    + intros (H1 & H2 & H3 & v' & [= <-] & H4). tauto.
  - assert (Hm : (0 < m <-> 0 < base /\ 0 < cloud /\ 0 < 0 < 20) /\ (~ 0 < m -> m == 0)).
    { destruct (_ && _), (_ && _) in Hrun; injection Hrun as <-.
      - apply (Hprod 0 ((3 # 2) * (3 # 2))); [reflexivity|wind_ring].
      - apply (Hprod 0 (3 # 2)); [reflexivity|wind_ring].
      - apply (Hprod 0 (3 # 2)); [reflexivity|wind_ring].
      - apply (Hprod 0 1); [reflexivity|wind_ring]. }
    destruct Hm as [Hm Hz]. split; [|exact Hz].
    rewrite Hm. split.
    + intros (_ & _ & H). lra.
    + intros (_ & _ & _ & v' & [=] & _).
Qed.

(** ** The retry loop for any limit *)

(** Property X18.  [fetchJSONWithRetry] for any [maxRetries], with the
    [fetchJSON] of the program without the cache and a URL that
    [http.NewRequest] accepts: the loop returns without a panic after at
    most [maxRetries] requests, all for that URL, with pauses of 1, 2,
    ... seconds after its failed attempts.  When it fails it has made
    exactly [maxRetries] attempts and as many pauses, the last pause
    included.  With a limit of 0 or less it sends nothing, leaves the
    destination as it is and returns an error that wraps nothing: "max
    retries reached: %!w(<nil>)". *)
Theorem retry_for_any_limit
        {lib : Library} {dec : WeatherGov.Decoder Gov.PointMetadata} (net : Upstream)
        (url : string) (target : Gov.Target) (maxRetries : Z) (w : World NoCache) :
  NewRequest url = None ->
  exists k f t err w',
    Gov.fetchJSONWithRetry net url target maxRetries w = (Ok (t, err), w') /\
    requests w' = requests w ++ repeat url k /\
    sleeps w' = sleeps w ++ map Z.of_nat (seq 1 f) /\
    (Z.of_nat k <= Z.max 0 maxRetries)%Z /\
    match err with
    | None => k = S f
    | Some e =>
        Z.of_nat k = Z.max 0 maxRetries /\ f = k /\
        if (maxRetries <=? 0)%Z
        then w' = w /\ t = target /\ Unwrap e = None /\
             Error e = "max retries reached: %!w(<nil>)"
        else exists last, Unwrap e = Some last /\
                          Error e = "max retries reached: " +:+ Error last
    end.
Proof.
  intros E. unfold Gov.fetchJSONWithRetry, WeatherGov.fetchJSONWithRetry.
  destruct (Z.leb_spec maxRetries 0) as [Hle|Hgt].
  - replace (Z.to_nat maxRetries) with O by lia. cbn [WeatherGov.retryLoop ret].
    exists O, O. do 3 eexists. split; [reflexivity|].
    cbn [repeat seq map]. rewrite !app_nil_r.
    repeat split; lia.
  - destruct (GovRuns.retryLoop_attempts net url E (Z.to_nat maxRetries) 0%Z target None w)
      as (k & f & t & oe & w' & Hrun & Hreq & Hsl & _ & Hk & Hoe).
    exists k, f, t, oe, w'. split; [exact Hrun|]. split; [exact Hreq|].
    split; [rewrite Hsl; f_equal; apply map_ext; intros j; lia|].
    split; [lia|].
    destruct oe as [e|]; [|exact Hoe].
    destruct Hoe as (-> & -> & He). split; [lia|]. split; [reflexivity|].
    destruct (He ltac:(lia)) as [last ->]. exists last. split; reflexivity.
Qed.

(** ** [main.go]: what every upstream request looks like *)

(** Property X19.  Every call of [fetchWeatherData] sends exactly one
    request.  Its URL asks the upstream to leave out the hourly and the
    daily data and ends with the API key; before the request is sent the
    whole URL, key included, goes to the log at debug level. *)
Theorem every_fetch_logs_the_api_key
        {lib : Library} (apiKey : string) (net : Upstream)
        (Decode : Body -> OpenWeather.WeatherData + GoError) (lat lon : Q)
        (w : World NoCache) :
  let url := OpenWeather.requestURL apiKey lat lon in
  let w' := snd (OpenWeather.fetchWeatherData apiKey net Decode lat lon w) in
  (exists front,
      url = front +:+ "&exclude=hourly,daily&units=metric&appid=" +:+ apiKey) /\
  (exists later,
      logged w' = logged w
                  ++ mkLog DebugLevel "Fetching weather data" [("url", VString url)] :: later) /\
  requests w' = requests w ++ [url].
Proof.
  intros url w'. split; [|split].
  - unfold url, OpenWeather.requestURL.
    exists (OpenWeather.baseURL +:+ "?lat=" +:+ verb_f lat +:+ "&lon=" +:+ verb_f lon).
    rewrite !ReplaceFacts.append_assoc. reflexivity.
  - unfold w', OpenWeather.fetchWeatherData, bind, log, roundTrip, ret. simpl. fold url.
    destruct (reply _) as [e|code body]; simpl;
      [eexists; rewrite <- !app_assoc; reflexivity|].
    destruct (negb _); simpl; [eexists; rewrite <- !app_assoc; reflexivity|].
    destruct (Decode body); simpl; eexists; rewrite <- !app_assoc; reflexivity.
  - apply CacheFacts.fetchWeatherData_requests.
Qed.

(** ** The program with the cache: a point that the upstream refuses *)
Module ColdCache.
Import Go Go.Notations GoFacts Scan HandlerSpec WeatherGov RetrySpec RetryFacts GovCached.

Section Cold.
Context {lib : Library} {dec : Decoder PointMetadata}.
Variable net : Upstream.
Implicit Types (w : World Target) (target : Target).

(** Without an entry for [url], an answer that is not a 200 is an
    error, and the cache stays as it is. *)
Lemma fetchJSON_refused url target w code body :
  NewRequest url = None ->
  cache w !! url = None ->
  reply (net (now w) (requests w) url) = Response code body ->
  code <> 200%Z ->
  fetchJSON net url target w =
  (Ok (target, Some (ErrorString ("unexpected status code: " +:+ verb_d code))),
   mkWorld (now w + took (net (now w) (requests w) url))%Z (requests w ++ [url]) (sleeps w)
           (logged w ++ [mkLog InfoLevel "Fetching JSON" [("url", VString url)]])
           (cache w)).
Proof.
  intros E Ec Er Hcode. unfold fetchJSON, bind, cache_lookup. rewrite Ec.
  unfold fetchAndStore, bind, log, roundTrip, ret. rewrite E. cbn [fst snd now requests].
  rewrite Er. replace (code =? StatusOK)%Z with false by (symmetry; now apply Z.eqb_neq).
  reflexivity.
Qed.

(** Without an entry for [url], a 200 whose body decodes is stored, to
    expire [ttl] seconds after the answer. *)
Lemma fetchJSON_stored url target w raw t :
  NewRequest url = None ->
  cache w !! url = None ->
  reply (net (now w) (requests w) url) = Response 200 (Bytes raw) ->
  Unmarshal raw target = (t, None) ->
  let instant := (now w + took (net (now w) (requests w) url))%Z in
  fetchJSON net url target w =
  (Ok (t, None),
   mkWorld instant (requests w ++ [url]) (sleeps w)
           (logged w ++ [mkLog InfoLevel "Fetching JSON" [("url", VString url)]])
           (<[url := mkCacheEntry t (instant + ttl)%Z]> (cache w))).
Proof.
  intros E Ec Er Eu instant. unfold fetchJSON, bind, cache_lookup. rewrite Ec.
  unfold fetchAndStore, bind, log, roundTrip, ret, time_Now, cache_store. rewrite E.
  cbn [fst snd now requests]. rewrite Er.
  change (negb (200 =? StatusOK)%Z) with false. cbv iota. rewrite Eu. reflexivity.
Qed.
End Cold.
End ColdCache.

(** Property X20.  With the cache, [fetchPointMetadata] has no answer of
    its own for a 404: when there is no entry for the point and the
    upstream answers every request with a status that is not 200, the
    request is sent three times, with pauses of 1, 2 and 3 seconds, the
    cache stays as it is, and the error names the status of the last
    answer behind "error fetching point metadata: max retries reached:
    unexpected status code: ". *)
Theorem cached_metadata_is_retried
        {lib : Library} {dec : WeatherGov.Decoder GovCached.PointMetadata} (net : Upstream)
        (lat lon : Q) (w : World GovCached.Target) :
  let url := HandlerSpec.pointsURL lat lon in
  NewRequest url = None ->
  cache w !! url = None ->
  (forall t sent, exists code body,
        reply (net t sent url) = Response code body /\ code <> 200%Z) ->
  exists err w' code,
    GovCached.fetchPointMetadata net lat lon w
    = (Ok (GovCached.zeroPointMetadata, Some err), w') /\
    requests w' = requests w ++ [url; url; url] /\
    sleeps w' = sleeps w ++ [1; 2; 3]%Z /\
    cache w' = cache w /\
    Error err = "error fetching point metadata: max retries reached: unexpected status code: "
                +:+ verb_d code.
Proof.
  intros url E Ec Hnet. unfold GovCached.fetchPointMetadata.
  fold (HandlerSpec.pointsURL lat lon). fold url.
  unfold GovCached.fetchJSONWithRetry, WeatherGov.fetchJSONWithRetry.
  change (Z.to_nat 3) with 3%nat. unfold bind at 1.
  destruct (Hnet (now w) (requests w)) as (c1 & b1 & Er1 & Hc1).
  rewrite (RetryFacts.retryLoop_failure _ _ _ _ _ _ _ _ _ _
             (ColdCache.fetchJSON_refused net url _ w c1 b1 E Ec Er1 Hc1)).
  match goal with
  | |- context [WeatherGov.retryLoop _ 2 _ url _ _ ?w1] =>
      destruct (Hnet (now w1) (requests w1)) as (c2 & b2 & Er2 & Hc2);
      rewrite (RetryFacts.retryLoop_failure _ _ _ _ _ _ _ _ _ _
                 (ColdCache.fetchJSON_refused net url _ w1 c2 b2 E Ec Er2 Hc2))
  end.
  match goal with
  | |- context [WeatherGov.retryLoop _ 1 _ url _ _ ?w2] =>
      destruct (Hnet (now w2) (requests w2)) as (c3 & b3 & Er3 & Hc3);
      rewrite (RetryFacts.retryLoop_failure _ _ _ _ _ _ _ _ _ _
                 (ColdCache.fetchJSON_refused net url _ w2 c3 b3 E Ec Er3 Hc3))
  end.
  cbn [WeatherGov.retryLoop ret].
  do 2 eexists. exists c3. split; [reflexivity|].
  cbn [RetrySpec.pause requests sleeps cache].
  rewrite <- !app_assoc. repeat split.
Qed.

(** ** From the request to the prediction *)

(** Property X21.  Without the cache, a request for coordinates in
    Colorado whose two upstream exchanges succeed is answered with the
    prediction for the decoded forecast: the handler asks for the point,
    then, once, for the URL that the metadata gives (its first "forecast"
    replaced by "forecast/hourly"), does not sleep, and answers with what
    [predictRainbow] makes of the forecast for the location written with
    four decimals. *)
Theorem uncached_prediction_end_to_end
        {lib : Library} {dec : WeatherGov.Decoder Gov.PointMetadata} (net : Upstream)
        (q_lat q_lon : string) (lat lon : Q) (w : World NoCache)
        (raw1 raw2 : string) (metadata : Gov.PointMetadata)
        (forecast : WeatherGov.ForecastData) :
  ParseFloat q_lat = inl lat ->
  ParseFloat q_lon = inl lon ->
  HandlerSpec.inColorado lat lon ->
  let url1 := HandlerSpec.pointsURL lat lon in
  let url2 := replaceFirst (Gov.Forecast metadata) "forecast" "forecast/hourly" in
  let w1 := snd (roundTrip net url1 w) in
  NewRequest url1 = None ->
  reply (net (now w) (requests w) url1) = Response 200 (Bytes raw1) ->
  WeatherGov.decodePointMetadata raw1 Gov.zeroPointMetadata = (metadata, None) ->
  Gov.Forecast metadata <> EmptyString ->
  NewRequest url2 = None ->
  reply (net (now w1) (requests w1) url2) = Response 200 (Bytes raw2) ->
  WeatherGov.decodeForecastData raw2 WeatherGov.zeroForecastData = (forecast, None) ->
  exists prediction w',
    Gov.handlePrediction net q_lat q_lon w = (Ok (WeatherGov.PredictionJSON prediction), w') /\
    requests w' = requests w ++ [url1; url2] /\
    sleeps w' = sleeps w /\
    fst (Gov.predictRainbow forecast (verb_4f lat +:+ ", " +:+ verb_4f lon) w) = Ok prediction.
Proof.
  intros Elat Elon [[H1 H2] [H3 H4]] url1 url2 w1 E1 Er1 Ed1 Hne E2 Er2 Ed2.
  assert (Ebox : Qlt_bool lat 37 || Qlt_bool 41 lat || Qlt_bool lon (-109)
                 || Qlt_bool (-102) lon = false).
  { rewrite !orb_false_iff, !Qlt_bool_false_iff. tauto. }
  unfold Gov.handlePrediction. rewrite Elat, Elon, Ebox.
  unfold bind at 1. unfold Gov.fetchPointMetadata.
  fold (HandlerSpec.pointsURL lat lon). fold url1. rewrite E1.
  unfold bind at 1. unfold roundTrip at 1. cbn [fst snd]. rewrite Er1.
  change (200 =? WeatherGov.StatusNotFound)%Z with false.
  change (negb (200 =? WeatherGov.StatusOK)%Z) with false. cbv iota.
  rewrite Ed1. unfold ret at 1. cbv iota beta.
  unfold bind at 1. unfold Gov.fetchForecast.
  apply String.eqb_neq in Hne. rewrite Hne. fold url2.
  unfold bind at 1. unfold Gov.fetchJSONWithRetry, WeatherGov.fetchJSONWithRetry.
  change (Z.to_nat 3) with 3%nat.
  fold w1 in Er2 |- *.
  assert (Efetch : Gov.fetchJSON net url2 (WeatherGov.OfForecastData WeatherGov.zeroForecastData)
                                 (mkWorld (now w + took (net (now w) (requests w) url1))%Z
                                          (requests w ++ [url1]) (sleeps w) (logged w) (cache w))
                   = (Ok (WeatherGov.OfForecastData forecast, None),
                      mkWorld (now w1 + took (net (now w1) (requests w1) url2))%Z
                              (requests w1 ++ [url2]) (sleeps w1)
                              (logged w1 ++ [mkLog InfoLevel "Fetching JSON"
                                                   [("url", VString url2)]])
                              (cache w1))).
  { unfold Gov.fetchJSON, bind, log, roundTrip, ret. rewrite E2. cbn [fst snd now requests].
    change (mkWorld (now w + took (net (now w) (requests w) url1))%Z
                    (requests w ++ [url1]) (sleeps w) (logged w) (cache w)) with w1 in *.
    unfold w1 at 1 2. unfold roundTrip. cbn [snd now requests].
    unfold w1, roundTrip in Er2. cbn [snd now requests] in Er2. rewrite Er2.
    change (negb (200 =? WeatherGov.StatusOK)%Z) with false. cbv iota.
    unfold WeatherGov.Unmarshal. rewrite Ed2. reflexivity. }
  rewrite (RetryFacts.retryLoop_success _ _ _ _ _ _ _ _ _ Efetch).
  unfold ret at 1. cbv iota beta. cbn [WeatherGov.forecastOf].
  unfold bind at 1. rewrite !GovFacts.predictRainbow_run. unfold ret.
  do 2 eexists. split; [reflexivity|].
  cbn [requests sleeps Scan.addLog fst]. unfold w1, roundTrip. cbn [snd requests sleeps].
  rewrite <- app_assoc. repeat split.
Qed.

(** Property X22.  With the cache, the first request for coordinates in
    Colorado, when neither URL has an entry and both exchanges succeed,
    is answered with the prediction for the decoded forecast after two
    requests and no sleep, and leaves two entries in the cache: the
    metadata under the URL of the point and the forecast under the URL of
    the hourly forecast (taken from the metadata as it is), each to expire
    15 minutes after its answer. *)
Theorem cached_prediction_on_a_cold_cache
        {lib : Library} {dec : WeatherGov.Decoder GovCached.PointMetadata} (net : Upstream)
        (q_lat q_lon : string) (lat lon : Q) (w : World GovCached.Target)
        (raw1 raw2 : string) (metadata : GovCached.PointMetadata)
        (forecast : WeatherGov.ForecastData) :
  ParseFloat q_lat = inl lat ->
  ParseFloat q_lon = inl lon ->
  HandlerSpec.inColorado lat lon ->
  let url1 := HandlerSpec.pointsURL lat lon in
  let url2 := GovCached.ForecastHourly metadata in
  let w1 := snd (roundTrip net url1 w) in
  let w2 := snd (roundTrip net url2 w1) in
  NewRequest url1 = None ->
  cache w !! url1 = None ->
  reply (net (now w) (requests w) url1) = Response 200 (Bytes raw1) ->
  WeatherGov.decodePointMetadata raw1 GovCached.zeroPointMetadata = (metadata, None) ->
  url2 <> EmptyString ->
  url2 <> url1 ->
  NewRequest url2 = None ->
  cache w !! url2 = None ->
  reply (net (now w1) (requests w1) url2) = Response 200 (Bytes raw2) ->
  WeatherGov.decodeForecastData raw2 WeatherGov.zeroForecastData = (forecast, None) ->
  exists prediction w',
    GovCached.handlePrediction net q_lat q_lon w
    = (Ok (WeatherGov.PredictionJSON prediction), w') /\
    requests w' = requests w ++ [url1; url2] /\
    sleeps w' = sleeps w /\
    cache w' = <[url2 := mkCacheEntry (WeatherGov.OfForecastData forecast)
                                      (now w2 + GovCached.ttl)%Z]>
                 (<[url1 := mkCacheEntry (WeatherGov.OfPointMetadata metadata)
                                         (now w1 + GovCached.ttl)%Z]> (cache w)) /\
    fst (GovCached.predictRainbow forecast lat lon w) = Ok prediction.
Proof.
  intros Elat Elon [[H1 H2] [H3 H4]] url1 url2 w1 w2 E1 Ec1 Er1 Ed1 Hne Hdiff E2 Ec2 Er2 Ed2.
  assert (Ebox : Qlt_bool lat 37 || Qlt_bool 41 lat || Qlt_bool lon (-109)
                 || Qlt_bool (-102) lon = false).
  { rewrite !orb_false_iff, !Qlt_bool_false_iff. tauto. }
  unfold GovCached.handlePrediction. rewrite Elat, Elon, Ebox.
  unfold bind at 1. unfold GovCached.fetchPointMetadata.
  fold (HandlerSpec.pointsURL lat lon). fold url1. unfold bind at 1.
  unfold GovCached.fetchJSONWithRetry, WeatherGov.fetchJSONWithRetry.
  change (Z.to_nat 3) with 3%nat.
  assert (Eu1 : WeatherGov.Unmarshal raw1 (WeatherGov.OfPointMetadata GovCached.zeroPointMetadata)
                = (WeatherGov.OfPointMetadata metadata, None))
    by (unfold WeatherGov.Unmarshal; now rewrite Ed1).
  rewrite (RetryFacts.retryLoop_success _ _ _ _ _ _ _ _ _
             (ColdCache.fetchJSON_stored net url1 _ w raw1 _ E1 Ec1 Er1 Eu1)).
  unfold ret at 1. cbv iota beta. cbn [WeatherGov.metadataOf].
  unfold bind at 1. unfold GovCached.fetchForecast. fold url2.
  apply String.eqb_neq in Hne. rewrite Hne. unfold bind at 1.
  unfold GovCached.fetchJSONWithRetry, WeatherGov.fetchJSONWithRetry.
  change (Z.to_nat 3) with 3%nat.
  assert (Eu2 : WeatherGov.Unmarshal raw2 (WeatherGov.OfForecastData WeatherGov.zeroForecastData)
                = (WeatherGov.OfForecastData forecast, None))
    by (unfold WeatherGov.Unmarshal; now rewrite Ed2).
  unfold w1, roundTrip in Er2. cbn [snd now requests] in Er2.
  match goal with
  | |- context [WeatherGov.retryLoop _ 3 _ url2 ?t _ ?w0] =>
      rewrite (RetryFacts.retryLoop_success _ _ _ _ _ _ _ _ _
                 (ColdCache.fetchJSON_stored net url2 t w0 raw2 _ E2
                    ltac:(cbn [cache]; rewrite lookup_insert_ne by congruence; exact Ec2)
                    Er2 Eu2))
  end.
  unfold ret at 1. cbv iota beta. cbn [WeatherGov.forecastOf].
  unfold bind at 1. rewrite !GovCachedFacts.cached_predictRainbow_run. unfold ret.
  do 2 eexists. split; [reflexivity|].
  cbn [requests sleeps cache now Scan.addLog fst].
  unfold w2, w1, roundTrip. cbn [snd requests sleeps now].
  rewrite <- app_assoc. repeat split.
Qed.

(** * The further properties at concrete inputs *)

(** Property X2: an upstream that answers 503. *)
Lemma prediction_reports_the_fetch_error_witness :
  let library := Reference.library in
  fst (OpenWeather.handlePrediction "key" Scenario.down Scenario.decodesDrizzle
                                    "39.5" "-105.0" (boot 0))
  = Ok (OpenWeather.HttpError
          500 "Error fetching weather data: API request failed with status code: 503").
Proof.
  cbv zeta.
  refine (prediction_reports_the_fetch_error (lib := Reference.library) "key" Scenario.down
            Scenario.decodesDrizzle "39.5" "-105.0" (395 # 10) (- (1050 # 10)) (boot 0) _ _);
    vm_compute; reflexivity.
Defined.

(** Property X3: an answer with two hourly entries that both score 0, a
    clear sky and a condition code below 200. *)
Lemma prediction_without_a_positive_entry_witness :
  let library := Reference.library in
  length (OpenWeather.Hourly Cases.clearSky) = 2%nat /\
  fst (OpenWeather.handlePrediction "key" Scenario.healthy Cases.decodesClearSky
                                    "39.5" "-105.0" (boot 0))
  = Ok (OpenWeather.PredictionJSON
          (OpenWeather.mkRainbowPrediction 0 "39.5000, -105.0000" "0001-01-01T00:00:00Z")).
Proof.
  cbv zeta. split; [reflexivity|].
  rewrite (prediction_without_a_positive_entry (lib := Reference.library) "key"
             Scenario.healthy Cases.decodesClearSky "39.5" "-105.0"
             (395 # 10) (- (1050 # 10)) (boot 0) (Bytes "{}") Cases.clearSky).
  - vm_compute. reflexivity.
  - vm_compute. reflexivity.
  - vm_compute. reflexivity.
  - reflexivity.
  - reflexivity.
  - repeat constructor; try discriminate; vm_compute; intros H; discriminate H.
Defined.

(** Property X4: the brighter of two samples under the same drizzle. *)
Lemma scorer_is_monotone_witness :
  let library := Reference.library in
  exists q1 q2,
    fst (OpenWeather.calculateRainbowLikelihood Samples.bright (boot 0)) = Ok q1 /\
    fst (OpenWeather.calculateRainbowLikelihood Samples.dull (boot 0)) = Ok q2 /\
    q2 <= q1.
Proof.
  cbv zeta. do 2 eexists.
  split; [vm_compute; reflexivity|]. split; [vm_compute; reflexivity|].
  eapply (scorer_is_monotone (lib := Reference.library) Samples.bright Samples.dull
            (boot 0) (boot 0)).
  - reflexivity.
  - reflexivity.
  - vm_compute. discriminate.
  - vm_compute. discriminate.
  - vm_compute. discriminate.
  - vm_compute. discriminate.
  - vm_compute. discriminate.
  - vm_compute. reflexivity.
  - vm_compute. reflexivity.
Defined.



(** Property X7: radius 0 and resolution 0, five iterations against an
    upstream that answers 503. *)
Lemma zero_radius_and_step_flood_the_upstream_witness :
  let library := Reference.library in
  let run := OpenWeather.handleHeatmapData "key" Scenario.down Scenario.decodesDrizzle
                                           5 "39.5" "-105.0" "0" "0" (boot 0) in
  fst run = Ok None /\
  exists new,
    requests (snd run) = requests (boot (Cached := NoCache) 0) ++ new /\
    Forall (HeatmapPoints.atCentre "key" (395 # 10) (- (1050 # 10))) new /\
    (length new <= 5)%nat /\
    (fst run = Ok None -> length new = 5%nat) /\
    forall written, fst run <> Ok (Some written).
Proof.
  cbv zeta. split; [vm_compute; reflexivity|].
  refine (zero_radius_and_step_flood_the_upstream (lib := Reference.library) "key"
            Scenario.down Scenario.decodesDrizzle "39.5" "-105.0" "0" "0"
            (395 # 10) (- (1050 # 10)) 0 0 _ _ _ _ _ _ 5%nat (boot 0)).
  - vm_compute. reflexivity.
  - vm_compute. reflexivity.
  - vm_compute. reflexivity.
  - vm_compute. reflexivity.
  - reflexivity.
  - reflexivity.
Defined.

(** Property X8: an upstream that answers 404. *)
Lemma uncached_metadata_is_fetched_once_witness :
  let library := Reference.library in
  let decoder := Scenario.carries Cases.boulder
                                  (WeatherGov.mkForecastData [Scenario.rainyAfternoon]) in
  Gov.fetchPointMetadata Cases.notFound (395 # 10) (- (105 # 1)) (boot 0)
  = (Ok (Gov.zeroPointMetadata,
         Some (ErrorString "no data available for coordinates: 39.5000, -105.0000")),
     mkWorld 1 ["https://api.weather.gov/points/39.5000,-105.0000"] [] [] ∅).
Proof.
  cbv zeta.
  destruct (uncached_metadata_is_fetched_once
              (lib := Reference.library)
              (dec := Scenario.carries Cases.boulder
                                       (WeatherGov.mkForecastData [Scenario.rainyAfternoon]))
              Cases.notFound (395 # 10) (- (105 # 1)) (boot 0))
    as (metadata & err & Hrun & Hzero & H404).
  - vm_compute. reflexivity.
  - rewrite Hrun. rewrite (H404 (Bytes EmptyString)) in * by reflexivity.
    rewrite Hzero by discriminate. vm_compute. reflexivity.
Defined.

(** Property X9: the metadata of Boulder and an upstream that answers
    503 to every request. *)
Lemma uncached_forecast_fetch_witness :
  let library := Reference.library in
  let decoder := Scenario.carries Cases.boulder
                                  (WeatherGov.mkForecastData [Scenario.rainyAfternoon]) in
  exists err w',
    Gov.fetchForecast Scenario.down Cases.boulder (boot 0)
    = (Ok (WeatherGov.zeroForecastData, Some err), w') /\
    requests w'
    = repeat "https://api.weather.gov/gridpoints/BOU/62,61/forecast/hourly/hourly" 3 /\
    sleeps w' = [1; 2; 3]%Z /\
    Error err = "error fetching hourly forecast: max retries reached: unexpected status code: 503".
Proof.
  cbv zeta.
  destruct (uncached_forecast_fetch
              (lib := Reference.library)
              (dec := Scenario.carries Cases.boulder
                                       (WeatherGov.mkForecastData [Scenario.rainyAfternoon]))
              Scenario.down Cases.boulder (boot 0)) as [_ Hfetch].
  destruct Hfetch as (k & f & forecast & err & w' & Hrun & Hreq & Hsl & Hk & Herr).
  - discriminate.
  - vm_compute. reflexivity.
  - eassert (E : fst (Gov.fetchForecast
                        (lib := Reference.library)
                        (dec := Scenario.carries Cases.boulder
                                  (WeatherGov.mkForecastData [Scenario.rainyAfternoon]))
                        Scenario.down Cases.boulder (boot 0)) = Ok (_, Some _))
      by (vm_compute; reflexivity).
    rewrite Hrun in E. cbn [fst] in E. injection E as -> ->.
    destruct Herr as (-> & -> & _ & _).
    do 2 eexists. split; [exact Hrun|]. split; [rewrite Hreq; vm_compute; reflexivity|].
    split; [rewrite Hsl; reflexivity|]. vm_compute. reflexivity.
Defined.

(** Property X10: the URL of the hourly forecast of Boulder. *)
Lemma hourly_forecast_url_is_rewritten_witness :
  let library := Reference.library in
  let decoder := Scenario.carries Cases.boulder
                                  (WeatherGov.mkForecastData [Scenario.rainyAfternoon]) in
  Gov.Forecast Cases.boulder
  = "https://api.weather.gov/gridpoints/BOU/62,61/" +:+ "forecast" +:+ "/hourly" /\
  exists k,
    (1 <= k <= 3)%nat /\
    requests (snd (Gov.fetchForecast Scenario.healthy Cases.boulder (boot 0)))
    = requests (boot (Cached := NoCache) 0)
      ++ repeat ("https://api.weather.gov/gridpoints/BOU/62,61/" +:+ "forecast/hourly"
                 +:+ "/hourly") k.
Proof.
  cbv zeta. split; [reflexivity|].
  refine (proj1 (hourly_forecast_url_is_rewritten
                   (lib := Reference.library)
                   (dec := Scenario.carries Cases.boulder
                             (WeatherGov.mkForecastData [Scenario.rainyAfternoon]))
                   Scenario.healthy Cases.boulder (boot 0))
                "https://api.weather.gov/gridpoints/BOU/62,61/" "/hourly" _ _ _).
  - reflexivity.
  - vm_compute. reflexivity.
  - vm_compute. reflexivity.
Defined.

(** Property X12: a latitude just south of the border, and the
    south-east corner of the box. *)
Lemma coordinates_outside_colorado_witness :
  let library := Reference.library in
  let decoder := Scenario.carries Cases.boulder
                                  (WeatherGov.mkForecastData [Scenario.rainyAfternoon]) in
  let refusal := WeatherGov.HttpError 400 "Coordinates are outside of Colorado" in
  Gov.handlePrediction Scenario.healthy "36.9999" "-105.0" (boot 0) = (Ok refusal, boot 0) /\
  fst (Gov.handlePrediction Scenario.healthy "37" "-102" (boot 0)) <> Ok refusal.
Proof.
  cbv zeta. split.
  - refine (proj1 (proj1 (coordinates_outside_colorado
                            (lib := Reference.library) Scenario.healthy "36.9999" "-105.0"
                            (369999 # 10000) (- (1050 # 10)) _ _) _) _ (boot 0)).
    + vm_compute. reflexivity.
    + vm_compute. reflexivity.
    + left. reflexivity.
  - refine (proj1 (proj2 (coordinates_outside_colorado
                            (lib := Reference.library) Scenario.healthy "37" "-102"
                            37 (- (102 # 1)) _ _) _) _ (boot 0)).
    + vm_compute. reflexivity.
    + vm_compute. reflexivity.
    + unfold HandlerSpec.inColorado. repeat split; vm_compute; discriminate.
Defined.

(** Property X13: the same coordinates asked for twice in a row. *)
Lemma repeated_prediction_panics_witness :
  let library := Reference.library in
  let decoder := Scenario.carries Cases.boulderCached
                                  (WeatherGov.mkForecastData [Scenario.rainyAfternoon]) in
  let first := GovCached.handlePrediction Scenario.healthy "39.5" "-105.0" (boot 0) in
  (exists prediction, fst first = Ok (WeatherGov.PredictionJSON prediction)) /\
  GovCached.handlePrediction Scenario.healthy "39.5" "-105.0" (snd first)
  = (Panic (InterfaceConversion "*main.PointMetadata" "*interface {}"), snd first).
Proof.
  cbv zeta.
  eassert (Er : GovCached.handlePrediction
                  (lib := Reference.library)
                  (dec := Scenario.carries Cases.boulderCached
                            (WeatherGov.mkForecastData [Scenario.rainyAfternoon]))
                  Scenario.healthy "39.5" "-105.0" (boot 0)
                = (Ok (WeatherGov.PredictionJSON _), _)) by (vm_compute; reflexivity).
  destruct (repeated_prediction_panics _ _ _ _ _ _ Er)
    as (lat & lon & entry & Elat & Elon & Hentry & Hlater).
  rewrite Er. cbn [fst snd]. split; [eexists; reflexivity|].
  apply Hlater; [exact Hentry|].
  vm_compute in Elat. injection Elat as <-.
  vm_compute in Elon. injection Elon as <-.
  vm_compute in Hentry. injection Hentry as <-.
  vm_compute. reflexivity.
Defined.

(** Property X15: a freezing morning between two candidates. *)
Lemma periods_without_liquid_rain_never_win_witness :
  let library := Reference.library in
  fst (Gov.predictRainbow
         (WeatherGov.mkForecastData
            ([Scenario.overcastNoon] ++ Scenario.frozenNine :: [Scenario.rainyAfternoon]))
         "39.5000, -105.0000" (boot 0))
  = fst (Gov.predictRainbow
           (WeatherGov.mkForecastData ([Scenario.overcastNoon] ++ [Scenario.rainyAfternoon]))
           "39.5000, -105.0000" (boot 0)) /\
  fst (GovCached.predictRainbow
         (WeatherGov.mkForecastData
            ([Scenario.rainyAfternoon] ++ Scenario.frozenNine :: [Scenario.rainyEvening]))
         (395 # 10) (- (105 # 1)) (boot 0))
  = fst (GovCached.predictRainbow
           (WeatherGov.mkForecastData ([Scenario.rainyAfternoon] ++ [Scenario.rainyEvening]))
           (395 # 10) (- (105 # 1)) (boot 0)).
Proof.
  cbv zeta.
  destruct (periods_without_liquid_rain_never_win (lib := Reference.library))
    as [Hgov Hcached].
  split.
  - apply Hgov. left. vm_compute. discriminate.
  - apply Hcached. left. vm_compute. discriminate.
Defined.

(** Property X16: rain at 16:00 in June. *)
Lemma cached_candidates_need_a_low_sun_witness :
  let library := Reference.library in
  exists m t,
    GovCachedSpec.candidate Scenario.rainyAfternoon = Some (m, t) /\
    Minute t = 0%Z /\ 0 < m /\
    SunSpec.lowSunInside (SunSpec.clock t) /\
    (Hour t = 7 \/ Hour t = 8 \/ Hour t = 16 \/ Hour t = 17)%Z.
Proof.
  cbv zeta. do 2 eexists.
  split; [vm_compute; reflexivity|]. split; [reflexivity|]. split; [reflexivity|].
  match goal with
  | |- SunSpec.lowSunInside (SunSpec.clock ?t) /\ _ =>
      eassert (Hc : GovCachedSpec.candidate (lib := Reference.library) Scenario.rainyAfternoon
                    = Some (_, t)) by (vm_compute; reflexivity)
  end.
  destruct (cached_candidates_need_a_low_sun (lib := Reference.library) _ _ _ Hc)
    as (_ & _ & _ & _ & _ & Hiff & Hhour).
  split; [apply Hiff; reflexivity|]. apply Hhour; reflexivity.
Defined.

(** Property X17: rain at 16:00 with a wind of 10 mph under half a sky of
    clouds. *)
Lemma uncached_likelihood_is_positive_witness :
  let library := Reference.library in
  exists m t,
    GovSpec.nominal Scenario.rainyAfternoon /\
    GovSpec.candidate Scenario.rainyAfternoon = Some (m, t) /\
    (0 < m <->
     32 < WeatherGov.Temperature Scenario.rainyAfternoon /\
     0 < WeatherGov.ProbabilityOfPrecipitation Scenario.rainyAfternoon < 100 /\
     (0 < WeatherGov.CloudCover Scenario.rainyAfternoon < 100)%Z /\
     exists v,
       ParseFloat (firstField (WeatherGov.WindSpeed Scenario.rainyAfternoon)) = inl v /\
       0 < v < 20) /\
    0 < m.
Proof.
  cbv zeta. do 2 eexists.
  assert (Hn : GovSpec.nominal Scenario.rainyAfternoon)
    by (repeat split; vm_compute; discriminate).
  split; [exact Hn|]. split; [vm_compute; reflexivity|].
  match goal with
  | |- (0 < ?m <-> _) /\ _ =>
      eassert (Hc : GovSpec.candidate (lib := Reference.library) Scenario.rainyAfternoon
                    = Some (m, _)) by (vm_compute; reflexivity)
  end.
  destruct (uncached_likelihood_is_positive (lib := Reference.library) _ _ _ Hn Hc)
    as (_ & _ & Hiff & _).
  split; [exact Hiff|reflexivity].
Defined.

(** Property X18: a limit of 0. *)
Lemma retry_for_any_limit_witness :
  let library := Reference.library in
  let decoder := Scenario.carries Cases.boulder
                                  (WeatherGov.mkForecastData [Scenario.rainyAfternoon]) in
  let target := WeatherGov.OfForecastData WeatherGov.zeroForecastData in
  exists e,
    Gov.fetchJSONWithRetry Scenario.healthy Scenario.forecastURL target 0 (boot 0)
    = (Ok (target, Some e), boot 0) /\
    Error e = "max retries reached: %!w(<nil>)".
Proof.
  cbv zeta.
  destruct (retry_for_any_limit
              (lib := Reference.library)
              (dec := Scenario.carries Cases.boulder
                                       (WeatherGov.mkForecastData [Scenario.rainyAfternoon]))
              Scenario.healthy Scenario.forecastURL
              (WeatherGov.OfForecastData WeatherGov.zeroForecastData) 0 (boot 0))
    as (k & f & t & err & w' & Hrun & _ & _ & Hk & Herr).
  - vm_compute. reflexivity.
  - destruct err as [e|]; [|lia].
    destruct Herr as (_ & _ & -> & -> & _ & Htext).
    exists e. split; [exact Hrun|exact Htext].
Defined.

(** Property X20: an upstream that answers 404. *)
Lemma cached_metadata_is_retried_witness :
  let library := Reference.library in
  let decoder := Scenario.carries Cases.boulderCached
                                  (WeatherGov.mkForecastData [Scenario.rainyAfternoon]) in
  exists err w',
    GovCached.fetchPointMetadata Cases.notFound (395 # 10) (- (105 # 1)) (boot 0)
    = (Ok (GovCached.zeroPointMetadata, Some err), w') /\
    requests w' = repeat "https://api.weather.gov/points/39.5000,-105.0000" 3 /\
    sleeps w' = [1; 2; 3]%Z /\
    Error err = "error fetching point metadata: max retries reached: unexpected status code: 404".
Proof.
  cbv zeta.
  destruct (cached_metadata_is_retried
              (lib := Reference.library)
              (dec := Scenario.carries Cases.boulderCached
                                       (WeatherGov.mkForecastData [Scenario.rainyAfternoon]))
              Cases.notFound (395 # 10) (- (105 # 1)) (boot 0))
    as (err & w' & code & Hrun & Hreq & Hsl & _ & Htext).
  - vm_compute. reflexivity.
  - vm_compute. reflexivity.
  - intros t sent. exists 404%Z, (Bytes EmptyString). split; [reflexivity|discriminate].
  - exists err, w'. split; [exact Hrun|]. split; [rewrite Hreq; vm_compute; reflexivity|].
    split; [exact Hsl|].
    eassert (E : fst (GovCached.fetchPointMetadata
                        (lib := Reference.library)
                        (dec := Scenario.carries Cases.boulderCached
                                  (WeatherGov.mkForecastData [Scenario.rainyAfternoon]))
                        Cases.notFound (395 # 10) (- (105 # 1)) (boot 0)) = Ok (_, Some _))
      by (vm_compute; reflexivity).
    rewrite Hrun in E. cbn [fst] in E. injection E as ->. vm_compute. reflexivity.
Defined.

(** Property X21: Boulder, with an upstream that answers every request
    with a 200. *)
Lemma uncached_prediction_end_to_end_witness :
  let library := Reference.library in
  let decoder := Scenario.carries Cases.boulder
                                  (WeatherGov.mkForecastData [Scenario.rainyAfternoon]) in
  exists prediction w',
    Gov.handlePrediction Scenario.healthy "39.5" "-105.0" (boot 0)
    = (Ok (WeatherGov.PredictionJSON prediction), w') /\
    requests w'
    = ["https://api.weather.gov/points/39.5000,-105.0000";
       "https://api.weather.gov/gridpoints/BOU/62,61/forecast/hourly/hourly"] /\
    sleeps w' = [] /\
    WeatherGov.Likelihood prediction == 9 # 4.
Proof.
  cbv zeta.
  destruct (uncached_prediction_end_to_end
              (lib := Reference.library)
              (dec := Scenario.carries Cases.boulder
                                       (WeatherGov.mkForecastData [Scenario.rainyAfternoon]))
              Scenario.healthy "39.5" "-105.0" (395 # 10) (- (1050 # 10)) (boot 0)
              "{}" "{}" Cases.boulder (WeatherGov.mkForecastData [Scenario.rainyAfternoon]))
    as (prediction & w' & Hrun & Hreq & Hsl & Hp).
  - vm_compute. reflexivity.
  - vm_compute. reflexivity.
  - unfold HandlerSpec.inColorado. repeat split; vm_compute; discriminate.
  - vm_compute. reflexivity.
  - vm_compute. reflexivity.
  - reflexivity.
  - discriminate.
  - vm_compute. reflexivity.
  - vm_compute. reflexivity.
  - reflexivity.
  - exists prediction, w'. split; [exact Hrun|].
    split; [rewrite Hreq; vm_compute; reflexivity|]. split; [exact Hsl|].
    vm_compute in Hp. injection Hp as <-. reflexivity.
Defined.

(** Property X22: the same request to the program with the cache. *)
Lemma cached_prediction_on_a_cold_cache_witness :
  let library := Reference.library in
  let decoder := Scenario.carries Cases.boulderCached
                                  (WeatherGov.mkForecastData [Scenario.rainyAfternoon]) in
  let url1 := "https://api.weather.gov/points/39.5000,-105.0000" in
  let url2 := "https://api.weather.gov/gridpoints/BOU/62,61/forecast/hourly" in
  exists prediction w',
    GovCached.handlePrediction Scenario.healthy "39.5" "-105.0" (boot 0)
    = (Ok (WeatherGov.PredictionJSON prediction), w') /\
    requests w' = [url1; url2] /\
    cache w' !! url1
    = Some (mkCacheEntry (WeatherGov.OfPointMetadata Cases.boulderCached) (1 + 15 * 60)%Z) /\
    cache w' !! url2
    = Some (mkCacheEntry (WeatherGov.OfForecastData
                            (WeatherGov.mkForecastData [Scenario.rainyAfternoon]))
                         (2 + 15 * 60)%Z).
Proof.
  cbv zeta.
  destruct (cached_prediction_on_a_cold_cache
              (lib := Reference.library)
              (dec := Scenario.carries Cases.boulderCached
                                       (WeatherGov.mkForecastData [Scenario.rainyAfternoon]))
              Scenario.healthy "39.5" "-105.0" (395 # 10) (- (1050 # 10)) (boot 0)
              "{}" "{}" Cases.boulderCached
              (WeatherGov.mkForecastData [Scenario.rainyAfternoon]))
    as (prediction & w' & Hrun & Hreq & _ & Hcache & _).
  - vm_compute. reflexivity.
  - vm_compute. reflexivity.
  - unfold HandlerSpec.inColorado. repeat split; vm_compute; discriminate.
  - vm_compute. reflexivity.
  - vm_compute. reflexivity.
  - vm_compute. reflexivity.
  - reflexivity.
  - discriminate.
  - vm_compute. discriminate.
  - vm_compute. reflexivity.
  - vm_compute. reflexivity.
  - vm_compute. reflexivity.
  - reflexivity.
  - exists prediction, w'. split; [exact Hrun|].
    split; [rewrite Hreq; vm_compute; reflexivity|].
    rewrite Hcache. split; vm_compute; reflexivity.
Defined.
